(** * Solar customer-service chatbot: knowledge retrieval, relevance routing,
      topic guard, completion orchestration and session handling.

    A shallow embedding of [src/knowledge.ts], [src/agent.ts], [src/server.ts],
    [src/api/chat.ts] (the Express application and the serverless handler it is
    followed by) and the standalone serverless handler, with the properties
    the specification states about them.

    Strings.  A JavaScript string is modelled by a Rocq [string], one
    character per code unit, for text in the ASCII range: [toLowerCase], the
    class [\s] and [trim] are the ASCII restrictions of the JavaScript ones.
    The glyphs the formatter emits (pound sign, bullet, tick, cross) are
    carried as the bytes of the source file.  Where a property turns on text
    outside that range, module [Wide] takes strings as sequences of UTF-16
    code units, with [\s] in full and the lower-casing left open.

    Numbers.  Timestamps and counters are integers ([Z], [nat]).  A price is
    a whole number of pence ([N]); [toFixed2] and [numberToString] render it
    the way [Number.prototype.toFixed(2)] and string interpolation render a
    non-negative price with at most two decimals. *)

From Stdlib Require Import Ascii NArith ZArith Bool.
From Stdlib Require Import Numbers.DecimalString.
From stdpp Require Import base option list strings gmap fin_maps.

Local Open Scope Z_scope.

(** ** JavaScript string primitives *)

Module Js.

Definition nl : string := String "010"%char EmptyString.

(** [c.toLowerCase()] on one ASCII character. *)
Definition lowerChar (c : ascii) : ascii :=
  let n := N_of_ascii c in
  if ((65 <=? n) && (n <=? 90))%N then ascii_of_N (n + 32) else c.

(** [s.toLowerCase()] for text of the ASCII range, where it works
    character by character and keeps the length; module [Wide] below does
    not assume either. *)
Fixpoint toLowerCase (s : string) : string :=
  match s with
  | EmptyString => EmptyString
  | String c r => String (lowerChar c) (toLowerCase r)
  end.

(** The class [\s] (tab, line feed, vertical tab, form feed, carriage
    return, space). *)
Definition isSpace (c : ascii) : bool :=
  let n := N_of_ascii c in
  ((9 <=? n) && (n <=? 13) || (n =? 32))%N.

(** [s.split(/\s+/)], with the flag [inSep] set while a run of white space
    is being skipped.  The head of the result is the word in progress. *)
Fixpoint splitWs (inSep : bool) (s : string) : list string :=
  match s with
  | EmptyString => [EmptyString]
  | String c r =>
      if isSpace c then
        if inSep then splitWs true r else EmptyString :: splitWs true r
      else
        match splitWs false r with
        | w :: ws => String c w :: ws
        | [] => [String c EmptyString]
        end
  end.

Definition split (s : string) : list string := splitWs false s.

(** [text.includes(word)]. *)
Fixpoint includes (text word : string) : bool :=
  String.prefix word text ||
  match text with
  | EmptyString => false
  | String _ r => includes r word
  end.

(** [l.join(sep)]. *)
Definition join (sep : string) (l : list string) : string :=
  String.concat sep l.

(** [s.slice(0, n)]. *)
Fixpoint slice0 (n : nat) (s : string) : string :=
  match n, s with
  | S k, String c r => String c (slice0 k r)
  | _, _ => EmptyString
  end.

Fixpoint trimStart (s : string) : string :=
  match s with
  | EmptyString => EmptyString
  | String c r => if isSpace c then trimStart r else s
  end.

Fixpoint trimEnd (s : string) : string :=
  match s with
  | EmptyString => EmptyString
  | String c r =>
      match trimEnd r with
      | EmptyString => if isSpace c then EmptyString else String c EmptyString
      | r' => String c r'
      end
  end.

(** [s.trim()]. *)
Definition trim (s : string) : string := trimEnd (trimStart s).

(** Truthiness of a string: every string but the empty one. *)
Definition truthy (s : string) : bool :=
  match s with
  | EmptyString => false
  | String _ _ => true
  end.

(** Truthiness of an optional string field ([undefined] is falsy). *)
Definition truthyOpt (o : option string) : bool :=
  match o with
  | Some s => truthy s
  | None => false
  end.

(** [l.filter(Boolean)] on an array of strings some of which are
    [undefined]. *)
Definition filterBoolean (l : list (option string)) : list string :=
  omap (fun o => match o with
                 | Some s => if truthy s then Some s else None
                 | None => None
                 end) l.

Definition decimal (n : N) : string := NilEmpty.string_of_uint (N.to_uint n).

(** [price.toFixed(2)] for a price of [pence] hundredths. *)
Definition toFixed2 (pence : N) : string :=
  let r := (pence mod 100)%N in
  decimal (pence / 100) +:+ "." +:+ decimal (r / 10) +:+ decimal (r mod 10).

(** [String(price)]: no trailing zeros, no point for a whole number. *)
Definition numberToString (pence : N) : string :=
  let q := (pence / 100)%N in
  let r := (pence mod 100)%N in
  if (r =? 0)%N then decimal q
  else if (r mod 10 =? 0)%N then decimal q +:+ "." +:+ decimal (r / 10)
  else decimal q +:+ "." +:+ decimal (r / 10) +:+ decimal (r mod 10).

End Js.

(** ** The knowledge store ([src/knowledge.ts]) *)

Module Knowledge.
Import Js.

Record Product := {
  prod_id : string;
  prod_name : string;
  prod_category : string;
  prod_description : string;
  prod_price : N;
  prod_inStock : bool;
  (** [specs?: Record<string, string>], in the order [Object.entries]
      enumerates it. *)
  prod_specs : option (list (string * string))
}.

Record FAQ := {
  faq_id : string;
  faq_question : string;
  faq_answer : string;
  (** Read through [item.keywords?.join]: a record loaded without the
      field is tolerated. *)
  faq_keywords : option (list string)
}.

Record Policy := {
  pol_id : string;
  pol_topic : string;
  pol_title : string;
  pol_content : string
}.

(** The bound of [searchByKeyword]'s type parameter:
    [{ name?; question?; title?; keywords?; description? }]. *)
Class Searchable (T : Type) := {
  name : T -> option string;
  question : T -> option string;
  title : T -> option string;
  description : T -> option string;
  keywords : T -> option (list string)
}.

#[global] Instance Product_Searchable : Searchable Product := {|
  name p := Some (prod_name p);
  question _ := None;
  title _ := None;
  description p := Some (prod_description p);
  keywords _ := None
|}.

#[global] Instance FAQ_Searchable : Searchable FAQ := {|
  name _ := None;
  question f := Some (faq_question f);
  title _ := None;
  description _ := None;
  keywords f := faq_keywords f
|}.

#[global] Instance Policy_Searchable : Searchable Policy := {|
  name _ := None;
  question _ := None;
  title p := Some (pol_title p);
  description _ := None;
  keywords _ := None
|}.

Section Search.
Context {T : Type} `{Searchable T}.

Definition searchableText (item : T) : string :=
  toLowerCase
    (join " "
       (filterBoolean
          [name item; question item; title item; description item;
           join " " <$> keywords item])).

(** The predicate of [queryWords.some]. *)
Definition wordMatches (text word : string) : bool :=
  if (String.length word <? 2)%nat then false else includes text word.

(** The callback of [items.filter]. *)
Definition itemMatches (queryWords : list string) (item : T) : bool :=
  existsb (wordMatches (searchableText item)) queryWords.

Definition searchByKeyword (items : list T) (query : string) : list T :=
  let queryLower := toLowerCase query in
  let queryWords := split queryLower in
  List.filter (itemMatches queryWords) items.
End Search.

Definition searchProducts (products : list Product) (query : string)
  : list Product :=
  if negb (truthy (trim query)) then []
  else take 10 (searchByKeyword products query).

Definition searchFAQs (faqs : list FAQ) (query : string) : list FAQ :=
  if negb (truthy (trim query)) then []
  else take 5 (searchByKeyword faqs query).

(** The predicate of [policies.find] in [lookupPolicy]. *)
Definition directMatch (topicLower : string) (p : Policy) : bool :=
  String.eqb (toLowerCase (pol_topic p)) topicLower
  || includes (toLowerCase (pol_title p)) topicLower.

Definition lookupPolicy (policies : list Policy) (topic : string)
  : option Policy :=
  if negb (truthy (trim topic)) then None
  else
    let topicLower := toLowerCase topic in
    match List.find (directMatch topicLower) policies with
    | Some p => Some p
    | None => head (searchByKeyword policies topic)
    end.

(** The module-level collections [products], [faqs], [policies]. *)
Record KnowledgeBase := {
  products : list Product;
  faqs : list FAQ;
  policies : list Policy
}.

End Knowledge.

(** ** The topic guard's patterns ([isLikelyOffTopic] in [src/agent.ts]) *)

Module Regex.
Import Js.

(** The fragment of regular expressions the guard uses: literals,
    alternations of literals, optional groups and sequences, all under
    the flag [i] without the flag [u]: the letters A to Z are compared
    without case, and no other character equals a letter of a pattern. *)
Inductive Pattern :=
| Lit (s : string)
| Words (alternatives : list string)
| Opt (p : Pattern)
| Seq (p q : Pattern).

(** What is left of [s] after the literal [l], compared without case. *)
Fixpoint stripLit (l s : string) : option string :=
  match l, s with
  | EmptyString, _ => Some s
  | String a l', String b s' =>
      if Ascii.eqb (lowerChar a) (lowerChar b) then stripLit l' s' else None
  | String _ _, EmptyString => None
  end.

(** Every way for [p] to match at the start of [s], as the remainders. *)
Fixpoint matchStart (p : Pattern) (s : string) : list string :=
  match p with
  | Lit l => option_list (stripLit l s)
  | Words ws => omap (fun w => stripLit w s) ws
  | Opt q => matchStart q s ++ [s]
  | Seq q r => flat_map (matchStart r) (matchStart q s)
  end.

Definition matchesHere (p : Pattern) (s : string) : bool :=
  match matchStart p s with
  | [] => false
  | _ :: _ => true
  end.

(** [p.test(s)]: a match starting at some position. *)
Fixpoint test (p : Pattern) (s : string) : bool :=
  matchesHere p s ||
  match s with
  | EmptyString => false
  | String _ r => test p r
  end.

End Regex.

(** ** Messages and the remote completion service *)

Inductive Role := user | assistant | system.

Record Message := { role : Role; content : string }.

Record AgentResponse := { resp_content : string; resp_error : option string }.

(** A value thrown inside [callDeepSeekAPI]: an [Error] with its message,
    or something that is not an [Error]. *)
Inductive Thrown :=
| ErrorWith (message : string)
| OtherValue.

(** What the one [fetch] of a turn comes to. *)
Inductive ProviderOutcome :=
| Rejected (t : Thrown)                    (* fetch, text() or json() rejects *)
| NotOk (status : N) (errorText : string)  (* !response.ok *)
| NoMessage                                (* data.choices?.[0]?.message missing *)
| Replied (content : option string).

(** [callDeepSeekAPI] once the request has been sent. *)
Definition callDeepSeekAPI (o : ProviderOutcome) : Thrown + string :=
  match o with
  | Rejected t => inl t
  | NotOk status errorText =>
      inl (ErrorWith ("DeepSeek API error: " +:+ Js.decimal status +:+ " - " +:+ errorText))
  | NoMessage => inl (ErrorWith "No response from DeepSeek API")
  | Replied c => inr (default EmptyString c)
  end.

(** The keyword lists of [autoSearchKnowledge], the same in every copy. *)
Definition productKeywords : list string :=
  ["product"; "buy"; "price"; "cost"; "stock"; "worktop"; "flooring"; "door";
   "stair"; "oak"; "walnut"; "bamboo"; "quartz"].

Definition policyKeywords : list string :=
  ["return"; "refund"; "shipping"; "delivery"; "warranty"; "terms"; "privacy";
   "policy"; "discount"].

Definition faqKeywords : list string :=
  ["how"; "what"; "can i"; "do you"; "where"; "when"; "faq"; "help"].

(** [keywords.some(k => queryLower.includes(k))]. *)
Definition mentions (kws : list string) (queryLower : string) : bool :=
  existsb (Js.includes queryLower) kws.

(** ** The agent ([src/agent.ts]) *)

Module Agent.
Import Js Knowledge.

Definition offTopicPatterns : list Regex.Pattern :=
  let Lit := Regex.Lit in
  let Words := Regex.Words in
  let Opt := Regex.Opt in
  let Seq := Regex.Seq in
  [ Seq (Lit "write me ")
      (Seq (Opt (Words ["a "; "an "])) (Words ["poem"; "essay"; "story"; "song"]));
    Seq (Lit "what")
      (Seq (Words ["'s"; " is"])
         (Seq (Lit " the ") (Words ["weather"; "time"; "news"; "score"])));
    Seq (Lit "who ") (Seq (Words ["is"; "was"]) (Lit " the president"));
    Seq (Lit "help me with ")
      (Seq (Opt (Lit "my ")) (Words ["homework"; "code"; "resume"]));
    Lit "tell me a joke";
    Lit "what do you think about";
    Lit "what is the meaning of life";
    Lit "can you hack";
    Lit "give me your system prompt";
    Lit "ignore previous instructions" ].

Definition isLikelyOffTopic (message : string) : bool :=
  existsb (fun p => Regex.test p message) offTopicPatterns.

(** One product of the [PRODUCT SEARCH RESULTS] block. *)
Definition formatProduct (p : Product) : string :=
  let specs :=
    match prod_specs p with
    | Some entries =>
        nl +:+ "  Specs: " +:+
        join ", " (map (fun kv => fst kv +:+ ": " +:+ snd kv) entries)
    | None => EmptyString
    end in
  "• " +:+ prod_name p +:+ " (" +:+ prod_category p +:+ ")" +:+ nl +:+
  "  " +:+ prod_description p +:+ nl +:+
  "  Price: £" +:+ toFixed2 (prod_price p) +:+ nl +:+
  "  " +:+ (if prod_inStock p then "✓ In Stock" else "✗ Out of Stock") +:+ specs.

Definition productHeader : string := "PRODUCT SEARCH RESULTS:".
Definition policyHeader : string := "POLICY INFO:".
Definition faqHeader : string := "FAQ RESULTS:".

(** The body of [if (productKeywords.some(...))]: the returned text, or
    [None] when control falls out of the block. *)
Definition productBranch (kb : KnowledgeBase) (query : string) : option string :=
  let results := searchProducts (products kb) query in
  if (0 <? length results)%nat then
    Some (productHeader +:+ nl +:+ nl +:+
          join (nl +:+ nl) (map formatProduct results))
  else None.

(** The body of [if (policyKeywords.some(...))]. *)
Definition policyBranch (kb : KnowledgeBase) (query : string) : option string :=
  match lookupPolicy (policies kb) query with
  | Some policy =>
      Some (policyHeader +:+ nl +:+ nl +:+ pol_title policy +:+ nl +:+ nl +:+
            pol_content policy)
  | None => None
  end.

(** The body of [if (faqKeywords.some(...))]. *)
Definition faqBranch (kb : KnowledgeBase) (query : string) : option string :=
  let results := searchFAQs (faqs kb) query in
  if (0 <? length results)%nat then
    Some (faqHeader +:+ nl +:+ nl +:+
          join (nl +:+ nl +:+ "---" +:+ nl +:+ nl)
            (map (fun f => "Q: " +:+ faq_question f +:+ nl +:+
                           "A: " +:+ faq_answer f) results))
  else None.

(** The three keyword blocks in the order of the source, the same text in
    [src/agent.ts], in the Express application and in the standalone
    handler: the text one of them returns, or [None] when control reaches
    the end of the third. *)
Definition keywordBranches (kb : KnowledgeBase) (query : string) : option string :=
  let queryLower := toLowerCase query in
  match (if mentions productKeywords queryLower
         then productBranch kb query else None) with
  | Some text => Some text
  | None =>
      match (if mentions policyKeywords queryLower
             then policyBranch kb query else None) with
      | Some text => Some text
      | None =>
          if mentions faqKeywords queryLower then faqBranch kb query else None
      end
  end.

(** The part of [autoSearchKnowledge] below the comment
    [Fallback: search everything], up to the returned [context]. *)
Definition fallbackContext (kb : KnowledgeBase) (query : string) : string :=
  let products := searchProducts (products kb) query in
  let faqs := searchFAQs (faqs kb) query in
  let policy := lookupPolicy (policies kb) query in
  let context := EmptyString in
  let context :=
    if (0 <? length products)%nat then
      context +:+ "PRODUCTS:" +:+ nl +:+
      join ", "
        (map (fun p => prod_name p +:+ " - £" +:+ numberToString (prod_price p))
           products) +:+ nl +:+ nl
    else context in
  let context :=
    if (0 <? length faqs)%nat then
      context +:+ "RELATED FAQs:" +:+ nl +:+
      join nl (map faq_question faqs) +:+ nl +:+ nl
    else context in
  match policy with
  | Some policy => context +:+ "POLICY: " +:+ pol_title policy +:+ nl
  | None => context
  end.

Definition noRelevantInformation : string := "No relevant information found.".

Definition autoSearchKnowledge (kb : KnowledgeBase) (query : string) : string :=
  match keywordBranches kb query with
  | Some text => text
  | None =>
      let context := fallbackContext kb query in
      if truthy context then context else noRelevantInformation
  end.

Definition systemNoteText : string :=
  "[SYSTEM NOTE: This message appears to be off-topic. Stay focused on your role as a customer service chatbot. Politely redirect to relevant topics.]".

Definition answerSuffix : string := "Please answer based on this information.".

(** The last operand of [userContent]. *)
Definition knowledgeSection (knowledgeContext : string) : string :=
  if truthy knowledgeContext
  then "RELEVANT KNOWLEDGE:" +:+ nl +:+ knowledgeContext +:+ nl +:+ nl +:+ answerSuffix
  else EmptyString.

Definition userContent (systemNote userMessage knowledgeContext : string)
  : string :=
  systemNote +:+ (if truthy systemNote then nl +:+ nl else EmptyString) +:+
  "CUSTOMER QUESTION: " +:+ userMessage +:+ nl +:+ nl +:+
  knowledgeSection knowledgeContext.

(** The [messages] array [runAgent] hands to [callDeepSeekAPI]. *)
Definition apiMessages (kb : KnowledgeBase) (userMessage : string)
    (conversationHistory : list Message) : list Message :=
  let systemNote :=
    if isLikelyOffTopic userMessage then systemNoteText else EmptyString in
  let copied :=
    map (fun msg => {| role := role msg; content := content msg |})
      conversationHistory in
  let knowledgeContext := autoSearchKnowledge kb userMessage in
  copied ++
  [{| role := user; content := userContent systemNote userMessage knowledgeContext |}].

(** The result of a turn and the requests that went out to the completion
    service during it, each as the [messages] array of its body. *)
Record Turn := { response : AgentResponse; requests : list (list Message) }.

Definition runAgent (systemPrompt : string) (kb : KnowledgeBase)
    (outcome : ProviderOutcome)
    (userMessage : string) (conversationHistory : list Message) : Turn :=
  let messages := apiMessages kb userMessage conversationHistory in
  let body := {| role := system; content := systemPrompt |} :: messages in
  {| response :=
       match callDeepSeekAPI outcome with
       | inr text => {| resp_content := text; resp_error := None |}
       | inl (ErrorWith message) =>
           {| resp_content := EmptyString; resp_error := Some message |}
       | inl OtherValue =>
           {| resp_content := EmptyString;
              resp_error := Some "Unknown error occurred" |}
       end;
     requests := [body] |}.

End Agent.

(** ** The self-contained copies (the Express application in
       [src/api/chat.ts] and the standalone serverless handler) *)

Module Inline.
Import Js Knowledge.

(** Their [autoSearchKnowledge] returns the empty string after the three
    keyword blocks. *)
Definition autoSearchKnowledge (kb : KnowledgeBase) (query : string) : string :=
  match Agent.keywordBranches kb query with
  | Some text => text
  | None => EmptyString
  end.

Definition apiMessages (kb : KnowledgeBase) (userMessage : string)
    (conversationHistory : list Message) : list Message :=
  let copied :=
    map (fun msg => {| role := role msg; content := content msg |})
      conversationHistory in
  let knowledgeContext := autoSearchKnowledge kb userMessage in
  let userContent :=
    "CUSTOMER QUESTION: " +:+ userMessage +:+ nl +:+ nl +:+
    Agent.knowledgeSection knowledgeContext in
  copied ++ [{| role := user; content := userContent |}].

(** [unknownError] is the text for a thrown value that is not an [Error]:
    it differs between the two copies, like the system prompt. *)
Definition runAgent (systemPrompt unknownError : string) (kb : KnowledgeBase)
    (outcome : ProviderOutcome)
    (userMessage : string) (conversationHistory : list Message) : Agent.Turn :=
  let messages := apiMessages kb userMessage conversationHistory in
  let body := {| role := system; content := systemPrompt |} :: messages in
  {| Agent.response :=
       match callDeepSeekAPI outcome with
       | inr text => {| resp_content := text; resp_error := None |}
       | inl (ErrorWith message) =>
           {| resp_content := EmptyString; resp_error := Some message |}
       | inl OtherValue =>
           {| resp_content := EmptyString; resp_error := Some unknownError |}
       end;
     Agent.requests := [body] |}.

Definition mkProduct id name category description price inStock specs : Product :=
  {| prod_id := id; prod_name := name; prod_category := category;
     prod_description := description; prod_price := price;
     prod_inStock := inStock; prod_specs := specs |}.

(** The catalogue both copies carry. *)
Definition products : list Product :=
  [ mkProduct "p1" "Premium Oak Worktop" "Worktops"
      "High-quality solid oak worktop" 14999 true
      (Some [("thickness", "40mm"); ("length", "3m")]);
    mkProduct "p2" "Walnut Flooring" "Flooring"
      "Engineered walnut flooring" 4599 true
      (Some [("thickness", "14mm"); ("width", "150mm")]);
    mkProduct "p3" "Bamboo Stair Nosing" "Stairs"
      "Bamboo stair nosing strip" 2499 true None;
    mkProduct "p4" "Quartz Worktop" "Worktops"
      "Engineered quartz surface" 29999 false None;
    mkProduct "p5" "Composite Decking" "Flooring"
      "Weather-resistant composite boards" 3999 true None ].

(** The FAQs of the standalone handler; the Express application has the
    same four without [keywords]. *)
Definition faqs : list FAQ :=
  [ {| faq_id := "f1"; faq_question := "How do I measure for flooring?";
       faq_answer := "Measure the room length and width, multiply for square meters. Add 10% for wastage.";
       faq_keywords := Some ["measure"; "flooring"; "size"] |};
    {| faq_id := "f2"; faq_question := "What's your delivery time?";
       faq_answer := "Standard delivery is 3-5 working days. Express delivery available for next day.";
       faq_keywords := Some ["delivery"; "time"; "shipping"] |};
    {| faq_id := "f3"; faq_question := "Do you offer installation?";
       faq_answer := "Yes, we can recommend certified installers in your area. Contact us for a quote.";
       faq_keywords := Some ["install"; "fitting"; "service"] |};
    {| faq_id := "f4"; faq_question := "How do I care for oak worktops?";
       faq_answer := "Oil your oak worktop every 3-6 months with danish oil. Wipe clean with damp cloth, avoid harsh chemicals.";
       faq_keywords := Some ["care"; "oil"; "maintenance"; "oak"] |} ].

Definition expressFaqs : list FAQ :=
  map (fun f => {| faq_id := faq_id f; faq_question := faq_question f;
                   faq_answer := faq_answer f; faq_keywords := None |}) faqs.

(** The policies of the standalone handler. *)
Definition policies : list Policy :=
  [ {| pol_id := "pol1"; pol_topic := "returns"; pol_title := "Returns Policy";
       pol_content := "You can return any unused item within 30 days for a full refund. Item must be in original packaging." |};
    {| pol_id := "pol2"; pol_topic := "shipping"; pol_title := "Shipping Information";
       pol_content := "Free delivery on orders over £100. Standard delivery £9.99. Next day delivery £19.99." |};
    {| pol_id := "pol3"; pol_topic := "warranty"; pol_title := "Warranty";
       pol_content := "All products come with minimum 1 year manufacturer warranty. Extended warranty available on request." |} ].

(** The policies of the Express application. *)
Definition expressPolicies : list Policy :=
  [ {| pol_id := "pol1"; pol_topic := "returns"; pol_title := "Returns Policy";
       pol_content := "You can return any unused item within 30 days for a full refund." |};
    {| pol_id := "pol2"; pol_topic := "shipping"; pol_title := "Shipping Information";
       pol_content := "Free delivery on orders over £100. Standard delivery £9.99. Next day £19.99." |};
    {| pol_id := "pol3"; pol_topic := "warranty"; pol_title := "Warranty";
       pol_content := "All products come with minimum 1 year manufacturer warranty." |} ].

Definition standaloneKB : KnowledgeBase :=
  {| Knowledge.products := products; Knowledge.faqs := faqs;
     Knowledge.policies := policies |}.

Definition expressKB : KnowledgeBase :=
  {| Knowledge.products := products; Knowledge.faqs := expressFaqs;
     Knowledge.policies := expressPolicies |}.

Definition expressPrompt : string :=
  "You are a friendly customer service chatbot for a UK home improvement store. Help with products, pricing, delivery, returns. Be concise and professional.".

Definition standalonePrompt : string :=
  "You are a friendly customer service chatbot for a UK home improvement store. You help customers with:" +:+ nl +:+
  "- Product recommendations and pricing" +:+ nl +:+
  "- Flooring, worktops, stairs, and doors" +:+ nl +:+
  "- Delivery and shipping questions" +:+ nl +:+
  "- Returns and warranty information" +:+ nl +:+ nl +:+
  "Be helpful, concise, and professional. Use UK English spelling.".

Definition expressRunAgent := runAgent expressPrompt "Unknown error" expressKB.
Definition standaloneRunAgent :=
  runAgent standalonePrompt "Unknown error occurred" standaloneKB.

End Inline.

(** ** Configuration ([src/config.ts]) *)

Module CONFIG.
Definition SESSION_TIMEOUT_MS : Z := 30 * 60 * 1000.
Definition MAX_MESSAGES_PER_SESSION : nat := 50.
Definition MAX_MESSAGES_PER_MINUTE : Z := 20.
Definition MAX_MESSAGE_LENGTH : nat := 500.
End CONFIG.

(** ** Sessions and HTTP exchanges *)

Record Session := { messages : list Message; lastActive : Z }.

(** The two fields read from a JSON body that parses to a value other
    than [null]; each is a string, or [None] when it is missing. *)
Record ChatRequest := { sessionId : option string; message : option string }.

(** The body of a chat request.  [Json]: it parses to a value other than
    [null], from which the two fields are read.  [Unreadable]: reading
    them throws inside the handler's [try], because [json()] rejects a
    malformed body or because the body parses to [null], whose property
    read or destructuring throws a [TypeError]; [t] is the thrown value. *)
Inductive RequestBody :=
| Json (body : ChatRequest)
| Unreadable (t : Thrown).

Inductive ResponseBody :=
| ErrorBody (error : string)
| ChatBody (content : string) (sessionId : string)
| EmptyBody.

Record HttpResponse := { status : Z; payload : ResponseBody }.

(** What handling one request comes to: the response, the store
    afterwards, and the requests sent to the completion service. *)
Record Handled (Store : Type) := {
  reply : HttpResponse;
  store : Store;
  sent : list (list Message)
}.
Arguments reply {Store} _.
Arguments store {Store} _.
Arguments sent {Store} _.

(** The conversation stored under [id]; a session that does not exist has
    none. *)
Definition history (sessions : gmap string Session) (id : string) : list Message :=
  match sessions !! id with
  | Some session => messages session
  | None => []
  end.

Definition isUser (m : Message) : bool :=
  match role m with
  | user => true
  | _ => false
  end.

(** [messages.filter(m => m.role === "user").length]. *)
Definition userTurns (l : list Message) : nat := length (List.filter isUser l).

(** [error instanceof Error ? error.message : "Internal error"]. *)
Definition internalError (t : Thrown) : string :=
  match t with
  | ErrorWith message => message
  | OtherValue => "Internal error"
  end.

(** The two [session.messages.push] of a successful turn. *)
Definition pushTurn (session : Session) (now : Z) (userText answer : string)
  : Session :=
  {| messages := messages session ++
                 [{| role := user; content := userText |};
                  {| role := assistant; content := answer |}];
     lastActive := now |}.

Definition respond {Store : Type} (code : Z) (body : ResponseBody) (st : Store)
  : Handled Store :=
  {| reply := {| status := code; payload := body |}; store := st; sent := [] |}.

(** [sessions.get(id)], and the fresh session put in the map when there is
    none. *)
Definition getOrCreate (sessions : gmap string Session) (id : string) (now : Z)
  : Session * gmap string Session :=
  match sessions !! id with
  | Some session => (session, sessions)
  | None =>
      let session := {| messages := []; lastActive := now |} in
      (session, <[id := session]> sessions)
  end.

(** ** The Bun server ([src/server.ts]), route [POST /api/chat] and the
       cleanup timer.  One clock reading stands for the [Date.now()] calls
       of one request, and a request is handled to its end before the next
       one starts. *)

Module BunServer.
Import Js.

Record RateEntry := { count : Z; resetTime : Z }.

Record State := {
  sessions : gmap string Session;
  rateLimit : gmap string RateEntry
}.

Definition initial : State := {| sessions := ∅; rateLimit := ∅ |}.

Definition checkRateLimit (ip : string) (now : Z) (rateLimit : gmap string RateEntry)
  : bool * gmap string RateEntry :=
  let fresh := {| count := 1; resetTime := now + 60000 |} in
  match rateLimit !! ip with
  | None => (true, <[ip := fresh]> rateLimit)
  | Some limit =>
      if resetTime limit <? now then (true, <[ip := fresh]> rateLimit)
      else if CONFIG.MAX_MESSAGES_PER_MINUTE <=? count limit then (false, rateLimit)
      else (true, <[ip := {| count := count limit + 1;
                             resetTime := resetTime limit |}]> rateLimit)
  end.

(** The callback of [setInterval]. *)
Definition cleanup (now : Z) (st : State) : State :=
  let cutoff := now - CONFIG.SESSION_TIMEOUT_MS in
  {| sessions := filter (fun kv => ¬ lastActive (snd kv) < cutoff) (sessions st);
     rateLimit := filter (fun kv => ¬ now > resetTime (snd kv)) (rateLimit st) |}.

Section Chat.
Variable systemPrompt : string.
Variable kb : Knowledge.KnowledgeBase.

Definition chat (ip : string) (now : Z) (request : RequestBody)
    (outcome : ProviderOutcome) (st : State) : Handled State :=
  let (allowed, rateLimit') := checkRateLimit ip now (rateLimit st) in
  let withSessions s := {| sessions := s; rateLimit := rateLimit' |} in
  if negb allowed then
    respond 429 (ErrorBody "Rate limit exceeded. Please try again later.")
      (withSessions (sessions st))
  else
    match request with
    | Unreadable t =>
        respond 500 (ErrorBody (internalError t)) (withSessions (sessions st))
    | Json body =>
        match sessionId body, message body with
        | Some id, Some raw =>
            if negb (truthy id) || negb (truthy raw) then
              respond 400 (ErrorBody "Missing sessionId or message")
                (withSessions (sessions st))
            else
              let message := slice0 CONFIG.MAX_MESSAGE_LENGTH raw in
              let (session, sessions1) := getOrCreate (sessions st) id now in
              let userMessageCount := userTurns (messages session) in
              if (CONFIG.MAX_MESSAGES_PER_SESSION <=? userMessageCount)%nat then
                respond 400
                  (ErrorBody "Conversation limit reached. Please contact support directly.")
                  (withSessions sessions1)
              else
                let turn :=
                  Agent.runAgent systemPrompt kb outcome message (messages session) in
                let response := Agent.response turn in
                if truthyOpt (resp_error response) then
                  {| reply := {| status := 500;
                                 payload := ErrorBody
                                   (default EmptyString (resp_error response)) |};
                     store := withSessions
                                (<[id := {| messages := messages session;
                                            lastActive := now |}]> sessions1);
                     sent := Agent.requests turn |}
                else
                  {| reply := {| status := 200;
                                 payload := ChatBody (resp_content response) id |};
                     store := withSessions
                                (<[id := pushTurn session now message
                                           (resp_content response)]> sessions1);
                     sent := Agent.requests turn |}
        | _, _ =>
            respond 400 (ErrorBody "Missing sessionId or message")
              (withSessions (sessions st))
        end
    end.

(** What happens to the server: a chat request arrives, or the timer
    fires. *)
Inductive Event :=
| Chat (ip : string) (now : Z) (request : RequestBody) (outcome : ProviderOutcome)
| Sweep (now : Z).

Definition step (st : State) (ev : Event) : State :=
  match ev with
  | Chat ip now request outcome => store (chat ip now request outcome st)
  | Sweep now => cleanup now st
  end.

Definition run (events : list Event) : State := fold_left step events initial.

End Chat.
End BunServer.

(** ** The handlers without limits: the Express application and the two
       serverless handlers *)

Module Plain.
Import Js.

Section Turn.
(** [runAgent] of the copy at hand, applied to the outcome of its call. *)
Variable runAgent : ProviderOutcome -> string -> list Message -> Agent.Turn.

(** From [sessions.get(sessionId)] to the final response: the same
    statements in the Express route and in both serverless handlers. *)
Definition turn (now : Z) (id raw : string) (outcome : ProviderOutcome)
    (sessions : gmap string Session) : Handled (gmap string Session) :=
  let (session, sessions1) := getOrCreate sessions id now in
  let t := runAgent outcome (slice0 500 raw) (messages session) in
  let response := Agent.response t in
  if truthyOpt (resp_error response) then
    {| reply := {| status := 500;
                   payload := ErrorBody (default EmptyString (resp_error response)) |};
       store := <[id := {| messages := messages session; lastActive := now |}]> sessions1;
       sent := Agent.requests t |}
  else
    {| reply := {| status := 200; payload := ChatBody (resp_content response) id |};
       store := <[id := pushTurn session now raw (resp_content response)]> sessions1;
       sent := Agent.requests t |}.

(** The Express route [app.post("/api/chat")], on a parsed body. *)
Definition expressChat (apiKey : string) (now : Z) (body : ChatRequest)
    (outcome : ProviderOutcome) (sessions : gmap string Session)
  : Handled (gmap string Session) :=
  match sessionId body, message body with
  | Some id, Some raw =>
      if negb (truthy id) || negb (truthy raw) then
        respond 400 (ErrorBody "Missing sessionId or message") sessions
      else if negb (truthy apiKey) then
        respond 500 (ErrorBody "API key not configured") sessions
      else turn now id raw outcome sessions
  | _, _ => respond 400 (ErrorBody "Missing sessionId or message") sessions
  end.

Inductive Method := OPTIONS | POST | OtherMethod.

(** The serverless [handler]. *)
Definition handler (apiKey : string) (method : Method) (now : Z)
    (request : RequestBody) (outcome : ProviderOutcome)
    (sessions : gmap string Session) : Handled (gmap string Session) :=
  match method with
  | OPTIONS => respond 200 EmptyBody sessions
  | OtherMethod => respond 405 (ErrorBody "Method not allowed") sessions
  | POST =>
      if negb (truthy apiKey) then
        respond 500 (ErrorBody "API key not configured") sessions
      else
        match request with
        | Unreadable t => respond 500 (ErrorBody (internalError t)) sessions
        | Json body =>
            match sessionId body, message body with
            | Some id, Some raw =>
                if negb (truthy id) || negb (truthy raw) then
                  respond 400 (ErrorBody "Missing sessionId or message") sessions
                else turn now id raw outcome sessions
            | _, _ =>
                respond 400 (ErrorBody "Missing sessionId or message") sessions
            end
        end
  end.

End Turn.

(** The Express application, the serverless handler of [src/api/chat.ts]
    (which imports [runAgent] from [src/agent.ts]) and the standalone
    one. *)
Definition express := expressChat Inline.expressRunAgent.

Definition serverless (systemPrompt : string) (kb : Knowledge.KnowledgeBase) :=
  handler (Agent.runAgent systemPrompt kb).

Definition standalone := handler Inline.standaloneRunAgent.

End Plain.

(** ** Concrete catalogues and requests used below *)

Module Samples.
Import Knowledge.

Definition premiumOak : Product :=
  Inline.mkProduct "p1" "Premium Oak Worktop" "Worktops"
    "High-quality solid oak worktop" 14999 true
    (Some [("thickness", "40mm"); ("length", "3m")]).

Definition oakPlank : Product :=
  Inline.mkProduct "plank" "Oak Plank" "Timber" "Planed plank" 1250 true None.

(** Ten planks ahead of the worktop. *)
Definition crowdedCatalogue : list Product := replicate 10 oakPlank ++ [premiumOak].

(** A well-formed request of session [s1], and the Express store after
    [n] such requests answered by the completion service. *)
Definition hello : ChatRequest :=
  {| sessionId := Some "s1"; message := Some "hello" |}.

Definition expressAfter (n : nat) : gmap string Session :=
  Nat.iter n
    (fun sessions =>
       store (Plain.express "key" 0 hello (Replied (Some "hi")) sessions))
    ∅.

(** A message of 501 characters. *)
Definition longMessage : string := Nat.iter 501 (String "a"%char) EmptyString.

(** A Bun store in which session [s1] was last active at time 0. *)
Definition idleStore : BunServer.State :=
  {| BunServer.sessions :=
       {[ "s1" := {| messages := [{| role := user; content := "hello" |};
                                  {| role := assistant; content := "hi" |}];
                     lastActive := 0 |} ]};
     BunServer.rateLimit := ∅ |}.

End Samples.

(** ** Helpers of the Bun server ([escapeHtml], [getClientIP]) and the
       rate limiter over several requests *)

Module ServerUtil.
Import Js.

(** [text.replace(/c/g, by)] for a pattern of one literal character. *)
Fixpoint replaceAll (c : ascii) (by_ : string) (text : string) : string :=
  match text with
  | EmptyString => EmptyString
  | String a r =>
      if Ascii.eqb a c then by_ +:+ replaceAll c by_ r
      else String a (replaceAll c by_ r)
  end.

Definition amp : ascii := "&"%char.
Definition lt : ascii := "<"%char.
Definition gt : ascii := ">"%char.
Definition dquote : ascii := "034"%char.
Definition squote : ascii := "'"%char.

Definition escapeHtml (text : string) : string :=
  replaceAll squote "&#039;"
    (replaceAll dquote "&quot;"
       (replaceAll gt "&gt;"
          (replaceAll lt "&lt;"
             (replaceAll amp "&amp;" text)))).

(** The entity that stands for one character, used to say what
    [escapeHtml] computes. *)
Definition entity (c : ascii) : string :=
  if Ascii.eqb c amp then "&amp;"
  else if Ascii.eqb c lt then "&lt;"
  else if Ascii.eqb c gt then "&gt;"
  else if Ascii.eqb c dquote then "&quot;"
  else if Ascii.eqb c squote then "&#039;"
  else String c EmptyString.

Fixpoint entities (text : string) : string :=
  match text with
  | EmptyString => EmptyString
  | String c r => entity c +:+ entities r
  end.

(** The two headers [getClientIP] reads; [Headers.get] gives [null] for a
    header that is not there. *)
Record Headers := {
  forwardedFor : option string;   (* x-forwarded-for *)
  realIp : option string          (* x-real-ip *)
}.

(** [value.split(",")[0]]. *)
Fixpoint firstField (value : string) : string :=
  match value with
  | EmptyString => EmptyString
  | String c r =>
      if Ascii.eqb c ","%char then EmptyString else String c (firstField r)
  end.

Definition getClientIP (headers : Headers) : string :=
  let forwarded := (fun v => trim (firstField v)) <$> forwardedFor headers in
  if truthyOpt forwarded then default EmptyString forwarded
  else if truthyOpt (realIp headers) then default EmptyString (realIp headers)
  else "unknown".

(** The answers of [checkRateLimit] to successive requests of one address,
    at the given times, each call working on the map the one before left. *)
Fixpoint rateDecisions (ip : string) (times : list Z)
    (rateLimit : gmap string BunServer.RateEntry) : list bool :=
  match times with
  | [] => []
  | now :: later =>
      let (allowed, rateLimit') := BunServer.checkRateLimit ip now rateLimit in
      allowed :: rateDecisions ip later rateLimit'
  end.

Definition isAssistant (m : Message) : bool :=
  match role m with
  | assistant => true
  | _ => false
  end.

(** A conversation made of user messages each followed by an assistant
    message. *)
Fixpoint alternates (l : list Message) : bool :=
  match l with
  | [] => true
  | u :: rest =>
      match rest with
      | a :: l' => isUser u && isAssistant a && alternates l'
      | [] => false
      end
  end.

End ServerUtil.

(** ** The tools ([executeTool], [getToolDefinition]) *)

Module Tools.
Import Js Knowledge.

Record ContactInfo := {
  businessHours : string;
  email : string;
  phone : string;
  escalationTriggers : list string;
  handoffMessage : string
}.

Record ToolInput := {
  query : option string;
  topic : option string;
  reason : option string
}.

Record ToolResult := {
  success : bool;
  result : option string;
  error : option string
}.

(** One entry of [toolDefinitions]: its name, its description, and the one
    string property of its input schema, which is also the one required. *)
Record ToolDefinition := {
  td_name : string;
  td_description : string;
  td_property : string;
  td_propertyDescription : string;
  td_required : list string
}.

Definition toolDefinitions : list ToolDefinition :=
  [ {| td_name := "product_search";
       td_description := "Search the product catalogue for products matching a query. Use this when customers ask about specific products, prices, availability, or product details.";
       td_property := "query";
       td_propertyDescription := "Search query - can be product name, category, or keywords";
       td_required := ["query"] |};
    {| td_name := "faq_search";
       td_description := "Search frequently asked questions for answers to common customer questions.";
       td_property := "query";
       td_propertyDescription := "Search query for FAQ lookup";
       td_required := ["query"] |};
    {| td_name := "policy_lookup";
       td_description := "Look up business policies such as returns, shipping, warranty, terms and conditions.";
       td_property := "topic";
       td_propertyDescription := "Policy topic to look up (e.g., 'returns', 'shipping', 'warranty')";
       td_required := ["topic"] |};
    {| td_name := "escalate_to_human";
       td_description := "Flag the conversation for human review. Use this when the customer explicitly asks to speak to a person, is frustrated, has a complex issue, or you cannot find the answer.";
       td_property := "reason";
       td_propertyDescription := "Reason for escalation";
       td_required := ["reason"] |} ].

Definition getToolDefinition (name : string) : option ToolDefinition :=
  List.find (fun t => String.eqb (td_name t) name) toolDefinitions.

(** [value || fallback] for an optional string. *)
Definition orElse (value : option string) (fallback : string) : string :=
  match value with
  | Some v => if truthy v then v else fallback
  | None => fallback
  end.

Definition ok (text : string) : ToolResult :=
  {| success := true; result := Some text; error := None |}.

Definition quote : string := String "034"%char EmptyString.

(** [executeTool], with the knowledge base and the contact information it
    reads; beside the result, the lines it writes with [console.log]. *)
Definition executeTool (kb : KnowledgeBase) (contact : option ContactInfo)
    (toolName : string) (input : ToolInput) : ToolResult * list string :=
  if String.eqb toolName "product_search" then
    let query := orElse (query input) EmptyString in
    let results := searchProducts (products kb) query in
    if (length results =? 0)%nat then
      (ok "No products found matching that query. Try a different search term or browse our categories.", [])
    else
      let formatted := join (nl +:+ nl) (map Agent.formatProduct results) in
      (ok ("Found " +:+ decimal (N.of_nat (length results)) +:+ " product(s):" +:+
           nl +:+ nl +:+ formatted), [])
  else if String.eqb toolName "faq_search" then
    let query := orElse (query input) EmptyString in
    let results := searchFAQs (faqs kb) query in
    if (length results =? 0)%nat then
      (ok "No FAQs found matching that query.", [])
    else
      (ok (join (nl +:+ nl +:+ "---" +:+ nl +:+ nl)
             (map (fun f => "Q: " +:+ faq_question f +:+ nl +:+
                            "A: " +:+ faq_answer f) results)), [])
  else if String.eqb toolName "policy_lookup" then
    let topic := orElse (topic input) EmptyString in
    match lookupPolicy (policies kb) topic with
    | None =>
        (ok ("No policy found for " +:+ quote +:+ topic +:+ quote +:+
             ". Try a different topic like 'returns', 'shipping', 'warranty', or 'terms'."), [])
    | Some policy =>
        (ok (pol_title policy +:+ nl +:+ nl +:+ pol_content policy), [])
    end
  else if String.eqb toolName "escalate_to_human" then
    let reason := orElse (reason input) "Customer requested human assistance" in
    let handoff :=
      orElse (handoffMessage <$> contact)
        "I've flagged your conversation for our team to review. A human support agent will be with you shortly." in
    (ok (handoff +:+ nl +:+ nl +:+
         match contact with
         | Some c =>
             "Business hours: " +:+ businessHours c +:+ nl +:+
             "Email: " +:+ email c +:+ nl +:+ "Phone: " +:+ phone c
         | None => EmptyString
         end),
     ["[ESCALATION] Reason: " +:+ reason])
  else
    ({| success := false; result := None;
        error := Some ("Unknown tool: " +:+ toolName) |}, []).

End Tools.

(** ** The keyword search over UTF-16 code units

    The same statements of [src/knowledge.ts] as in [Knowledge], with a
    string taken as the sequence of its code units, the class [\s] in full,
    and [String.prototype.toLowerCase] as a parameter of the search:
    whatever is proved here holds for every lower-casing. *)

Module Wide.

(** Text of the ASCII range as code units. *)
Definition ofAscii (s : string) : list N :=
  map N_of_ascii (String.list_ascii_of_string s).

(** The class [\s]: tab to carriage return, space, no-break space, ogham
    space, en quad to hair space, line and paragraph separator, narrow
    no-break space, medium mathematical space, ideographic space, byte
    order mark. *)
Definition isSpace (c : N) : bool :=
  ((9 <=? c) && (c <=? 13) || (c =? 32) || (c =? 160) || (c =? 5760)
   || (8192 <=? c) && (c <=? 8202) || (c =? 8232) || (c =? 8233)
   || (c =? 8239) || (c =? 8287) || (c =? 12288) || (c =? 65279))%N.

(** [s.split(/\s+/)]. *)
Fixpoint splitWs (inSep : bool) (s : list N) : list (list N) :=
  match s with
  | [] => [[]]
  | c :: r =>
      if isSpace c then
        if inSep then splitWs true r else [] :: splitWs true r
      else
        match splitWs false r with
        | w :: ws => (c :: w) :: ws
        | [] => [[c]]
        end
  end.

Definition split (s : list N) : list (list N) := splitWs false s.

Fixpoint startsWith (word text : list N) : bool :=
  match word, text with
  | [], _ => true
  | a :: word', b :: text' => (a =? b)%N && startsWith word' text'
  | _ :: _, [] => false
  end.

(** [text.includes(word)]. *)
Fixpoint includes (text word : list N) : bool :=
  startsWith word text ||
  match text with
  | [] => false
  | _ :: r => includes r word
  end.

(** [l.join(sep)]. *)
Fixpoint join (sep : list N) (l : list (list N)) : list N :=
  match l with
  | [] => []
  | x :: rest =>
      match rest with
      | [] => x
      | _ :: _ => x ++ sep ++ join sep rest
      end
  end.

Fixpoint trimStart (s : list N) : list N :=
  match s with
  | [] => []
  | c :: r => if isSpace c then trimStart r else s
  end.

Fixpoint trimEnd (s : list N) : list N :=
  match s with
  | [] => []
  | c :: r =>
      match trimEnd r with
      | [] => if isSpace c then [] else [c]
      | r' => c :: r'
      end
  end.

(** [s.trim()]. *)
Definition trim (s : list N) : list N := trimEnd (trimStart s).

Definition truthy (s : list N) : bool :=
  match s with
  | [] => false
  | _ :: _ => true
  end.

(** [l.filter(Boolean)]. *)
Definition filterBoolean (l : list (option (list N))) : list (list N) :=
  omap (fun o => match o with
                 | Some s => if truthy s then Some s else None
                 | None => None
                 end) l.

(** The lower case of one code unit, written out for Basic Latin, for the
    Latin-1 capitals, and for the capital I with a dot above (U+0130),
    which becomes an i followed by a combining dot above (U+0307); any
    other code unit is left as it is. *)
Definition lowerUnit (c : N) : list N :=
  if ((65 <=? c) && (c <=? 90))%N then [(c + 32)%N]
  else if (c =? 304)%N then [105%N; 775%N]
  else if ((192 <=? c) && (c <=? 214) || (216 <=? c) && (c <=? 222))%N
       then [(c + 32)%N]
  else [c].

(** The lower-casing used when a search is evaluated on a sample. *)
Definition lowerCase (s : list N) : list N := flat_map lowerUnit s.

Record Product := {
  prod_id : list N;
  prod_name : list N;
  prod_category : list N;
  prod_description : list N;
  prod_price : N;
  prod_inStock : bool;
  prod_specs : option (list (list N * list N))
}.

Record FAQ := {
  faq_id : list N;
  faq_question : list N;
  faq_answer : list N;
  faq_keywords : option (list (list N))
}.

Class Searchable (T : Type) := {
  name : T -> option (list N);
  question : T -> option (list N);
  title : T -> option (list N);
  description : T -> option (list N);
  keywords : T -> option (list (list N))
}.

#[global] Instance Product_Searchable : Searchable Product := {|
  name p := Some (prod_name p);
  question _ := None;
  title _ := None;
  description p := Some (prod_description p);
  keywords _ := None
|}.

#[global] Instance FAQ_Searchable : Searchable FAQ := {|
  name _ := None;
  question f := Some (faq_question f);
  title _ := None;
  description _ := None;
  keywords f := faq_keywords f
|}.

Section Search.
(** [String.prototype.toLowerCase]. *)
Variable toLowerCase : list N -> list N.
Context {T : Type} `{Searchable T}.

Definition searchableText (item : T) : list N :=
  toLowerCase
    (join [32%N]
       (filterBoolean
          [name item; question item; title item; description item;
           join [32%N] <$> keywords item])).

Definition wordMatches (text word : list N) : bool :=
  if (length word <? 2)%nat then false else includes text word.

Definition itemMatches (queryWords : list (list N)) (item : T) : bool :=
  existsb (wordMatches (searchableText item)) queryWords.

Definition searchByKeyword (items : list T) (query : list N) : list T :=
  let queryLower := toLowerCase query in
  let queryWords := split queryLower in
  List.filter (itemMatches queryWords) items.
End Search.

Definition searchProducts (toLowerCase : list N -> list N)
    (products : list Product) (query : list N) : list Product :=
  if negb (truthy (trim query)) then []
  else take 10 (searchByKeyword toLowerCase products query).

Definition searchFAQs (toLowerCase : list N -> list N)
    (faqs : list FAQ) (query : list N) : list FAQ :=
  if negb (truthy (trim query)) then []
  else take 5 (searchByKeyword toLowerCase faqs query).

(** A tile whose name begins with the capital I with a dot above. *)
Definition iznikTile : Product :=
  {| prod_id := ofAscii "p9";
     prod_name := 304%N :: ofAscii "znik Tile";
     prod_category := ofAscii "Tiles";
     prod_description := ofAscii "Hand-painted wall tile";
     prod_price := 1250; prod_inStock := true; prod_specs := None |}.

End Wide.

(** * Properties *)

(** ** Strings *)

Lemma isSpace_lowerChar c : Js.isSpace (Js.lowerChar c) = Js.isSpace c.
Proof. destruct c as [[] [] [] [] [] [] [] []]; reflexivity. Qed.

Lemma length_toLowerCase s : String.length (Js.toLowerCase s) = String.length s.
Proof. induction s as [|c r IH]; simpl; [reflexivity | rewrite IH; reflexivity]. Qed.

(** Lower-casing moves no word boundary: the words of the lower-cased
    query are the lower-cased words of the query. *)
Lemma splitWs_toLowerCase b s :
  Js.splitWs b (Js.toLowerCase s) = map Js.toLowerCase (Js.splitWs b s).
Proof.
  revert b; induction s as [|c r IH]; intros b; simpl; [reflexivity|].
  rewrite isSpace_lowerChar.
  destruct (Js.isSpace c).
  - destruct b; simpl; rewrite IH; reflexivity.
  - rewrite IH. destruct (Js.splitWs false r); reflexivity.
Qed.

Lemma truthy_length s : Js.truthy s = true <-> (0 < String.length s)%nat.
Proof. destruct s; simpl; split; intros; try lia; congruence. Qed.

Lemma length_slice0 n s : String.length (Js.slice0 n s) = (n `min` String.length s)%nat.
Proof.
  revert s; induction n as [|n IH]; intros [|c r]; simpl; try reflexivity.
  rewrite IH; reflexivity.
Qed.

Lemma length_append s t :
  String.length (s +:+ t) = (String.length s + String.length t)%nat.
Proof. induction s as [|c r IH]; simpl; [reflexivity | rewrite IH; reflexivity]. Qed.

(** ** Keyword search *)

Section SearchFacts.
Import Knowledge.
Context {T : Type} `{Searchable T}.

Lemma wordMatches_short text w :
  (String.length w < 2)%nat -> wordMatches text (Js.toLowerCase w) = false.
Proof.
  intros Hw. unfold wordMatches. rewrite length_toLowerCase.
  destruct (Nat.ltb_spec (String.length w) 2); [reflexivity | lia].
Qed.

Lemma itemMatches_short (ws : list string) (item : T) :
  Forall (fun w => (String.length w < 2)%nat) ws ->
  itemMatches (map Js.toLowerCase ws) item = false.
Proof.
  unfold itemMatches. induction 1 as [|w ws Hw _ IH]; simpl; [reflexivity|].
  rewrite wordMatches_short by assumption. exact IH.
Qed.

Lemma filter_none {A} (f : A -> bool) (l : list A) :
  (forall x, f x = false) -> List.filter f l = [].
Proof.
  intros Hf. induction l as [|x l IH]; simpl; [reflexivity|].
  rewrite Hf. exact IH.
Qed.

Lemma searchByKeyword_short (items : list T) (query : string) :
  Forall (fun w => (String.length w < 2)%nat) (Js.split query) ->
  searchByKeyword items query = [].
Proof.
  intros Hq. unfold searchByKeyword, Js.split.
  rewrite splitWs_toLowerCase. apply filter_none.
  intros item. apply itemMatches_short. exact Hq.
Qed.

End SearchFacts.

(** Within the ASCII range lower-casing keeps the length of every word, so
    there the words of the query as typed decide: when each of them has
    fewer than two characters, no product and no FAQ is found. *)
Theorem short_words_find_nothing
    (products : list Knowledge.Product) (faqs : list Knowledge.FAQ)
    (query : string) :
  Forall (fun w => (String.length w < 2)%nat) (Js.split query) ->
  Knowledge.searchProducts products query = [] /\
  Knowledge.searchFAQs faqs query = [].
Proof.
  intros Hq. unfold Knowledge.searchProducts, Knowledge.searchFAQs.
  rewrite !searchByKeyword_short by exact Hq.
  destruct (negb (Js.truthy (Js.trim query))); split; reflexivity.
Qed.

Lemma short_words_find_nothing_witness :
  Knowledge.searchProducts Inline.products "a b  c" = [] /\
  Knowledge.searchFAQs Inline.faqs "a b  c" = [].
Proof.
  apply (short_words_find_nothing Inline.products Inline.faqs "a b  c").
  repeat constructor.
Defined.

Lemma itemMatches_all_short {T} `{Knowledge.Searchable T}
    (ws : list string) (item : T) :
  Forall (fun w => (String.length w < 2)%nat) ws ->
  Knowledge.itemMatches ws item = false.
Proof.
  unfold Knowledge.itemMatches, Knowledge.wordMatches.
  induction 1 as [|w ws Hw _ IH]; cbn [existsb]; [reflexivity|].
  destruct (Nat.ltb_spec (String.length w) 2); [exact IH | lia].
Qed.

Lemma wide_itemMatches_all_short {T} `{Wide.Searchable T}
    (toLowerCase : list N -> list N) (ws : list (list N)) (item : T) :
  Forall (fun w => (length w < 2)%nat) ws ->
  Wide.itemMatches toLowerCase ws item = false.
Proof.
  unfold Wide.itemMatches, Wide.wordMatches.
  induction 1 as [|w ws Hw _ IH]; cbn [existsb]; [reflexivity|].
  destruct (Nat.ltb_spec (length w) 2); [exact IH | lia].
Qed.

(** C5, as the code has it.  The length test is made on the words of the
    lower-cased query: when each of those has fewer than two code units
    (as for a blank query), [searchProducts] and [searchFAQs] return the
    empty list, whatever the store holds and whatever lower-casing does;
    stated for strings as code units and for the ASCII embedding. *)
Theorem lowercased_short_words_find_nothing :
  (forall (toLowerCase : list N -> list N)
          (products : list Wide.Product) (faqs : list Wide.FAQ) (query : list N),
      Forall (fun w => (length w < 2)%nat) (Wide.split (toLowerCase query)) ->
      Wide.searchProducts toLowerCase products query = [] /\
      Wide.searchFAQs toLowerCase faqs query = []) /\
  (forall (products : list Knowledge.Product) (faqs : list Knowledge.FAQ)
          (query : string),
      Forall (fun w => (String.length w < 2)%nat)
        (Js.split (Js.toLowerCase query)) ->
      Knowledge.searchProducts products query = [] /\
      Knowledge.searchFAQs faqs query = []).
Proof.
  split.
  - intros toLowerCase products faqs query Hq.
    unfold Wide.searchProducts, Wide.searchFAQs, Wide.searchByKeyword.
    rewrite !filter_none
      by (intros item; apply wide_itemMatches_all_short; exact Hq).
    destruct (negb (Wide.truthy (Wide.trim query))); split; reflexivity.
  - intros products faqs query Hq.
    unfold Knowledge.searchProducts, Knowledge.searchFAQs, Knowledge.searchByKeyword.
    rewrite !filter_none
      by (intros item; apply itemMatches_all_short; exact Hq).
    destruct (negb (Js.truthy (Js.trim query))); split; reflexivity.
Qed.

Lemma lowercased_short_words_witness :
  Wide.searchProducts Wide.lowerCase [Wide.iznikTile] (Wide.ofAscii "I  a") = [] /\
  Wide.searchFAQs Wide.lowerCase [] (Wide.ofAscii "I  a") = [].
Proof.
  refine (proj1 lowercased_short_words_find_nothing Wide.lowerCase
            [Wide.iznikTile] [] (Wide.ofAscii "I  a") _).
  vm_compute. repeat constructor.
Defined.

(** C5 as stated fails: the query made of the one code unit U+0130 has a
    single word, of one code unit; lower-casing turns it into the two
    code units of an i with a combining dot above, which pass the length
    test and occur in the lower-cased name of the tile. *)
Lemma one_character_query_finds_a_record :
  Forall (fun w => (length w < 2)%nat) (Wide.split [304%N]) /\
  Wide.lowerCase [304%N] = [105%N; 775%N] /\
  Wide.searchProducts Wide.lowerCase [Wide.iznikTile] [304%N] = [Wide.iznikTile].
Proof.
  split; [|split].
  - vm_compute. repeat constructor.
  - reflexivity.
  - reflexivity.
Qed.

Lemma append_cons c r t : String c r +:+ t = String c (r +:+ t).
Proof. reflexivity. Qed.

Lemma append_empty_r s : s +:+ EmptyString = s.
Proof.
  induction s as [|c r IH]; [reflexivity | rewrite append_cons, IH; reflexivity].
Qed.

Lemma toLowerCase_append s t :
  Js.toLowerCase (s +:+ t) = Js.toLowerCase s +:+ Js.toLowerCase t.
Proof.
  induction s as [|c r IH]; [reflexivity|].
  rewrite append_cons; simpl. rewrite IH, append_cons. reflexivity.
Qed.

Lemma prefix_append w s t :
  String.prefix w s = true -> String.prefix w (s +:+ t) = true.
Proof.
  revert s; induction w as [|a w IH]; intros s;
    [intros _; destruct (s +:+ t); reflexivity|].
  destruct s as [|b s]; [discriminate|]. rewrite append_cons; simpl.
  destruct (ascii_dec a b); [apply IH | congruence].
Qed.

Lemma includes_append s t w :
  Js.includes s w = true -> Js.includes (s +:+ t) w = true.
Proof.
  induction s as [|c r IH].
  - simpl. rewrite orb_false_r. intros Hw. destruct w; [|discriminate].
    destruct t; reflexivity.
  - rewrite append_cons. simpl.
    intros [Hp|Hr]%orb_true_iff; apply orb_true_iff.
    + left. exact (prefix_append w (String c r) t Hp).
    + right. apply IH, Hr.
Qed.

(** The text a product is searched in starts with its lower-cased name. *)
Lemma searchableText_product (p : Knowledge.Product) :
  Js.truthy (Knowledge.prod_name p) = true ->
  exists rest,
    Knowledge.searchableText p = Js.toLowerCase (Knowledge.prod_name p) +:+ rest.
Proof.
  intros Hn. unfold Knowledge.searchableText; simpl. rewrite Hn.
  destruct (Js.truthy (Knowledge.prod_description p)); simpl.
  - eexists. unfold Js.join; simpl. rewrite toLowerCase_append. reflexivity.
  - exists EmptyString. unfold Js.join; simpl. rewrite append_empty_r. reflexivity.
Qed.

Lemma premium_oak_matches (p : Knowledge.Product) :
  Knowledge.prod_name p = "Premium Oak Worktop" ->
  Knowledge.itemMatches (Js.split (Js.toLowerCase "oak")) p = true.
Proof.
  intros Hn. destruct (searchableText_product p) as [rest Ht].
  { rewrite Hn; reflexivity. }
  unfold Knowledge.itemMatches; simpl. rewrite orb_false_r.
  unfold Knowledge.wordMatches; simpl. rewrite Ht, Hn.
  apply includes_append. reflexivity.
Qed.

Lemma filter_app_bool {A} (f : A -> bool) (l k : list A) :
  List.filter f (l ++ k) = List.filter f l ++ List.filter f k.
Proof. induction l as [|x l IH]; simpl; [reflexivity|]. destruct (f x); simpl; congruence. Qed.

Lemma filter_sublist_bool {A} (f : A -> bool) (l : list A) :
  sublist (List.filter f l) l.
Proof.
  induction l as [|x l IH]; simpl; [constructor|].
  destruct (f x); [apply sublist_skip | apply sublist_cons]; exact IH.
Qed.

Lemma searchProducts_prefix products query :
  exists rest,
    Knowledge.searchProducts products query ++ rest =
    List.filter (Knowledge.itemMatches (Js.split (Js.toLowerCase query))) products.
Proof.
  unfold Knowledge.searchProducts, Knowledge.searchByKeyword.
  destruct (negb (Js.truthy (Js.trim query))).
  - eexists; reflexivity.
  - eexists; apply take_drop.
Qed.

(** C6, as the code has it.  [searchProducts("oak")] returns a record named
    "Premium Oak Worktop" whenever fewer than ten matching records stand
    before it in the store; for every query and store the result has at
    most ten entries, is an initial segment of the matching records in store
    order, and so keeps the order of the store. *)
Theorem searchProducts_oak_bounded_ordered :
  (forall (before after : list Knowledge.Product) (p : Knowledge.Product),
      Knowledge.prod_name p = "Premium Oak Worktop" ->
      (length (Knowledge.searchByKeyword before "oak") < 10)%nat ->
      p ∈ Knowledge.searchProducts (before ++ p :: after) "oak") /\
  (forall (products : list Knowledge.Product) (query : string),
      (length (Knowledge.searchProducts products query) <= 10)%nat /\
      (exists rest,
          Knowledge.searchProducts products query ++ rest =
          List.filter (Knowledge.itemMatches (Js.split (Js.toLowerCase query)))
            products) /\
      sublist (Knowledge.searchProducts products query) products).
Proof.
  split.
  - intros before after p Hn Hlen.
    assert (Hq : negb (Js.truthy (Js.trim "oak")) = false) by reflexivity.
    unfold Knowledge.searchProducts. rewrite Hq.
    unfold Knowledge.searchByKeyword in *.
    rewrite filter_app_bool. cbn [List.filter].
    rewrite (premium_oak_matches p Hn).
    apply list_elem_of_lookup.
    exists (length (List.filter
                      (Knowledge.itemMatches (Js.split (Js.toLowerCase "oak")))
                      before)).
    rewrite lookup_take_lt by exact Hlen.
    rewrite lookup_app_r by lia. rewrite Nat.sub_diag. reflexivity.
  - intros products query. split; [|split].
    + unfold Knowledge.searchProducts.
      destruct (negb (Js.truthy (Js.trim query))); simpl; [lia|].
      rewrite length_take. lia.
    + apply searchProducts_prefix.
    + unfold Knowledge.searchProducts.
      destruct (negb (Js.truthy (Js.trim query))); [apply sublist_nil_l|].
      etransitivity; [apply sublist_take | apply filter_sublist_bool].
Qed.

Lemma searchProducts_oak_witness :
  Samples.premiumOak ∈
    Knowledge.searchProducts ([Samples.oakPlank] ++ Samples.premiumOak :: Inline.products) "oak".
Proof.
  apply (proj1 searchProducts_oak_bounded_ordered [Samples.oakPlank]
           Inline.products Samples.premiumOak).
  - reflexivity.
  - vm_compute. lia.
Defined.

(** C6 as stated fails: with ten matching records ahead of it, the record
    named "Premium Oak Worktop" is in the catalogue and not in the result. *)
Lemma searchProducts_oak_truncated :
  Samples.premiumOak ∈ Samples.crowdedCatalogue /\
  Knowledge.prod_name Samples.premiumOak = "Premium Oak Worktop" /\
  Samples.premiumOak ∉ Knowledge.searchProducts Samples.crowdedCatalogue "oak".
Proof.
  split; [|split].
  - unfold Samples.crowdedCatalogue. apply elem_of_app. right. left.
  - reflexivity.
  - assert (Hr : Knowledge.searchProducts Samples.crowdedCatalogue "oak"
                 = replicate 10 Samples.oakPlank) by (vm_compute; reflexivity).
    rewrite Hr. intros Hin. apply elem_of_replicate in Hin as [Heq _].
    discriminate Heq.
Qed.

(** ** Policy lookup *)

(** A policy has a title and none of the other searchable fields: it is
    searched in its lower-cased title, and its content plays no part. *)
Lemma searchableText_policy (p : Knowledge.Policy) :
  Knowledge.searchableText p = Js.toLowerCase (Knowledge.pol_title p).
Proof.
  unfold Knowledge.searchableText; simpl.
  destruct (Knowledge.pol_title p); reflexivity.
Qed.

Lemma find_first {A} (f : A -> bool) (l : list A) :
  match List.find f l with
  | Some x =>
      exists before after,
        l = before ++ x :: after /\ f x = true /\
        forall y, y ∈ before -> f y = false
  | None => forall y, y ∈ l -> f y = false
  end.
Proof.
  induction l as [|a l IH]; simpl.
  - intros y Hy. inversion Hy.
  - destruct (f a) eqn:Ha.
    + exists [], l. repeat split; [assumption|]. intros y Hy. inversion Hy.
    + destruct (List.find f l) as [x|].
      * destruct IH as (before & after & -> & Hx & Hb).
        exists (a :: before), after. repeat split; [assumption|].
        intros y [->|Hy]%elem_of_cons; [assumption | apply Hb, Hy].
      * intros y [->|Hy]%elem_of_cons; [assumption | apply IH, Hy].
Qed.

Lemma head_filter_find {A} (f : A -> bool) (l : list A) :
  head (List.filter f l) = List.find f l.
Proof.
  induction l as [|a l IH]; simpl; [reflexivity|].
  destruct (f a); [reflexivity | exact IH].
Qed.

Lemma filter_none_in {A} (f : A -> bool) (l : list A) :
  (forall x, x ∈ l -> f x = false) -> List.filter f l = [].
Proof.
  induction l as [|x l IH]; intros Hf; simpl; [reflexivity|].
  rewrite (Hf x) by left. apply IH. intros y Hy. apply Hf. right. exact Hy.
Qed.

Lemma itemMatches_policy (ws : list string) (p : Knowledge.Policy) :
  Knowledge.itemMatches ws p =
  existsb (Knowledge.wordMatches (Js.toLowerCase (Knowledge.pol_title p))) ws.
Proof. unfold Knowledge.itemMatches. rewrite searchableText_policy. reflexivity. Qed.

(** C2, as the code has it.  For a non-blank topic [lookupPolicy] returns
    the first policy whose topic tag equals the topic without case or whose
    title contains it; when there is none it returns the first policy whose
    title contains a word of the topic of two characters or more, or
    nothing.  The content of a policy is never looked at: for "refund" the
    result is the first policy with that topic tag or with "refund" in its
    title, and nothing otherwise. *)
Theorem lookupPolicy_direct_then_title :
  (forall (policies : list Knowledge.Policy) (topic : string),
      Js.truthy (Js.trim topic) = true ->
      let direct := Knowledge.directMatch (Js.toLowerCase topic) in
      let byTitle p :=
        existsb (Knowledge.wordMatches (Js.toLowerCase (Knowledge.pol_title p)))
          (Js.split (Js.toLowerCase topic)) in
      match Knowledge.lookupPolicy policies topic with
      | Some p =>
          exists before after,
            policies = before ++ p :: after /\
            ((direct p = true /\ forall q, q ∈ before -> direct q = false) \/
             ((forall q, q ∈ policies -> direct q = false) /\
              byTitle p = true /\ forall q, q ∈ before -> byTitle q = false))
      | None => forall q, q ∈ policies -> direct q = false /\ byTitle q = false
      end) /\
  (forall policies : list Knowledge.Policy,
      Knowledge.lookupPolicy policies "refund" =
      List.find (Knowledge.directMatch "refund") policies).
Proof.
  split.
  - intros policies topic Ht direct byTitle.
    unfold Knowledge.lookupPolicy. rewrite Ht; simpl.
    fold direct.
    pose proof (find_first direct policies) as Hd.
    destruct (List.find direct policies) as [p|].
    + destruct Hd as (before & after & -> & Hp & Hb).
      exists before, after. split; [reflexivity|]. left. split; assumption.
    + unfold Knowledge.searchByKeyword. rewrite head_filter_find.
      pose proof (find_first
                    (Knowledge.itemMatches (Js.split (Js.toLowerCase topic)))
                    policies) as Hk.
      destruct (List.find _ policies) as [p|].
      * destruct Hk as (before & after & -> & Hp & Hb).
        exists before, after. split; [reflexivity|]. right.
        split; [exact Hd|]. split.
        -- unfold byTitle. rewrite <- itemMatches_policy. exact Hp.
        -- intros q Hq. unfold byTitle. rewrite <- itemMatches_policy.
           apply Hb, Hq.
      * intros q Hq. split; [apply Hd, Hq|].
        unfold byTitle. rewrite <- itemMatches_policy. apply Hk, Hq.
  - intros policies. unfold Knowledge.lookupPolicy.
    change (negb (Js.truthy (Js.trim "refund"))) with false.
    change (Js.toLowerCase "refund") with "refund". cbv iota.
    pose proof (find_first (Knowledge.directMatch "refund") policies) as Hd.
    destruct (List.find _ policies) as [p|]; [reflexivity|].
    unfold Knowledge.searchByKeyword. rewrite filter_none_in; [reflexivity|].
    intros q Hq. rewrite itemMatches_policy.
    specialize (Hd q Hq). unfold Knowledge.directMatch in Hd.
    apply orb_false_iff in Hd as [_ Hd].
    change (Js.split (Js.toLowerCase "refund")) with ["refund"].
    simpl. rewrite orb_false_r. unfold Knowledge.wordMatches. simpl. exact Hd.
Qed.

Lemma lookupPolicy_witness :
  let topic := "what is your refund policy" in
  let direct := Knowledge.directMatch (Js.toLowerCase topic) in
  let byTitle p :=
    existsb (Knowledge.wordMatches (Js.toLowerCase (Knowledge.pol_title p)))
      (Js.split (Js.toLowerCase topic)) in
  match Knowledge.lookupPolicy Inline.policies topic with
  | Some p =>
      exists before after,
        Inline.policies = before ++ p :: after /\
        ((direct p = true /\ forall q, q ∈ before -> direct q = false) \/
         ((forall q, q ∈ Inline.policies -> direct q = false) /\
          byTitle p = true /\ forall q, q ∈ before -> byTitle q = false))
  | None => forall q, q ∈ Inline.policies -> direct q = false /\ byTitle q = false
  end.
Proof.
  apply (proj1 lookupPolicy_direct_then_title Inline.policies
           "what is your refund policy").
  reflexivity.
Defined.

(** C2 as stated fails: a policy of the store mentions "refund" in its
    content, and [lookupPolicy("refund")] returns nothing. *)
Lemma lookupPolicy_refund_ignores_content :
  (exists p, p ∈ Inline.policies /\
             Js.includes (Js.toLowerCase (Knowledge.pol_content p)) "refund" = true) /\
  Knowledge.lookupPolicy Inline.policies "refund" = None.
Proof.
  split; [|reflexivity].
  eexists. split; [left | reflexivity].
Qed.

(** ** The relevance router *)

Lemma productBranch_found kb query :
  Knowledge.searchProducts (Knowledge.products kb) query <> [] ->
  Agent.productBranch kb query =
  Some (Agent.productHeader +:+ Js.nl +:+ Js.nl +:+
        Js.join (Js.nl +:+ Js.nl)
          (map Agent.formatProduct
             (Knowledge.searchProducts (Knowledge.products kb) query))).
Proof.
  intros Hne. unfold Agent.productBranch.
  destruct (Knowledge.searchProducts (Knowledge.products kb) query);
    [contradiction | reflexivity].
Qed.

(** C3.  When the utterance contains a product keyword and the product
    search finds something, every copy of the router returns the product
    block, headed PRODUCT SEARCH RESULTS, whether or not the utterance also
    contains a policy or an FAQ keyword: the policy and FAQ blocks are not
    reached. *)
Theorem product_branch_wins (kb : Knowledge.KnowledgeBase) (query : string) :
  mentions productKeywords (Js.toLowerCase query) = true ->
  Knowledge.searchProducts (Knowledge.products kb) query <> [] ->
  let out :=
    "PRODUCT SEARCH RESULTS:" +:+ Js.nl +:+ Js.nl +:+
    Js.join (Js.nl +:+ Js.nl)
      (map Agent.formatProduct
         (Knowledge.searchProducts (Knowledge.products kb) query)) in
  Agent.autoSearchKnowledge kb query = out /\
  Inline.autoSearchKnowledge kb query = out /\
  String.prefix Agent.policyHeader out = false /\
  String.prefix Agent.faqHeader out = false.
Proof.
  intros Hk Hne out.
  assert (Hb : Agent.keywordBranches kb query = Some out).
  { unfold Agent.keywordBranches. rewrite Hk.
    rewrite (productBranch_found kb query Hne). reflexivity. }
  unfold Agent.autoSearchKnowledge, Inline.autoSearchKnowledge. rewrite Hb.
  repeat split; reflexivity.
Qed.

Lemma product_branch_wins_witness :
  let kb := Inline.standaloneKB in
  let query := "what is the delivery price of the oak worktop" in
  let out :=
    "PRODUCT SEARCH RESULTS:" +:+ Js.nl +:+ Js.nl +:+
    Js.join (Js.nl +:+ Js.nl)
      (map Agent.formatProduct
         (Knowledge.searchProducts (Knowledge.products kb) query)) in
  mentions policyKeywords (Js.toLowerCase query) = true /\
  Agent.autoSearchKnowledge kb query = out /\
  Inline.autoSearchKnowledge kb query = out /\
  String.prefix Agent.policyHeader out = false /\
  String.prefix Agent.faqHeader out = false.
Proof.
  split; [reflexivity|].
  apply (product_branch_wins Inline.standaloneKB
           "what is the delivery price of the oak worktop").
  - reflexivity.
  - vm_compute. discriminate.
Defined.

Lemma productBranch_truthy kb query text :
  Agent.productBranch kb query = Some text -> Js.truthy text = true.
Proof.
  unfold Agent.productBranch.
  destruct (0 <? length _)%nat; [intros [= <-]; reflexivity | discriminate].
Qed.

Lemma policyBranch_truthy kb query text :
  Agent.policyBranch kb query = Some text -> Js.truthy text = true.
Proof.
  unfold Agent.policyBranch.
  destruct (Knowledge.lookupPolicy _ _); [intros [= <-]; reflexivity | discriminate].
Qed.

Lemma faqBranch_truthy kb query text :
  Agent.faqBranch kb query = Some text -> Js.truthy text = true.
Proof.
  unfold Agent.faqBranch.
  destruct (0 <? length _)%nat; [intros [= <-]; reflexivity | discriminate].
Qed.

Lemma keywordBranches_truthy kb query text :
  Agent.keywordBranches kb query = Some text -> Js.truthy text = true.
Proof.
  unfold Agent.keywordBranches.
  destruct (if mentions productKeywords _ then _ else _) as [t1|] eqn:H1.
  - intros [= <-]. destruct (mentions productKeywords _); [|discriminate].
    exact (productBranch_truthy kb query t1 H1).
  - clear H1.
    destruct (if mentions policyKeywords _ then _ else _) as [t2|] eqn:H2.
    + intros [= <-]. destruct (mentions policyKeywords _); [|discriminate].
      exact (policyBranch_truthy kb query t2 H2).
    + clear H2. destruct (mentions faqKeywords _); [|discriminate].
      apply faqBranch_truthy.
Qed.

(** The router of [src/agent.ts] never returns the empty string. *)
Lemma autoSearchKnowledge_truthy kb query :
  Js.truthy (Agent.autoSearchKnowledge kb query) = true.
Proof.
  unfold Agent.autoSearchKnowledge.
  destruct (Agent.keywordBranches kb query) as [text|] eqn:Hb.
  - exact (keywordBranches_truthy kb query text Hb).
  - simpl. destruct (Js.truthy (Agent.fallbackContext kb query)) eqn:Hc;
      [exact Hc | reflexivity].
Qed.

Lemma append_assoc s t u : (s +:+ t) +:+ u = s +:+ t +:+ u.
Proof.
  induction s as [|c r IH]; [reflexivity|].
  rewrite !append_cons, IH. reflexivity.
Qed.

(** The answer-based-on-this sentence closes the knowledge section exactly
    when the knowledge context is not empty. *)
Lemma knowledgeSection_suffix context :
  (exists before, Agent.knowledgeSection context = before +:+ Agent.answerSuffix)
  <-> context <> EmptyString.
Proof.
  unfold Agent.knowledgeSection. split.
  - intros [before Hs] ->. simpl in Hs.
    apply (f_equal String.length) in Hs. rewrite length_append in Hs.
    simpl in Hs. lia.
  - intros Hne. destruct context as [|c r]; [contradiction|]. simpl Js.truthy.
    cbv iota.
    exists ("RELEVANT KNOWLEDGE:" +:+ Js.nl +:+ String c r +:+ Js.nl +:+ Js.nl).
    rewrite !append_assoc. reflexivity.
Qed.

(** C1, as the code has it.  When no keyword block returns and the three
    searches of the fallback find nothing, the router of [src/agent.ts]
    returns the placeholder "No relevant information found.", which is not
    empty, and the orchestrator renders it like any other context, under
    the RELEVANT KNOWLEDGE header and followed by the instruction; the
    self-contained copies return the empty string and render nothing after
    the question.  In each copy the instruction is there exactly when the
    knowledge context is not empty; in [src/agent.ts] that is always. *)
Theorem no_match_renders_placeholder (kb : Knowledge.KnowledgeBase) (query : string) :
  Agent.keywordBranches kb query = None ->
  Knowledge.searchProducts (Knowledge.products kb) query = [] ->
  Knowledge.searchFAQs (Knowledge.faqs kb) query = [] ->
  Knowledge.lookupPolicy (Knowledge.policies kb) query = None ->
  Agent.autoSearchKnowledge kb query = "No relevant information found." /\
  (forall note message,
      Agent.userContent note message (Agent.autoSearchKnowledge kb query) =
      note +:+ (if Js.truthy note then Js.nl +:+ Js.nl else EmptyString) +:+
      "CUSTOMER QUESTION: " +:+ message +:+ Js.nl +:+ Js.nl +:+
      "RELEVANT KNOWLEDGE:" +:+ Js.nl +:+ "No relevant information found." +:+
      Js.nl +:+ Js.nl +:+ "Please answer based on this information.") /\
  Inline.autoSearchKnowledge kb query = EmptyString /\
  Agent.knowledgeSection (Inline.autoSearchKnowledge kb query) = EmptyString /\
  (forall context,
      (exists before,
          Agent.knowledgeSection context = before +:+ Agent.answerSuffix)
      <-> context <> EmptyString) /\
  (forall kb' query', Agent.autoSearchKnowledge kb' query' <> EmptyString).
Proof.
  intros Hb Hp Hf Hl.
  assert (Ha : Agent.autoSearchKnowledge kb query = "No relevant information found.").
  { unfold Agent.autoSearchKnowledge, Agent.fallbackContext.
    rewrite Hb, Hp, Hf, Hl. reflexivity. }
  assert (Hi : Inline.autoSearchKnowledge kb query = EmptyString).
  { unfold Inline.autoSearchKnowledge. rewrite Hb. reflexivity. }
  split; [exact Ha|]. split; [|split; [exact Hi|split; [|split]]].
  - intros note message. rewrite Ha. reflexivity.
  - rewrite Hi. reflexivity.
  - exact knowledgeSection_suffix.
  - intros kb' query' He.
    pose proof (autoSearchKnowledge_truthy kb' query') as Ht.
    rewrite He in Ht. discriminate Ht.
Qed.

Lemma no_match_witness :
  Agent.autoSearchKnowledge Inline.standaloneKB "hello there" =
  "No relevant information found.".
Proof.
  exact (proj1 (no_match_renders_placeholder Inline.standaloneKB "hello there"
                  eq_refl eq_refl eq_refl eq_refl)).
Defined.

(** C1 as stated fails in [src/agent.ts]: no keyword block returns for
    "hello there", the three searches find nothing, and the message that
    goes out carries the placeholder under the RELEVANT KNOWLEDGE header,
    followed by the instruction. *)
Lemma placeholder_sent_with_instruction :
  let kb := Inline.standaloneKB in
  let query := "hello there" in
  Agent.keywordBranches kb query = None /\
  Knowledge.searchProducts (Knowledge.products kb) query = [] /\
  Knowledge.searchFAQs (Knowledge.faqs kb) query = [] /\
  Knowledge.lookupPolicy (Knowledge.policies kb) query = None /\
  Agent.apiMessages kb query [] =
  [{| role := user;
      content :=
        "CUSTOMER QUESTION: hello there" +:+ Js.nl +:+ Js.nl +:+
        "RELEVANT KNOWLEDGE:" +:+ Js.nl +:+ "No relevant information found." +:+
        Js.nl +:+ Js.nl +:+ "Please answer based on this information." |}].
Proof. repeat split; vm_compute; reflexivity. Qed.

(** ** The topic guard *)

Lemma copy_history (history : list Message) :
  map (fun msg => {| role := role msg; content := content msg |}) history = history.
Proof.
  induction history as [|[r c] l IH]; simpl; [reflexivity | rewrite IH; reflexivity].
Qed.

(** C7.  The guard flags the poem request and not the stock question.  For
    a flagged utterance [runAgent] still sends its one request, made of the
    system prompt, the history as it is, and a single new user message whose
    content begins with the annotation, followed by a blank line and the
    question; and what [runAgent] answers does not depend on the utterance,
    flagged or not, but on the outcome of the call alone. *)
Theorem topic_guard_annotates :
  Agent.isLikelyOffTopic "write me a poem about your products" = true /\
  Agent.isLikelyOffTopic "do you have oak worktops in stock" = false /\
  (forall systemPrompt kb outcome userMessage history,
      Agent.isLikelyOffTopic userMessage = true ->
      Agent.requests (Agent.runAgent systemPrompt kb outcome userMessage history) =
      [ {| role := system; content := systemPrompt |} ::
        history ++
        [ {| role := user;
             content :=
               Agent.systemNoteText +:+ Js.nl +:+ Js.nl +:+
               "CUSTOMER QUESTION: " +:+ userMessage +:+ Js.nl +:+ Js.nl +:+
               Agent.knowledgeSection (Agent.autoSearchKnowledge kb userMessage) |} ] ]) /\
  (forall systemPrompt kb outcome userMessage otherMessage history,
      Agent.response (Agent.runAgent systemPrompt kb outcome userMessage history) =
      Agent.response (Agent.runAgent systemPrompt kb outcome otherMessage history)).
Proof.
  split; [vm_compute; reflexivity|]. split; [vm_compute; reflexivity|]. split.
  - intros systemPrompt kb outcome userMessage history Hflag.
    unfold Agent.runAgent, Agent.apiMessages; cbn [Agent.requests].
    rewrite Hflag, copy_history. reflexivity.
  - reflexivity.
Qed.

Lemma topic_guard_witness :
  Agent.requests
    (Agent.runAgent "persona" Inline.standaloneKB NoMessage
       "write me a poem about your products" []) =
  [ [ {| role := system; content := "persona" |};
      {| role := user;
         content :=
           Agent.systemNoteText +:+ Js.nl +:+ Js.nl +:+
           "CUSTOMER QUESTION: " +:+ "write me a poem about your products" +:+
           Js.nl +:+ Js.nl +:+
           Agent.knowledgeSection
             (Agent.autoSearchKnowledge Inline.standaloneKB
                "write me a poem about your products") |} ] ].
Proof.
  apply (proj1 (proj2 (proj2 topic_guard_annotates)) "persona"
           Inline.standaloneKB NoMessage "write me a poem about your products" []).
  vm_compute; reflexivity.
Defined.

(** ** Sessions *)

Lemma history_insert (sessions : gmap string Session) id id' session :
  history (<[id := session]> sessions) id' =
  if decide (id = id') then messages session else history sessions id'.
Proof.
  unfold history. rewrite lookup_insert.
  destruct (decide (id = id')); reflexivity.
Qed.

Lemma getOrCreate_spec (sessions : gmap string Session) id now :
  let session := fst (getOrCreate sessions id now) in
  let sessions1 := snd (getOrCreate sessions id now) in
  messages session = history sessions id /\
  forall id', history sessions1 id' = history sessions id'.
Proof.
  unfold getOrCreate, history. destruct (sessions !! id) as [s|] eqn:Hs; simpl.
  - split; reflexivity.
  - split; [reflexivity|]. intros id'.
    rewrite lookup_insert. destruct (decide (id = id')) as [<-|]; [|reflexivity].
    rewrite Hs. reflexivity.
Qed.

Lemma userTurns_push (l : list Message) (text answer : string) :
  userTurns (l ++ [{| role := user; content := text |};
                   {| role := assistant; content := answer |}]) = S (userTurns l).
Proof.
  unfold userTurns. rewrite filter_app_bool, length_app. simpl. lia.
Qed.

(** What the shared statements of the Express route and the serverless
    handlers do with a request that reaches them. *)
Lemma turn_spec runAgent now id raw outcome (sessions : gmap string Session) :
  let t := runAgent outcome (Js.slice0 500 raw) (history sessions id) in
  let r := Plain.turn runAgent now id raw outcome sessions in
  sent r = Agent.requests t /\
  (forall id', id' <> id -> history (store r) id' = history sessions id') /\
  if Js.truthyOpt (resp_error (Agent.response t))
  then status (reply r) = 500 /\ history (store r) id = history sessions id
  else status (reply r) = 200 /\
       history (store r) id =
       history sessions id ++
       [{| role := user; content := raw |};
        {| role := assistant; content := resp_content (Agent.response t) |}].
Proof.
  intros t r. subst t r. unfold Plain.turn.
  destruct (getOrCreate_spec sessions id now) as [Hm Hs].
  destruct (getOrCreate sessions id now) as [session sessions1].
  cbn [fst snd] in Hm, Hs. rewrite Hm.
  destruct (Js.truthyOpt _); cbn [sent store reply status].
  - split; [reflexivity|]. split.
    + intros id' Hne. rewrite history_insert.
      destruct (decide (id = id')); [congruence | apply Hs].
    + split; [reflexivity|]. rewrite history_insert.
      destruct (decide (id = id)); [reflexivity | congruence].
  - split; [reflexivity|]. split.
    + intros id' Hne. rewrite history_insert.
      destruct (decide (id = id')); [congruence | apply Hs].
    + split; [reflexivity|]. rewrite history_insert.
      destruct (decide (id = id)); [|congruence].
      unfold pushTurn; cbn [messages]. rewrite Hm. reflexivity.
Qed.

(** What the Bun route does with a request that passes the rate limiter,
    has both fields, and comes to a session below the limit. *)
Lemma bun_turn_spec systemPrompt kb ip now id raw outcome (st : BunServer.State) :
  fst (BunServer.checkRateLimit ip now (BunServer.rateLimit st)) = true ->
  Js.truthy id = true -> Js.truthy raw = true ->
  (userTurns (history (BunServer.sessions st) id) < CONFIG.MAX_MESSAGES_PER_SESSION)%nat ->
  let text := Js.slice0 CONFIG.MAX_MESSAGE_LENGTH raw in
  let t := Agent.runAgent systemPrompt kb outcome text
             (history (BunServer.sessions st) id) in
  let r := BunServer.chat systemPrompt kb ip now
             (Json {| sessionId := Some id; message := Some raw |}) outcome st in
  sent r = Agent.requests t /\
  (forall id', id' <> id ->
      history (BunServer.sessions (store r)) id' = history (BunServer.sessions st) id') /\
  if Js.truthyOpt (resp_error (Agent.response t))
  then status (reply r) = 500 /\
       history (BunServer.sessions (store r)) id = history (BunServer.sessions st) id
  else status (reply r) = 200 /\
       history (BunServer.sessions (store r)) id =
       history (BunServer.sessions st) id ++
       [{| role := user; content := text |};
        {| role := assistant; content := resp_content (Agent.response t) |}].
Proof.
  intros Hrate Hid Hraw Hlt text t r. subst text t r. unfold BunServer.chat.
  destruct (BunServer.checkRateLimit ip now (BunServer.rateLimit st))
    as [allowed rateLimit']. cbn [fst] in Hrate. subst allowed.
  cbn [negb sessionId message]. rewrite Hid, Hraw. cbn [negb orb].
  destruct (getOrCreate_spec (BunServer.sessions st) id now) as [Hm Hs].
  destruct (getOrCreate (BunServer.sessions st) id now) as [session sessions1].
  cbn [fst snd] in Hm, Hs. rewrite Hm.
  destruct (Nat.leb_spec CONFIG.MAX_MESSAGES_PER_SESSION
              (userTurns (history (BunServer.sessions st) id))); [lia|].
  destruct (Js.truthyOpt _); cbn [sent store reply status BunServer.sessions].
  - split; [reflexivity|]. split.
    + intros id' Hne. rewrite history_insert.
      destruct (decide (id = id')); [congruence | apply Hs].
    + split; [reflexivity|]. rewrite history_insert.
      destruct (decide (id = id)); [reflexivity | congruence].
  - split; [reflexivity|]. split.
    + intros id' Hne. rewrite history_insert.
      destruct (decide (id = id')); [congruence | apply Hs].
    + split; [reflexivity|]. rewrite history_insert.
      destruct (decide (id = id)); [|congruence].
      unfold pushTurn; cbn [messages]. rewrite Hm. reflexivity.
Qed.

(** Whatever the request, the Bun route leaves every stored conversation
    as it was or extends one of them by a user and an assistant message,
    and it extends none that has reached the limit. *)
Lemma bun_chat_history systemPrompt kb ip now request outcome (st : BunServer.State) id :
  let r := BunServer.chat systemPrompt kb ip now request outcome st in
  let before := history (BunServer.sessions st) id in
  let after := history (BunServer.sessions (store r)) id in
  after = before \/
  ((userTurns before < CONFIG.MAX_MESSAGES_PER_SESSION)%nat /\
   exists text answer,
     after = before ++ [{| role := user; content := text |};
                        {| role := assistant; content := answer |}]).
Proof.
  intros r before after. subst r before after.
  destruct (BunServer.checkRateLimit ip now (BunServer.rateLimit st))
    as [allowed rateLimit'] eqn:Hrate.
  destruct allowed; [|left; unfold BunServer.chat; rewrite Hrate; reflexivity].
  destruct request as [[[sid|] [raw|]]|t];
    try (left; unfold BunServer.chat; rewrite Hrate; reflexivity).
  destruct (Js.truthy sid) eqn:Hid;
    [|left; unfold BunServer.chat; rewrite Hrate; cbn [negb sessionId message];
      rewrite Hid; reflexivity].
  destruct (Js.truthy raw) eqn:Hraw;
    [|left; unfold BunServer.chat; rewrite Hrate; cbn [negb sessionId message];
      rewrite Hid, Hraw; reflexivity].
  destruct (Nat.leb_spec CONFIG.MAX_MESSAGES_PER_SESSION
              (userTurns (history (BunServer.sessions st) sid))) as [Hge|Hlt].
  - left. unfold BunServer.chat. rewrite Hrate. cbn [negb sessionId message].
    rewrite Hid, Hraw. cbn [negb orb].
    destruct (getOrCreate_spec (BunServer.sessions st) sid now) as [Hm Hs].
    destruct (getOrCreate (BunServer.sessions st) sid now) as [session sessions1].
    cbn [fst snd] in Hm, Hs. rewrite Hm.
    destruct (Nat.leb_spec CONFIG.MAX_MESSAGES_PER_SESSION
                (userTurns (history (BunServer.sessions st) sid))); [|lia].
    cbn [respond store BunServer.sessions]. apply Hs.
  - assert (Hrate' : fst (BunServer.checkRateLimit ip now (BunServer.rateLimit st)) = true)
      by (rewrite Hrate; reflexivity).
    destruct (bun_turn_spec systemPrompt kb ip now sid raw outcome st
                Hrate' Hid Hraw Hlt) as (_ & Hother & Hthis).
    destruct (decide (id = sid)) as [->|Hne]; [|left; apply Hother, Hne].
    destruct (Js.truthyOpt _).
    + left. apply Hthis.
    + right. split; [exact Hlt|]. eexists _, _. apply Hthis.
Qed.

(** ** The session limit *)

(** The Bun route turns away a request for a session that has reached the
    limit: 400 (or 429 from the rate limiter), nothing sent to the
    completion service, no stored conversation changed. *)
Lemma bun_rejects_at_limit systemPrompt kb ip now body outcome
    (st : BunServer.State) id :
  sessionId body = Some id ->
  (CONFIG.MAX_MESSAGES_PER_SESSION <= userTurns (history (BunServer.sessions st) id))%nat ->
  let r := BunServer.chat systemPrompt kb ip now (Json body) outcome st in
  (status (reply r) = 400 \/ status (reply r) = 429) /\
  sent r = [] /\
  forall id', history (BunServer.sessions (store r)) id' =
              history (BunServer.sessions st) id'.
Proof.
  intros Hsid Hge r. subst r. destruct body as [sid raw]. cbn in Hsid. subst sid.
  unfold BunServer.chat.
  destruct (BunServer.checkRateLimit ip now (BunServer.rateLimit st))
    as [[] rateLimit']; cbn [negb sessionId message];
    [|split; [right; reflexivity | split; reflexivity]].
  destruct raw as [raw|]; [|split; [left; reflexivity | split; reflexivity]].
  destruct (negb (Js.truthy id) || negb (Js.truthy raw));
    [split; [left; reflexivity | split; reflexivity]|].
  destruct (getOrCreate_spec (BunServer.sessions st) id now) as [Hm Hs].
  destruct (getOrCreate (BunServer.sessions st) id now) as [session sessions1].
  cbn [fst snd] in Hm, Hs. rewrite Hm.
  destruct (Nat.leb_spec CONFIG.MAX_MESSAGES_PER_SESSION
              (userTurns (history (BunServer.sessions st) id))); [|lia].
  split; [left; reflexivity | split; [reflexivity | exact Hs]].
Qed.

Lemma cleanup_history now (st : BunServer.State) id :
  history (BunServer.sessions (BunServer.cleanup now st)) id =
    history (BunServer.sessions st) id \/
  history (BunServer.sessions (BunServer.cleanup now st)) id = [].
Proof.
  unfold history, BunServer.cleanup; cbn [BunServer.sessions].
  destruct (filter _ (BunServer.sessions st) !! id) as [s|] eqn:Hf; [|right; reflexivity].
  apply map_lookup_filter_Some in Hf as [Hl _]. rewrite Hl. left; reflexivity.
Qed.

(** With requests handled one after the other, no session of the Bun
    server ever holds more user turns than the limit. *)
Lemma bun_user_turns_bounded systemPrompt kb events id :
  (userTurns (history (BunServer.sessions (BunServer.run systemPrompt kb events)) id)
   <= CONFIG.MAX_MESSAGES_PER_SESSION)%nat.
Proof.
  unfold BunServer.run.
  assert (Hgen : forall st,
             (forall i, (userTurns (history (BunServer.sessions st) i)
                         <= CONFIG.MAX_MESSAGES_PER_SESSION)%nat) ->
             forall i,
               (userTurns (history (BunServer.sessions
                                      (fold_left (BunServer.step systemPrompt kb) events st)) i)
                <= CONFIG.MAX_MESSAGES_PER_SESSION)%nat).
  { induction events as [|ev events IH]; intros st Hst; [exact Hst|].
    cbn [fold_left]. apply IH. intros i.
    destruct ev as [ip now request outcome|now]; cbn [BunServer.step].
    - destruct (bun_chat_history systemPrompt kb ip now request outcome st i)
        as [->|[Hlt (text & answer & ->)]]; [apply Hst|].
      rewrite userTurns_push. lia.
    - destruct (cleanup_history now st i) as [->| ->]; [apply Hst|].
      unfold userTurns; simpl. lia. }
  apply Hgen. intros i. unfold history, BunServer.initial; cbn [BunServer.sessions].
  rewrite lookup_empty. unfold userTurns; simpl. lia.
Qed.

(** The Express route and the serverless handlers send every well-formed
    request on to the agent, however long the stored conversation is. *)
Lemma plain_handlers_have_no_limit runAgent apiKey now id raw outcome
    (sessions : gmap string Session) :
  Js.truthy id = true -> Js.truthy raw = true -> Js.truthy apiKey = true ->
  let body := {| sessionId := Some id; message := Some raw |} in
  let t := runAgent outcome (Js.slice0 500 raw) (history sessions id) in
  Plain.expressChat runAgent apiKey now body outcome sessions =
    Plain.turn runAgent now id raw outcome sessions /\
  Plain.handler runAgent apiKey Plain.POST now (Json body) outcome sessions =
    Plain.turn runAgent now id raw outcome sessions /\
  sent (Plain.turn runAgent now id raw outcome sessions) = Agent.requests t.
Proof.
  intros Hid Hraw Hkey body t. subst body t.
  unfold Plain.expressChat, Plain.handler; cbn [sessionId message].
  rewrite Hid, Hraw, Hkey. cbn [negb orb].
  split; [reflexivity|]. split; [reflexivity|].
  apply (turn_spec runAgent now id raw outcome sessions).
Qed.

(** C4 fails in the Express application: after fifty answered turns of
    session [s1], which is the configured maximum, the next request of that
    session is answered with 200, a request goes out to the completion
    service, and the session grows to fifty-one user turns. *)
Theorem express_takes_turn_past_limit :
  let sessions := Samples.expressAfter 50 in
  let r := Plain.express "key" 0 Samples.hello (Replied (Some "hi")) sessions in
  userTurns (history sessions "s1") = CONFIG.MAX_MESSAGES_PER_SESSION /\
  status (reply r) = 200 /\
  length (sent r) = 1%nat /\
  userTurns (history (store r) "s1") = 51%nat /\
  length (history (store r) "s1") = 102%nat.
Proof. vm_compute. repeat split; reflexivity. Qed.

(** ** Expiry *)

(** C8.  A session idle for longer than the timeout when the cleanup runs
    is gone from the store afterwards.  A request of the same [sessionId]
    that then reaches the agent is handled with an empty history: the
    request to the completion service holds the system prompt and the new
    user message and nothing else, and the stored conversation afterwards
    is that one turn (or still empty when the call fails). *)
Theorem expired_session_forgotten systemPrompt kb (st : BunServer.State)
    now id session :
  BunServer.sessions st !! id = Some session ->
  CONFIG.SESSION_TIMEOUT_MS < now - lastActive session ->
  let st' := BunServer.cleanup now st in
  BunServer.sessions st' !! id = None /\
  forall ip later raw outcome,
    fst (BunServer.checkRateLimit ip later (BunServer.rateLimit st')) = true ->
    Js.truthy id = true -> Js.truthy raw = true ->
    let text := Js.slice0 CONFIG.MAX_MESSAGE_LENGTH raw in
    let note :=
      if Agent.isLikelyOffTopic text then Agent.systemNoteText else EmptyString in
    let t := Agent.runAgent systemPrompt kb outcome text [] in
    let r := BunServer.chat systemPrompt kb ip later
               (Json {| sessionId := Some id; message := Some raw |}) outcome st' in
    sent r =
      [[ {| role := system; content := systemPrompt |};
         {| role := user;
            content := Agent.userContent note text
                         (Agent.autoSearchKnowledge kb text) |} ]] /\
    history (BunServer.sessions (store r)) id =
      if Js.truthyOpt (resp_error (Agent.response t)) then []
      else [{| role := user; content := text |};
            {| role := assistant; content := resp_content (Agent.response t) |}].
Proof.
  intros Hs Hidle st'.
  assert (Hgone : BunServer.sessions st' !! id = None).
  { unfold st', BunServer.cleanup; cbn [BunServer.sessions].
    apply map_lookup_filter_None. right. intros x Hx. cbn [snd].
    rewrite Hs in Hx. injection Hx as <-. intros Hn. apply Hn. lia. }
  split; [exact Hgone|].
  intros ip later raw outcome Hrate Hid Hraw text note t r.
  assert (Hh : history (BunServer.sessions st') id = []).
  { unfold history. rewrite Hgone. reflexivity. }
  assert (Hlt : (userTurns (history (BunServer.sessions st') id)
                 < CONFIG.MAX_MESSAGES_PER_SESSION)%nat).
  { rewrite Hh. unfold userTurns, CONFIG.MAX_MESSAGES_PER_SESSION; simpl. lia. }
  destruct (bun_turn_spec systemPrompt kb ip later id raw outcome st'
              Hrate Hid Hraw Hlt) as (Hsent & _ & Hthis).
  rewrite Hh in Hsent, Hthis. split; [exact Hsent|].
  fold text t in Hthis. fold r in Hthis. fold text in Hthis.
  destruct (Js.truthyOpt (resp_error (Agent.response t))); apply Hthis.
Qed.

Lemma expired_session_witness :
  BunServer.sessions (BunServer.cleanup 1800001 Samples.idleStore) !! "s1" = None.
Proof.
  refine (proj1 (expired_session_forgotten "persona" Inline.standaloneKB
                   Samples.idleStore 1800001 "s1" _ _ _)).
  - vm_compute; reflexivity.
  - vm_compute; reflexivity.
Defined.

(** ** Failed and successful turns *)

(** When the error field of [runAgent]'s result is set, in terms of the
    outcome of the call. *)
Lemma runAgent_error_set systemPrompt kb outcome userMessage history :
  Js.truthyOpt
    (resp_error (Agent.response
                   (Agent.runAgent systemPrompt kb outcome userMessage history))) =
  match outcome with
  | NotOk _ _ | NoMessage | Rejected OtherValue => true
  | Rejected (ErrorWith message) => Js.truthy message
  | Replied _ => false
  end.
Proof. destruct outcome as [[message|]| | |]; reflexivity. Qed.

(** C9.  In a turn that reaches the agent and in which [runAgent] returns
    with its error set (the handlers test [response.error], which an
    [Error] with an empty message would not pass), the Bun route, the
    Express route and the serverless handler answer 500 and leave every
    stored conversation as it was. *)
Theorem failed_turn_stores_nothing (id raw : string) (outcome : ProviderOutcome) :
  Js.truthy id = true -> Js.truthy raw = true ->
  let body := {| sessionId := Some id; message := Some raw |} in
  (forall systemPrompt kb ip now (st : BunServer.State),
      fst (BunServer.checkRateLimit ip now (BunServer.rateLimit st)) = true ->
      (userTurns (history (BunServer.sessions st) id)
       < CONFIG.MAX_MESSAGES_PER_SESSION)%nat ->
      Js.truthyOpt
        (resp_error
           (Agent.response
              (Agent.runAgent systemPrompt kb outcome
                 (Js.slice0 CONFIG.MAX_MESSAGE_LENGTH raw)
                 (history (BunServer.sessions st) id)))) = true ->
      let r := BunServer.chat systemPrompt kb ip now (Json body) outcome st in
      status (reply r) = 500 /\
      forall id', history (BunServer.sessions (store r)) id' =
                  history (BunServer.sessions st) id') /\
  (forall runAgent apiKey now (sessions : gmap string Session),
      Js.truthy apiKey = true ->
      Js.truthyOpt
        (resp_error
           (Agent.response
              (runAgent outcome (Js.slice0 500 raw) (history sessions id)))) = true ->
      let e := Plain.expressChat runAgent apiKey now body outcome sessions in
      let h := Plain.handler runAgent apiKey Plain.POST now (Json body) outcome
                 sessions in
      (status (reply e) = 500 /\
       forall id', history (store e) id' = history sessions id') /\
      (status (reply h) = 500 /\
       forall id', history (store h) id' = history sessions id')).
Proof.
  intros Hid Hraw body. split.
  - intros systemPrompt kb ip now st Hrate Hlt Herr r.
    destruct (bun_turn_spec systemPrompt kb ip now id raw outcome st
                Hrate Hid Hraw Hlt) as (_ & Hother & Hthis).
    rewrite Herr in Hthis. fold body in Hthis, Hother. fold r in Hthis, Hother.
    split; [apply Hthis|]. intros id'.
    destruct (decide (id' = id)) as [->|Hne]; [apply Hthis | apply Hother, Hne].
  - intros runAgent apiKey now sessions Hkey Herr e h.
    destruct (plain_handlers_have_no_limit runAgent apiKey now id raw outcome
                sessions Hid Hraw Hkey) as (He & Hh & _).
    fold body in He, Hh. fold e in He. fold h in Hh.
    destruct (turn_spec runAgent now id raw outcome sessions) as (_ & Hother & Hthis).
    rewrite Herr in Hthis. rewrite He, Hh.
    assert (Hall : forall id',
               history (store (Plain.turn runAgent now id raw outcome sessions)) id'
               = history sessions id').
    { intros id'. destruct (decide (id' = id)) as [->|Hne];
        [apply Hthis | apply Hother, Hne]. }
    split; (split; [apply Hthis | exact Hall]).
Qed.

Lemma failed_turn_witness :
  status (reply (Plain.express "key" 0 Samples.hello (NotOk 503 "busy")
                   (Samples.expressAfter 1))) = 500 /\
  forall id',
    history (store (Plain.express "key" 0 Samples.hello (NotOk 503 "busy")
                      (Samples.expressAfter 1))) id' =
    history (Samples.expressAfter 1) id'.
Proof.
  refine (proj1 (proj2 (failed_turn_stores_nothing "s1" "hello" (NotOk 503 "busy")
                          _ _)
                   Inline.expressRunAgent "key" 0 (Samples.expressAfter 1) _ _)).
  - reflexivity.
  - reflexivity.
  - reflexivity.
  - vm_compute; reflexivity.
Defined.

Lemma slice0_shorter n s :
  (n < String.length s)%nat ->
  String.length (Js.slice0 n s) = n /\ s <> Js.slice0 n s.
Proof.
  intros Hlt. assert (Hlen : String.length (Js.slice0 n s) = n)
    by (rewrite length_slice0; lia).
  split; [exact Hlen|]. intros Heq. rewrite <- Heq in Hlen. lia.
Qed.

(** C10.  In a successful turn the Express route and the serverless
    handler run the agent on the first 500 characters of the message and
    append the whole message to the session.  For a message of more than
    500 characters the stored user entry is therefore longer than the
    configured maximum message length and is not the text the agent was
    given as the customer question.  The Bun route stores the truncated
    text, which is within the maximum. *)
Theorem raw_message_stored_untruncated (id raw : string) (outcome : ProviderOutcome) :
  Js.truthy id = true -> Js.truthy raw = true ->
  (500 < String.length raw)%nat ->
  let body := {| sessionId := Some id; message := Some raw |} in
  (forall runAgent apiKey now (sessions : gmap string Session),
      Js.truthy apiKey = true ->
      let t := runAgent outcome (Js.slice0 500 raw) (history sessions id) in
      Js.truthyOpt (resp_error (Agent.response t)) = false ->
      let e := Plain.expressChat runAgent apiKey now body outcome sessions in
      let h := Plain.handler runAgent apiKey Plain.POST now (Json body) outcome
                 sessions in
      let stored :=
        history sessions id ++
        [{| role := user; content := raw |};
         {| role := assistant; content := resp_content (Agent.response t) |}] in
      sent e = Agent.requests t /\ history (store e) id = stored /\
      sent h = Agent.requests t /\ history (store h) id = stored) /\
  String.length (Js.slice0 500 raw) = 500%nat /\
  raw <> Js.slice0 500 raw /\
  (CONFIG.MAX_MESSAGE_LENGTH < String.length raw)%nat /\
  (forall systemPrompt kb ip now (st : BunServer.State),
      fst (BunServer.checkRateLimit ip now (BunServer.rateLimit st)) = true ->
      (userTurns (history (BunServer.sessions st) id)
       < CONFIG.MAX_MESSAGES_PER_SESSION)%nat ->
      let text := Js.slice0 CONFIG.MAX_MESSAGE_LENGTH raw in
      let t := Agent.runAgent systemPrompt kb outcome text
                 (history (BunServer.sessions st) id) in
      Js.truthyOpt (resp_error (Agent.response t)) = false ->
      let r := BunServer.chat systemPrompt kb ip now (Json body) outcome st in
      sent r = Agent.requests t /\
      history (BunServer.sessions (store r)) id =
        history (BunServer.sessions st) id ++
        [{| role := user; content := text |};
         {| role := assistant; content := resp_content (Agent.response t) |}] /\
      (String.length text <= CONFIG.MAX_MESSAGE_LENGTH)%nat).
Proof.
  intros Hid Hraw Hlong body.
  destruct (slice0_shorter 500 raw Hlong) as [Hlen Hne].
  split; [|split; [exact Hlen | split; [exact Hne | split; [exact Hlong|]]]].
  - intros runAgent apiKey now sessions Hkey t Hok e h stored.
    destruct (plain_handlers_have_no_limit runAgent apiKey now id raw outcome
                sessions Hid Hraw Hkey) as (He & Hh & Hsent).
    fold body in He, Hh. fold e in He. fold h in Hh. fold t in Hsent.
    destruct (turn_spec runAgent now id raw outcome sessions) as (_ & _ & Hthis).
    fold t in Hthis. rewrite Hok in Hthis. rewrite He, Hh.
    repeat split; solve [exact Hsent | apply Hthis].
  - intros systemPrompt kb ip now st Hrate Hlt text t Hok r.
    destruct (bun_turn_spec systemPrompt kb ip now id raw outcome st
                Hrate Hid Hraw Hlt) as (Hsent & _ & Hthis).
    fold text t in Hsent, Hthis. fold body in Hsent, Hthis. fold r in Hsent, Hthis.
    fold text in Hthis. rewrite Hok in Hthis.
    split; [exact Hsent|]. split; [apply Hthis|].
    unfold text. rewrite length_slice0. lia.
Qed.

Lemma raw_message_stored_witness :
  let body := {| sessionId := Some "s1"; message := Some Samples.longMessage |} in
  let t := Inline.expressRunAgent (Replied (Some "hi"))
             (Js.slice0 500 Samples.longMessage) (history ∅ "s1") in
  history (store (Plain.express "key" 0 body (Replied (Some "hi")) ∅)) "s1" =
  history ∅ "s1" ++
  [{| role := user; content := Samples.longMessage |};
   {| role := assistant; content := resp_content (Agent.response t) |}].
Proof.
  refine (proj1 (proj2 (proj1 (raw_message_stored_untruncated "s1"
                                 Samples.longMessage (Replied (Some "hi")) _ _ _)
                          Inline.expressRunAgent "key" 0 ∅ _ _))).
  - reflexivity.
  - reflexivity.
  - vm_compute. lia.
  - reflexivity.
  - reflexivity.
Defined.

(** ** The end-to-end scenario of the specification *)

Example stock_question_context :
  let text := "Do you have oak worktops in stock?" in
  let context := Agent.autoSearchKnowledge Inline.standaloneKB text in
  String.prefix "PRODUCT SEARCH RESULTS:" context = true /\
  Js.includes context "Premium Oak Worktop" = true /\
  Js.includes context "£149.99" = true /\
  Js.includes context "✓ In Stock" = true /\
  Agent.isLikelyOffTopic text = false.
Proof. vm_compute. repeat split; reflexivity. Qed.

(** ** Blank queries and sample evaluations *)

Lemma trimStart_head s c r : Js.trimStart s = String c r -> Js.isSpace c = false.
Proof.
  induction s as [|a s IH]; simpl; [discriminate|].
  destruct (Js.isSpace a) eqn:Ha; [exact IH|]. intros [= <- _]. exact Ha.
Qed.

Lemma blank_trimStart s : Js.truthy (Js.trim s) = false -> Js.trimStart s = EmptyString.
Proof.
  unfold Js.trim. destruct (Js.trimStart s) as [|c r] eqn:Hs; [reflexivity|].
  pose proof (trimStart_head s c r Hs) as Hc. simpl. rewrite Hc.
  destruct (Js.trimEnd r); discriminate.
Qed.

Lemma splitWs_blank s b :
  Js.trimStart s = EmptyString ->
  Forall (fun w => (String.length w < 2)%nat) (Js.splitWs b s).
Proof.
  revert b; induction s as [|c r IH]; intros b; simpl.
  - intros _. repeat constructor.
  - destruct (Js.isSpace c); [|discriminate]. intros Hr.
    destruct b; [apply IH, Hr|]. constructor; [simpl; lia | apply IH, Hr].
Qed.

(** A blank query is a query without a word of two characters. *)
Lemma blank_query_short_words query :
  Js.truthy (Js.trim query) = false ->
  Forall (fun w => (String.length w < 2)%nat) (Js.split query).
Proof. intros Hb. apply splitWs_blank, blank_trimStart, Hb. Qed.

Example split_words :
  Js.split " oak  and a " = [EmptyString; "oak"; "and"; "a"; EmptyString].
Proof. reflexivity. Qed.

Example trim_and_numbers :
  Js.trim "  a b  " = "a b" /\ Js.toFixed2 14999 = "149.99" /\
  Js.toFixed2 5 = "0.05" /\ Js.numberToString 4550 = "45.5" /\
  Js.numberToString 10000 = "100".
Proof. repeat split; reflexivity. Qed.

Example category_not_searched :
  Knowledge.searchProducts Inline.products "worktops" = [] /\
  Knowledge.searchProducts Inline.products "worktop" =
  [Samples.premiumOak;
   Inline.mkProduct "p4" "Quartz Worktop" "Worktops" "Engineered quartz surface"
     29999 false None].
Proof. split; reflexivity. Qed.

(** The order of the keyword blocks: the product block when it has
    something to return, else the policy block, else the FAQ block. *)
Lemma keyword_dispatch_order kb query :
  let q := Js.toLowerCase query in
  Agent.keywordBranches kb query =
  match (if mentions productKeywords q then Agent.productBranch kb query else None),
        (if mentions policyKeywords q then Agent.policyBranch kb query else None),
        (if mentions faqKeywords q then Agent.faqBranch kb query else None) with
  | Some text, _, _ => Some text
  | None, Some text, _ => Some text
  | None, None, found => found
  end.
Proof.
  intros q. unfold Agent.keywordBranches. fold q.
  destruct (if mentions productKeywords q then _ else _); [reflexivity|].
  destruct (if mentions policyKeywords q then _ else _); reflexivity.
Qed.

(** A product keyword without a product hit falls through to the policy
    block. *)
Example price_of_shipping :
  let text := "price of shipping" in
  mentions productKeywords (Js.toLowerCase text) = true /\
  Knowledge.searchProducts Inline.products text = [] /\
  String.prefix "POLICY INFO:" (Agent.autoSearchKnowledge Inline.standaloneKB text) = true /\
  Js.includes (Agent.autoSearchKnowledge Inline.standaloneKB text)
    "Shipping Information" = true.
Proof. vm_compute. repeat split; reflexivity. Qed.

(** * Further properties of the code *)

(** ** The rate limiter *)

Lemma replicate_S_true (n : nat) : replicate (S n) true = true :: replicate n true.
Proof. reflexivity. Qed.

(** Inside a window: with [count] requests counted so far, the limiter
    lets through what is left of the allowance and refuses the rest. *)
Lemma rateDecisions_in_window ip (times : list Z)
    (rateLimit : gmap string BunServer.RateEntry) entry :
  rateLimit !! ip = Some entry ->
  1 <= BunServer.count entry <= CONFIG.MAX_MESSAGES_PER_MINUTE ->
  Forall (fun t => t <= BunServer.resetTime entry) times ->
  let left :=
    Z.to_nat (CONFIG.MAX_MESSAGES_PER_MINUTE - BunServer.count entry) in
  ServerUtil.rateDecisions ip times rateLimit =
  replicate (length times `min` left) true ++
  replicate (length times - left) false.
Proof.
  revert rateLimit entry.
  induction times as [|t times IH]; intros rateLimit entry Hl Hc Ht left;
    [reflexivity|].
  apply Forall_cons in Ht as [Hle Ht].
  cbn [ServerUtil.rateDecisions]. unfold BunServer.checkRateLimit. rewrite Hl.
  destruct (Z.ltb_spec (BunServer.resetTime entry) t) as [Hexp|_]; [lia|].
  destruct (Z.leb_spec CONFIG.MAX_MESSAGES_PER_MINUTE (BunServer.count entry))
    as [Hfull|Hroom].
  - rewrite (IH rateLimit entry Hl Hc Ht). fold left.
    assert (Hz : left = 0%nat) by (unfold left; lia). rewrite Hz.
    rewrite !Nat.min_0_r, !Nat.sub_0_r. reflexivity.
  - set (entry' := {| BunServer.count := BunServer.count entry + 1;
                      BunServer.resetTime := BunServer.resetTime entry |}).
    rewrite (IH (<[ip := entry']> rateLimit) entry');
      [|apply lookup_insert_eq | cbn; lia | exact Ht].
    cbn [BunServer.count entry'].
    set (left' := Z.to_nat (CONFIG.MAX_MESSAGES_PER_MINUTE
                            - (BunServer.count entry + 1))).
    assert (Hs : left = S left') by (unfold left, left'; lia). rewrite Hs.
    cbn [length]. rewrite <- Nat.succ_min_distr, replicate_S_true.
    reflexivity.
Qed.

(** X1.  From the first request of an address that has no entry, or whose
    window is over, the limiter lets through that request and the ones
    that follow until the window closes, up to the allowance of twenty in
    all, and refuses every further one of the window. *)
Theorem rate_limit_allows_twenty_per_window ip (t0 : Z) (later : list Z)
    (rateLimit : gmap string BunServer.RateEntry) :
  (forall entry, rateLimit !! ip = Some entry -> BunServer.resetTime entry < t0) ->
  Forall (fun t => t <= t0 + 60000) later ->
  let n := S (length later) in
  let allowance := Z.to_nat CONFIG.MAX_MESSAGES_PER_MINUTE in
  ServerUtil.rateDecisions ip (t0 :: later) rateLimit =
  replicate (n `min` allowance) true ++ replicate (n - allowance) false.
Proof.
  intros Hfresh Hlater n allowance.
  set (fresh := {| BunServer.count := 1; BunServer.resetTime := t0 + 60000 |}).
  assert (Hfirst : BunServer.checkRateLimit ip t0 rateLimit
                   = (true, <[ip := fresh]> rateLimit)).
  { unfold BunServer.checkRateLimit. destruct (rateLimit !! ip) as [e|] eqn:He;
      [|reflexivity].
    specialize (Hfresh e eq_refl).
    destruct (Z.ltb_spec (BunServer.resetTime e) t0); [reflexivity | lia]. }
  cbn [ServerUtil.rateDecisions]. rewrite Hfirst.
  rewrite (rateDecisions_in_window ip later (<[ip := fresh]> rateLimit) fresh);
    [|apply lookup_insert_eq | cbn; unfold CONFIG.MAX_MESSAGES_PER_MINUTE; lia
     | exact Hlater].
  reflexivity.
Qed.

Lemma rate_limit_witness :
  ServerUtil.rateDecisions "10.0.0.7" (0 :: replicate 21 100) ∅ =
  replicate 20 true ++ replicate 2 false.
Proof.
  refine (rate_limit_allows_twenty_per_window "10.0.0.7" 0 (replicate 21 100) ∅ _ _).
  - intros entry He. rewrite lookup_empty in He. discriminate He.
  - apply Forall_forall. intros t [-> _]%elem_of_replicate. lia.
Defined.

Lemma checkRateLimit_refused ip now (rateLimit : gmap string BunServer.RateEntry) :
  fst (BunServer.checkRateLimit ip now rateLimit) = false ->
  snd (BunServer.checkRateLimit ip now rateLimit) = rateLimit.
Proof.
  unfold BunServer.checkRateLimit. destruct (rateLimit !! ip) as [e|]; [|discriminate].
  destruct (_ <? _); [discriminate|]. destruct (_ <=? _); [reflexivity | discriminate].
Qed.

(** X2.  A request the limiter refuses is answered 429 and changes
    nothing: no session is created or touched, the limiter's own map stays
    as it was, and nothing is sent to the completion service. *)
Theorem rate_limited_request_changes_nothing systemPrompt kb ip now request
    outcome (st : BunServer.State) :
  fst (BunServer.checkRateLimit ip now (BunServer.rateLimit st)) = false ->
  let r := BunServer.chat systemPrompt kb ip now request outcome st in
  status (reply r) = 429 /\ sent r = [] /\ store r = st.
Proof.
  intros Href r. subst r. pose proof (checkRateLimit_refused _ _ _ Href) as Hsame.
  unfold BunServer.chat.
  destruct (BunServer.checkRateLimit ip now (BunServer.rateLimit st))
    as [allowed rateLimit']. cbn [fst snd] in Href, Hsame. subst allowed rateLimit'.
  cbn [negb respond reply status sent store]. destruct st; repeat split.
Qed.

Lemma rate_limited_witness :
  let st := {| BunServer.sessions := ∅;
               BunServer.rateLimit :=
                 {[ "10.0.0.7" := {| BunServer.count := 20;
                                     BunServer.resetTime := 60000 |} ]} |} in
  let r := BunServer.chat "persona" Inline.standaloneKB "10.0.0.7" 100
             (Json Samples.hello) NoMessage st in
  status (reply r) = 429 /\ sent r = [] /\ store r = st.
Proof.
  refine (rate_limited_request_changes_nothing "persona" Inline.standaloneKB
            "10.0.0.7" 100 (Json Samples.hello) NoMessage _ _).
  vm_compute; reflexivity.
Defined.

(** ** The cleanup timer *)

Lemma cleanup_sessions_lookup now (st : BunServer.State) id session :
  BunServer.sessions (BunServer.cleanup now st) !! id = Some session <->
  BunServer.sessions st !! id = Some session /\
  now - lastActive session <= CONFIG.SESSION_TIMEOUT_MS.
Proof.
  unfold BunServer.cleanup; cbn [BunServer.sessions].
  rewrite map_lookup_filter_Some. cbn [snd]. split; intros [Hl Hk]; (split; [exact Hl|lia]).
Qed.

Lemma cleanup_rateLimit_lookup now (st : BunServer.State) ip entry :
  BunServer.rateLimit (BunServer.cleanup now st) !! ip = Some entry <->
  BunServer.rateLimit st !! ip = Some entry /\ now <= BunServer.resetTime entry.
Proof.
  unfold BunServer.cleanup; cbn [BunServer.rateLimit].
  rewrite map_lookup_filter_Some. cbn [snd]. split; intros [Hl Hk]; (split; [exact Hl|lia]).
Qed.

(** X3.  The cleanup keeps exactly the sessions idle for no longer than the
    timeout and the limiter entries whose window is not over, each as it
    was; it adds nothing, and running it again at the same time changes
    nothing more. *)
Theorem cleanup_keeps_exactly_the_fresh now (st : BunServer.State) :
  (forall id session,
      BunServer.sessions (BunServer.cleanup now st) !! id = Some session <->
      BunServer.sessions st !! id = Some session /\
      now - lastActive session <= CONFIG.SESSION_TIMEOUT_MS) /\
  (forall ip entry,
      BunServer.rateLimit (BunServer.cleanup now st) !! ip = Some entry <->
      BunServer.rateLimit st !! ip = Some entry /\
      now <= BunServer.resetTime entry) /\
  BunServer.cleanup now (BunServer.cleanup now st) = BunServer.cleanup now st.
Proof.
  split; [apply cleanup_sessions_lookup|]. split; [apply cleanup_rateLimit_lookup|].
  assert (Hs : BunServer.sessions (BunServer.cleanup now (BunServer.cleanup now st))
               = BunServer.sessions (BunServer.cleanup now st)).
  { apply map_eq. intros id. apply option_eq. intros s.
    rewrite cleanup_sessions_lookup. split; [tauto|]. intros Hl. split; [exact Hl|].
    apply cleanup_sessions_lookup in Hl. tauto. }
  assert (Hr : BunServer.rateLimit (BunServer.cleanup now (BunServer.cleanup now st))
               = BunServer.rateLimit (BunServer.cleanup now st)).
  { apply map_eq. intros ip. apply option_eq. intros e.
    rewrite cleanup_rateLimit_lookup. split; [tauto|]. intros Hl. split; [exact Hl|].
    apply cleanup_rateLimit_lookup in Hl. tauto. }
  destruct (BunServer.cleanup now (BunServer.cleanup now st)) as [s1 r1].
  destruct (BunServer.cleanup now st) as [s2 r2]. cbn in Hs, Hr. congruence.
Qed.

(** X4.  The cleanup is invisible to the limiter: at any time from the
    sweep on, an address is let through or refused exactly as it would have
    been had the sweep not run. *)
Theorem cleanup_keeps_rate_decisions now later ip (st : BunServer.State) :
  now <= later ->
  fst (BunServer.checkRateLimit ip later
         (BunServer.rateLimit (BunServer.cleanup now st))) =
  fst (BunServer.checkRateLimit ip later (BunServer.rateLimit st)).
Proof.
  intros Hle. unfold BunServer.checkRateLimit.
  destruct (BunServer.rateLimit (BunServer.cleanup now st) !! ip) as [e|] eqn:Hc.
  - apply cleanup_rateLimit_lookup in Hc as [-> _].
    destruct (_ <? _); [reflexivity|]. destruct (_ <=? _); reflexivity.
  - destruct (BunServer.rateLimit st !! ip) as [e|] eqn:Ho; [|reflexivity].
    destruct (Z.ltb_spec (BunServer.resetTime e) later) as [_|Hin]; [reflexivity|].
    assert (Hk : BunServer.rateLimit (BunServer.cleanup now st) !! ip = Some e)
      by (apply cleanup_rateLimit_lookup; split; [exact Ho | lia]).
    rewrite Hk in Hc. discriminate Hc.
Qed.

Lemma cleanup_rate_witness :
  fst (BunServer.checkRateLimit "10.0.0.7" 70000
         (BunServer.rateLimit
            (BunServer.cleanup 65000
               {| BunServer.sessions := ∅;
                  BunServer.rateLimit :=
                    {[ "10.0.0.7" := {| BunServer.count := 20;
                                        BunServer.resetTime := 60000 |} ]} |}))) =
  fst (BunServer.checkRateLimit "10.0.0.7" 70000
         {[ "10.0.0.7" := {| BunServer.count := 20; BunServer.resetTime := 60000 |} ]}).
Proof.
  refine (cleanup_keeps_rate_decisions 65000 70000 "10.0.0.7" _ _). lia.
Defined.

(** ** Sessions under the handlers *)

Lemma getOrCreate_lookup_ne (sessions : gmap string Session) id id' now :
  id <> id' -> snd (getOrCreate sessions id now) !! id' = sessions !! id'.
Proof.
  intros Hne. unfold getOrCreate. destruct (sessions !! id); cbn [snd];
    [reflexivity | apply lookup_insert_ne, Hne].
Qed.

Lemma getOrCreate_insert (sessions : gmap string Session) id now session :
  <[id := session]> (snd (getOrCreate sessions id now)) = <[id := session]> sessions.
Proof.
  unfold getOrCreate. destruct (sessions !! id); cbn [snd];
    [reflexivity | apply insert_insert_eq].
Qed.

Lemma getOrCreate_existing (sessions : gmap string Session) id now session :
  sessions !! id = Some session -> getOrCreate sessions id now = (session, sessions).
Proof. intros Hs. unfold getOrCreate. rewrite Hs. reflexivity. Qed.

(** The Bun route on a request that reaches the agent, written out. *)
Lemma bun_turn_eq systemPrompt kb ip now id raw outcome (st : BunServer.State) :
  fst (BunServer.checkRateLimit ip now (BunServer.rateLimit st)) = true ->
  Js.truthy id = true -> Js.truthy raw = true ->
  (userTurns (history (BunServer.sessions st) id) < CONFIG.MAX_MESSAGES_PER_SESSION)%nat ->
  let text := Js.slice0 CONFIG.MAX_MESSAGE_LENGTH raw in
  let before := history (BunServer.sessions st) id in
  let t := Agent.runAgent systemPrompt kb outcome text before in
  let answer := resp_content (Agent.response t) in
  let failed := Js.truthyOpt (resp_error (Agent.response t)) in
  BunServer.chat systemPrompt kb ip now
    (Json {| sessionId := Some id; message := Some raw |}) outcome st =
  {| reply :=
       if failed
       then {| status := 500;
               payload := ErrorBody (default EmptyString
                                       (resp_error (Agent.response t))) |}
       else {| status := 200; payload := ChatBody answer id |};
     store :=
       {| BunServer.sessions :=
            <[id := {| messages :=
                         if failed then before
                         else before ++
                              [{| role := user; content := text |};
                               {| role := assistant; content := answer |}];
                       lastActive := now |}]> (BunServer.sessions st);
          BunServer.rateLimit :=
            snd (BunServer.checkRateLimit ip now (BunServer.rateLimit st)) |};
     sent := Agent.requests t |}.
Proof.
  intros Hrate Hid Hraw Hlt text before t answer failed.
  subst text before t answer failed. unfold BunServer.chat.
  destruct (BunServer.checkRateLimit ip now (BunServer.rateLimit st))
    as [allowed rateLimit']. cbn [fst snd] in *. subst allowed.
  cbn [negb sessionId message]. rewrite Hid, Hraw. cbn [negb orb].
  destruct (getOrCreate_spec (BunServer.sessions st) id now) as [Hm _].
  pose proof (getOrCreate_insert (BunServer.sessions st) id now) as Hi.
  destruct (getOrCreate (BunServer.sessions st) id now) as [session sessions1].
  cbn [fst snd] in Hm, Hi. rewrite Hm.
  destruct (Nat.leb_spec CONFIG.MAX_MESSAGES_PER_SESSION
              (userTurns (history (BunServer.sessions st) id))); [lia|].
  destruct (Js.truthyOpt _); rewrite Hi; unfold pushTurn; rewrite ?Hm; reflexivity.
Qed.

(** The shared statements of the Express route and the serverless
    handlers, written out. *)
Lemma turn_eq runAgent now id raw outcome (sessions : gmap string Session) :
  let before := history sessions id in
  let t := runAgent outcome (Js.slice0 500 raw) before in
  let answer := resp_content (Agent.response t) in
  let failed := Js.truthyOpt (resp_error (Agent.response t)) in
  Plain.turn runAgent now id raw outcome sessions =
  {| reply :=
       if failed
       then {| status := 500;
               payload := ErrorBody (default EmptyString
                                       (resp_error (Agent.response t))) |}
       else {| status := 200; payload := ChatBody answer id |};
     store :=
       <[id := {| messages :=
                    if failed then before
                    else before ++
                         [{| role := user; content := raw |};
                          {| role := assistant; content := answer |}];
                  lastActive := now |}]> sessions;
     sent := Agent.requests t |}.
Proof.
  intros before t answer failed. subst before t answer failed. unfold Plain.turn.
  destruct (getOrCreate_spec sessions id now) as [Hm _].
  pose proof (getOrCreate_insert sessions id now) as Hi.
  destruct (getOrCreate sessions id now) as [session sessions1].
  cbn [fst snd] in Hm, Hi. rewrite Hm.
  destruct (Js.truthyOpt _); rewrite Hi; unfold pushTurn; rewrite ?Hm; reflexivity.
Qed.

(** X5.  A chat request touches no session but its own: in the Bun route,
    the Express route and the serverless handler, every session stored
    under another id is afterwards exactly as it was. *)
Theorem other_sessions_untouched (id' : string) :
  (forall systemPrompt kb ip now request outcome (st : BunServer.State),
      (forall body, request = Json body -> sessionId body <> Some id') ->
      BunServer.sessions
        (store (BunServer.chat systemPrompt kb ip now request outcome st)) !! id' =
      BunServer.sessions st !! id') /\
  (forall runAgent apiKey now body outcome (sessions : gmap string Session),
      sessionId body <> Some id' ->
      store (Plain.expressChat runAgent apiKey now body outcome sessions) !! id' =
      sessions !! id') /\
  (forall runAgent apiKey method now request outcome (sessions : gmap string Session),
      (forall body, request = Json body -> sessionId body <> Some id') ->
      store (Plain.handler runAgent apiKey method now request outcome sessions) !! id' =
      sessions !! id').
Proof.
  assert (Hturn : forall runAgent now id raw outcome (sessions : gmap string Session),
             id <> id' ->
             store (Plain.turn runAgent now id raw outcome sessions) !! id' =
             sessions !! id').
  { intros runAgent now id raw outcome sessions Hne. rewrite turn_eq.
    cbn [store]. apply lookup_insert_ne, Hne. }
  split; [|split].
  - intros systemPrompt kb ip now request outcome st Hother. unfold BunServer.chat.
    destruct (BunServer.checkRateLimit ip now (BunServer.rateLimit st))
      as [[] rateLimit']; cbn [negb]; [|reflexivity].
    destruct request as [[[id|] [raw|]]|t]; cbn [sessionId message]; try reflexivity.
    assert (Hne : id <> id').
    { intros ->. exact (Hother _ eq_refl eq_refl). }
    destruct (negb (Js.truthy id) || negb (Js.truthy raw)); [reflexivity|].
    pose proof (getOrCreate_lookup_ne (BunServer.sessions st) id id' now Hne) as Hg.
    destruct (getOrCreate (BunServer.sessions st) id now) as [session sessions1].
    cbn [snd] in Hg.
    destruct (_ <=? _)%nat; [exact Hg|].
    destruct (Js.truthyOpt _); cbn [store BunServer.sessions];
      rewrite lookup_insert_ne by exact Hne; exact Hg.
  - intros runAgent apiKey now [[id|] [raw|]] outcome sessions Hother;
      unfold Plain.expressChat; cbn [sessionId message]; try reflexivity.
    destruct (negb (Js.truthy id) || negb (Js.truthy raw)); [reflexivity|].
    destruct (negb (Js.truthy apiKey)); [reflexivity|].
    apply Hturn. intros ->. apply Hother. reflexivity.
  - intros runAgent apiKey method now request outcome sessions Hother.
    unfold Plain.handler. destruct method; try reflexivity.
    destruct (negb (Js.truthy apiKey)); [reflexivity|].
    destruct request as [[[id|] [raw|]]|t]; cbn [sessionId message]; try reflexivity.
    destruct (negb (Js.truthy id) || negb (Js.truthy raw)); [reflexivity|].
    apply Hturn. intros ->. exact (Hother _ eq_refl eq_refl).
Qed.

Lemma other_sessions_witness :
  store (Plain.express "key" 0
           {| sessionId := Some "s2"; message := Some "hello" |}
           (Replied (Some "hi")) (Samples.expressAfter 1)) !! "s1" =
  Samples.expressAfter 1 !! "s1".
Proof.
  refine (proj1 (proj2 (other_sessions_untouched "s1"))
            Inline.expressRunAgent "key" 0 _ (Replied (Some "hi"))
            (Samples.expressAfter 1) _).
  discriminate.
Defined.

Lemma pair_ind {A} (P : list A -> Prop) :
  P [] -> (forall x, P [x]) -> (forall x y l, P l -> P (x :: y :: l)) ->
  forall l, P l.
Proof.
  intros Hnil Hone Hstep.
  assert (H : forall l, P l /\ forall x, P (x :: l)).
  { induction l as [|a l [IH1 IH2]]; [split; [exact Hnil | exact Hone]|].
    split; [apply IH2|]. intros x. apply Hstep, IH1. }
  intros l. apply H.
Qed.

Lemma alternates_push (l : list Message) text answer :
  ServerUtil.alternates l = true ->
  ServerUtil.alternates
    (l ++ [{| role := user; content := text |};
           {| role := assistant; content := answer |}]) = true.
Proof.
  induction l as [| x | x y l IH] using pair_ind; [reflexivity | discriminate |].
  cbn [ServerUtil.alternates app].
  intros [Hxy Hl]%andb_true_iff. rewrite Hxy, (IH Hl). reflexivity.
Qed.

Lemma alternates_length (l : list Message) :
  ServerUtil.alternates l = true -> length l = (2 * userTurns l)%nat.
Proof.
  induction l as [| x | x y l IH] using pair_ind; [reflexivity | discriminate |].
  cbn [ServerUtil.alternates].
  intros [[Hx Hy]%andb_true_iff Hl]%andb_true_iff.
  unfold userTurns in *. cbn [List.filter length]. rewrite Hx.
  assert (Hny : isUser y = false).
  { unfold isUser, ServerUtil.isAssistant in *. destruct (role y); congruence. }
  rewrite Hny. cbn [length]. rewrite (IH Hl). lia.
Qed.

(** X6.  With requests handled one after the other, every conversation the
    Bun server stores is a sequence of user messages each followed by an
    assistant message, so it never holds a system message and its length
    is twice its number of user turns, at most twice the session limit. *)
Theorem bun_conversations_alternate systemPrompt kb events id :
  let h := history (BunServer.sessions (BunServer.run systemPrompt kb events)) id in
  ServerUtil.alternates h = true /\
  length h = (2 * userTurns h)%nat /\
  (length h <= 2 * CONFIG.MAX_MESSAGES_PER_SESSION)%nat.
Proof.
  intros h.
  assert (Halt : ServerUtil.alternates h = true).
  { subst h. unfold BunServer.run.
    assert (Hgen : forall st,
               (forall i, ServerUtil.alternates
                            (history (BunServer.sessions st) i) = true) ->
               forall i,
                 ServerUtil.alternates
                   (history (BunServer.sessions
                               (fold_left (BunServer.step systemPrompt kb) events st)) i)
                 = true).
    { induction events as [|ev events IH]; intros st Hst; [exact Hst|].
      cbn [fold_left]. apply IH. intros i.
      destruct ev as [ip now request outcome|now]; cbn [BunServer.step].
      - destruct (bun_chat_history systemPrompt kb ip now request outcome st i)
          as [->|[_ (text & answer & ->)]]; [apply Hst|].
        apply alternates_push, Hst.
      - destruct (cleanup_history now st i) as [->| ->]; [apply Hst | reflexivity]. }
    apply Hgen. intros i. unfold history, BunServer.initial; cbn [BunServer.sessions].
    rewrite lookup_empty. reflexivity. }
  split; [exact Halt|]. pose proof (alternates_length h Halt) as Hlen.
  split; [exact Hlen|].
  pose proof (bun_user_turns_bounded systemPrompt kb events id) as Hb.
  fold h in Hb. lia.
Qed.

Lemma bun_full_session_store systemPrompt kb ip now body outcome
    (st : BunServer.State) id session :
  BunServer.sessions st !! id = Some session ->
  sessionId body = Some id ->
  (CONFIG.MAX_MESSAGES_PER_SESSION <= userTurns (messages session))%nat ->
  BunServer.sessions
    (store (BunServer.chat systemPrompt kb ip now (Json body) outcome st)) =
  BunServer.sessions st.
Proof.
  intros Hs Hid Hfull. destruct body as [sid raw]. cbn in Hid. subst sid.
  unfold BunServer.chat.
  destruct (BunServer.checkRateLimit ip now (BunServer.rateLimit st))
    as [[] rateLimit']; cbn [negb sessionId message]; [|reflexivity].
  destruct raw as [raw|]; [|reflexivity].
  destruct (negb (Js.truthy id) || negb (Js.truthy raw)); [reflexivity|].
  rewrite (getOrCreate_existing _ _ _ _ Hs).
  destruct (Nat.leb_spec CONFIG.MAX_MESSAGES_PER_SESSION
              (userTurns (messages session))); [reflexivity | lia].
Qed.

(** X7.  A request turned away at the session limit does not count as
    activity: the session keeps its last-active time, so the cleanup
    removes it once the timeout has passed since its last accepted turn,
    however recently it was asked again. *)
Theorem full_session_is_not_kept_alive systemPrompt kb ip now body outcome
    (st : BunServer.State) id session later :
  BunServer.sessions st !! id = Some session ->
  sessionId body = Some id ->
  (CONFIG.MAX_MESSAGES_PER_SESSION <= userTurns (messages session))%nat ->
  CONFIG.SESSION_TIMEOUT_MS < later - lastActive session ->
  let r := BunServer.chat systemPrompt kb ip now (Json body) outcome st in
  BunServer.sessions (store r) !! id = Some session /\
  BunServer.sessions (BunServer.cleanup later (store r)) !! id = None.
Proof.
  intros Hs Hid Hfull Hidle r.
  pose proof (bun_full_session_store systemPrompt kb ip now body outcome st id
                session Hs Hid Hfull) as Hsame.
  fold r in Hsame.
  split; [rewrite Hsame; exact Hs|].
  destruct (BunServer.sessions (BunServer.cleanup later (store r)) !! id)
    as [s|] eqn:Hc; [|reflexivity].
  apply cleanup_sessions_lookup in Hc as [Hl Hk].
  rewrite Hsame, Hs in Hl. injection Hl as <-. lia.
Qed.

Lemma full_session_witness :
  let session := {| messages := replicate 50 {| role := user; content := "q" |};
                    lastActive := 0 |} in
  let st := {| BunServer.sessions := {[ "s1" := session ]};
               BunServer.rateLimit := ∅ |} in
  let r := BunServer.chat "persona" Inline.standaloneKB "10.0.0.7" 1800000
             (Json Samples.hello) NoMessage st in
  BunServer.sessions (store r) !! "s1" = Some session /\
  BunServer.sessions (BunServer.cleanup 1800001 (store r)) !! "s1" = None.
Proof.
  refine (full_session_is_not_kept_alive "persona" Inline.standaloneKB "10.0.0.7"
            1800000 Samples.hello NoMessage _ "s1" _ 1800001 _ _ _ _).
  - vm_compute; reflexivity.
  - reflexivity.
  - vm_compute. lia.
  - vm_compute; reflexivity.
Defined.

(** X8.  A request whose body parses to a value other than [null] and
    lacks [sessionId] or [message] (missing or empty) creates no session
    and sends nothing.  The Bun route answers 400 (429 if the limiter
    refuses first); the Express route answers 400 even without an API key,
    because it validates first; the serverless handler checks the key
    first and answers 500 without one, 400 with one.  A body that cannot
    be read, malformed or [null], is answered 500 by the Bun route (429 if
    the limiter refuses first) and by the serverless handler, with the
    message of the thrown error, and likewise creates no session and sends
    nothing. *)
Theorem incomplete_request_rejected :
  (forall body : ChatRequest,
      Js.truthyOpt (sessionId body) && Js.truthyOpt (message body) = false ->
      (forall systemPrompt kb ip now outcome (st : BunServer.State),
          let r := BunServer.chat systemPrompt kb ip now (Json body) outcome st in
          (status (reply r) = 400 \/ status (reply r) = 429) /\ sent r = [] /\
          BunServer.sessions (store r) = BunServer.sessions st) /\
      (forall runAgent apiKey now outcome (sessions : gmap string Session),
          let e := Plain.expressChat runAgent apiKey now body outcome sessions in
          let h := Plain.handler runAgent apiKey Plain.POST now (Json body) outcome
                     sessions in
          (status (reply e) = 400 /\ sent e = [] /\ store e = sessions) /\
          (status (reply h) = (if Js.truthy apiKey then 400 else 500) /\
           sent h = [] /\ store h = sessions))) /\
  (forall (t : Thrown),
      (forall systemPrompt kb ip now outcome (st : BunServer.State),
          let r := BunServer.chat systemPrompt kb ip now (Unreadable t) outcome st in
          (reply r = {| status := 500; payload := ErrorBody (internalError t) |} \/
           status (reply r) = 429) /\ sent r = [] /\
          BunServer.sessions (store r) = BunServer.sessions st) /\
      (forall runAgent apiKey now outcome (sessions : gmap string Session),
          let h := Plain.handler runAgent apiKey Plain.POST now (Unreadable t)
                     outcome sessions in
          status (reply h) = 500 /\
          (Js.truthy apiKey = true -> payload (reply h) = ErrorBody (internalError t)) /\
          sent h = [] /\ store h = sessions)).
Proof.
  split.
  - intros body Hmiss. split.
    + intros systemPrompt kb ip now outcome st r. subst r. unfold BunServer.chat.
      destruct (BunServer.checkRateLimit ip now (BunServer.rateLimit st))
        as [[] rateLimit']; cbn [negb]; [|split; [right|split]; reflexivity].
      destruct body as [[id|] [raw|]]; cbn [sessionId message Js.truthyOpt] in *;
        try (split; [left|split]; reflexivity).
      rewrite <- negb_andb, Hmiss. split; [left|split]; reflexivity.
    + intros runAgent apiKey now outcome sessions e h. subst e h.
      unfold Plain.expressChat, Plain.handler.
      destruct body as [[id|] [raw|]]; cbn [sessionId message Js.truthyOpt] in *;
        try rewrite <- negb_andb, Hmiss;
        destruct (Js.truthy apiKey); repeat split.
  - intros t. split.
    + intros systemPrompt kb ip now outcome st r. subst r. unfold BunServer.chat.
      destruct (BunServer.checkRateLimit ip now (BunServer.rateLimit st))
        as [[] rateLimit']; cbn [negb];
        (split; [(left; reflexivity) || (right; reflexivity) | split; reflexivity]).
    + intros runAgent apiKey now outcome sessions h. subst h. unfold Plain.handler.
      destruct (Js.truthy apiKey); cbn [negb]; repeat split; discriminate.
Qed.

Lemma incomplete_request_witness :
  let body := {| sessionId := Some "s1"; message := Some EmptyString |} in
  let e := Plain.expressChat Inline.expressRunAgent EmptyString 0 body NoMessage ∅ in
  status (reply e) = 400 /\ sent e = [] /\ store e = ∅.
Proof.
  refine (proj1 (proj2 (proj1 incomplete_request_rejected _ _)
                   Inline.expressRunAgent EmptyString 0 NoMessage ∅)).
  reflexivity.
Defined.

(** X9.  Without an API key the Express route and the serverless handler
    never reach the agent: whatever the request, nothing is sent, the
    session store stays as it was, and the answer is 400 or 500 from the
    Express route and 200 (OPTIONS), 405 (other methods) or 500 (POST)
    from the serverless handler. *)
Theorem no_api_key_no_turn runAgent (apiKey : string) :
  Js.truthy apiKey = false ->
  (forall now body outcome (sessions : gmap string Session),
      let e := Plain.expressChat runAgent apiKey now body outcome sessions in
      (status (reply e) = 400 \/ status (reply e) = 500) /\
      sent e = [] /\ store e = sessions) /\
  (forall method now request outcome (sessions : gmap string Session),
      let h := Plain.handler runAgent apiKey method now request outcome sessions in
      status (reply h) =
        match method with
        | Plain.OPTIONS => 200
        | Plain.POST => 500
        | Plain.OtherMethod => 405
        end /\
      sent h = [] /\ store h = sessions).
Proof.
  intros Hkey. split.
  - intros now [[id|] [raw|]] outcome sessions e; subst e;
      unfold Plain.expressChat; cbn [sessionId message];
      try (split; [left|split]; reflexivity).
    rewrite Hkey.
    destruct (negb (Js.truthy id) || negb (Js.truthy raw));
      (split; [(left; reflexivity) || (right; reflexivity) | split; reflexivity]).
  - intros method now request outcome sessions h. subst h. unfold Plain.handler.
    rewrite Hkey. destruct method; repeat split.
Qed.

Lemma no_api_key_witness :
  let h := Plain.standalone EmptyString Plain.POST 0 (Json Samples.hello)
             (Replied (Some "hi")) ∅ in
  status (reply h) = 500 /\ sent h = [] /\ store h = ∅.
Proof.
  refine (proj2 (no_api_key_no_turn Inline.standaloneRunAgent EmptyString _)
            Plain.POST 0 (Json Samples.hello) (Replied (Some "hi")) ∅).
  reflexivity.
Defined.

(** X10.  What a turn of the Bun route that reaches the agent comes to, by
    the outcome of the call.  A reply is passed on as it is (an absent or
    empty content as the empty answer), with status 200, and stored after
    the truncated user message.  A failure is answered 500 with the error
    text: the provider's status and body for an HTTP failure, a fixed text
    for a missing message or a thrown non-error, the message of a thrown
    error.  Failed or not, the session is in the store afterwards with the
    time of the request as its last activity. *)
Theorem bun_turn_by_outcome systemPrompt kb ip now id raw outcome
    (st : BunServer.State) :
  fst (BunServer.checkRateLimit ip now (BunServer.rateLimit st)) = true ->
  Js.truthy id = true -> Js.truthy raw = true ->
  (userTurns (history (BunServer.sessions st) id) < CONFIG.MAX_MESSAGES_PER_SESSION)%nat ->
  let text := Js.slice0 CONFIG.MAX_MESSAGE_LENGTH raw in
  let before := history (BunServer.sessions st) id in
  let turn answer :=
    before ++ [{| role := user; content := text |};
               {| role := assistant; content := answer |}] in
  let r := BunServer.chat systemPrompt kb ip now
             (Json {| sessionId := Some id; message := Some raw |}) outcome st in
  let expected : HttpResponse * list Message :=
    match outcome with
    | Replied c =>
        ({| status := 200; payload := ChatBody (default EmptyString c) id |},
         turn (default EmptyString c))
    | NotOk code errorText =>
        ({| status := 500;
            payload := ErrorBody ("DeepSeek API error: " +:+ Js.decimal code +:+
                                  " - " +:+ errorText) |}, before)
    | NoMessage =>
        ({| status := 500; payload := ErrorBody "No response from DeepSeek API" |},
         before)
    | Rejected OtherValue =>
        ({| status := 500; payload := ErrorBody "Unknown error occurred" |}, before)
    | Rejected (ErrorWith message) =>
        if Js.truthy message
        then ({| status := 500; payload := ErrorBody message |}, before)
        else ({| status := 200; payload := ChatBody EmptyString id |},
              turn EmptyString)
    end in
  reply r = fst expected /\
  BunServer.sessions (store r) !! id =
    Some {| messages := snd expected; lastActive := now |}.
Proof.
  intros Hrate Hid Hraw Hlt text before turn r expected. subst r.
  rewrite (bun_turn_eq systemPrompt kb ip now id raw outcome st Hrate Hid Hraw Hlt).
  cbn [reply store BunServer.sessions]. rewrite lookup_insert_eq.
  subst expected turn before text.
  destruct outcome as [[message|]| | |]; try (split; reflexivity).
  cbn. destruct message; split; reflexivity.
Qed.

Lemma bun_turn_by_outcome_witness :
  let r := BunServer.chat "persona" Inline.standaloneKB "10.0.0.7" 5
             (Json Samples.hello) (NotOk 503 "busy") BunServer.initial in
  reply r =
    {| status := 500;
       payload := ErrorBody ("DeepSeek API error: " +:+ Js.decimal 503 +:+
                             " - " +:+ "busy") |} /\
  BunServer.sessions (store r) !! "s1" = Some {| messages := []; lastActive := 5 |}.
Proof.
  refine (bun_turn_by_outcome "persona" Inline.standaloneKB "10.0.0.7" 5 "s1"
            "hello" (NotOk 503 "busy") BunServer.initial _ _ _ _).
  - vm_compute; reflexivity.
  - reflexivity.
  - reflexivity.
  - vm_compute. lia.
Defined.

(** ** [escapeHtml] and [getClientIP] *)

Lemma append_nil_l s : EmptyString +:+ s = s.
Proof. reflexivity. Qed.

Lemma replaceAll_append c by_ s t :
  ServerUtil.replaceAll c by_ (s +:+ t) =
  ServerUtil.replaceAll c by_ s +:+ ServerUtil.replaceAll c by_ t.
Proof.
  induction s as [|a r IH]; [reflexivity|].
  rewrite append_cons. cbn [ServerUtil.replaceAll]. rewrite IH.
  destruct (Ascii.eqb a c); [rewrite append_assoc | rewrite append_cons]; reflexivity.
Qed.

Lemma escapeHtml_cons a r :
  ServerUtil.escapeHtml (String a r) =
  ServerUtil.entity a +:+ ServerUtil.escapeHtml r.
Proof.
  unfold ServerUtil.escapeHtml, ServerUtil.entity.
  cbn [ServerUtil.replaceAll].
  destruct (Ascii.eqb_spec a ServerUtil.amp) as [->|Hamp].
  { rewrite !replaceAll_append. reflexivity. }
  cbn [ServerUtil.replaceAll].
  destruct (Ascii.eqb_spec a ServerUtil.lt) as [->|Hlt].
  { rewrite !replaceAll_append. reflexivity. }
  cbn [ServerUtil.replaceAll].
  destruct (Ascii.eqb_spec a ServerUtil.gt) as [->|Hgt].
  { rewrite !replaceAll_append. reflexivity. }
  cbn [ServerUtil.replaceAll].
  destruct (Ascii.eqb_spec a ServerUtil.dquote) as [->|Hdq].
  { rewrite !replaceAll_append. reflexivity. }
  cbn [ServerUtil.replaceAll].
  destruct (Ascii.eqb_spec a ServerUtil.squote) as [->|Hsq]; reflexivity.
Qed.

Lemma escapeHtml_entities text :
  ServerUtil.escapeHtml text = ServerUtil.entities text.
Proof.
  induction text as [|a r IH]; [reflexivity|].
  rewrite escapeHtml_cons, IH. reflexivity.
Qed.

Lemma entities_append s t :
  ServerUtil.entities (s +:+ t) = ServerUtil.entities s +:+ ServerUtil.entities t.
Proof.
  induction s as [|a r IH]; [reflexivity|].
  rewrite append_cons. cbn [ServerUtil.entities]. rewrite IH, append_assoc.
  reflexivity.
Qed.

Lemma chars_append s t :
  String.list_ascii_of_string (s +:+ t) = String.list_ascii_of_string s ++ String.list_ascii_of_string t.
Proof.
  induction s as [|a r IH]; [reflexivity|].
  rewrite append_cons. cbn [String.list_ascii_of_string]. rewrite IH. reflexivity.
Qed.

Lemma entity_chars a c :
  In c (String.list_ascii_of_string (ServerUtil.entity a)) ->
  c <> ServerUtil.lt /\ c <> ServerUtil.gt /\
  c <> ServerUtil.dquote /\ c <> ServerUtil.squote.
Proof.
  unfold ServerUtil.entity, ServerUtil.amp, ServerUtil.lt, ServerUtil.gt,
    ServerUtil.dquote, ServerUtil.squote.
  destruct (Ascii.eqb_spec a "&"); [|destruct (Ascii.eqb_spec a "<");
    [|destruct (Ascii.eqb_spec a ">"); [|destruct (Ascii.eqb_spec a "034");
      [|destruct (Ascii.eqb_spec a "'")]]]];
    cbn [String.list_ascii_of_string In]; intros Hin;
    repeat (destruct Hin as [<-|Hin]; [repeat split; congruence|]);
    contradiction.
Qed.

Lemma entity_head a b s t :
  ServerUtil.entity a +:+ s = ServerUtil.entity b +:+ t -> a = b /\ s = t.
Proof.
  unfold ServerUtil.entity, ServerUtil.amp, ServerUtil.lt, ServerUtil.gt,
    ServerUtil.dquote, ServerUtil.squote.
  destruct (Ascii.eqb_spec a "&"); [|destruct (Ascii.eqb_spec a "<");
    [|destruct (Ascii.eqb_spec a ">"); [|destruct (Ascii.eqb_spec a "034");
      [|destruct (Ascii.eqb_spec a "'")]]]];
  (destruct (Ascii.eqb_spec b "&"); [|destruct (Ascii.eqb_spec b "<");
    [|destruct (Ascii.eqb_spec b ">"); [|destruct (Ascii.eqb_spec b "034");
      [|destruct (Ascii.eqb_spec b "'")]]]]);
  rewrite ?append_cons, ?append_nil_l; intros Heq; simplify_eq; split; reflexivity.
Qed.

(** X11.  [escapeHtml] turns each ampersand, angle bracket and quote of
    the text into its entity and leaves every other character, as one pass
    would: an ampersand it has itself written is not escaped again.  It
    commutes with concatenation, its output holds no angle bracket and no
    quote, and two different texts never escape to the same string. *)
Theorem escapeHtml_is_one_pass :
  (forall text, ServerUtil.escapeHtml text = ServerUtil.entities text) /\
  (forall s t,
      ServerUtil.escapeHtml (s +:+ t) =
      ServerUtil.escapeHtml s +:+ ServerUtil.escapeHtml t) /\
  (forall text c,
      In c (String.list_ascii_of_string (ServerUtil.escapeHtml text)) ->
      c <> ServerUtil.lt /\ c <> ServerUtil.gt /\
      c <> ServerUtil.dquote /\ c <> ServerUtil.squote) /\
  (forall s t, ServerUtil.escapeHtml s = ServerUtil.escapeHtml t -> s = t).
Proof.
  split; [exact escapeHtml_entities|]. split; [|split].
  - intros s t. rewrite !escapeHtml_entities. apply entities_append.
  - intros text c. rewrite escapeHtml_entities.
    induction text as [|a r IH]; [intros []|].
    cbn [ServerUtil.entities]. rewrite chars_append.
    intros [Hin|Hin]%in_app_or; [exact (entity_chars a c Hin) | exact (IH Hin)].
  - intros s t. rewrite !escapeHtml_entities. revert t.
    induction s as [|a r IH]; intros [|b u]; cbn [ServerUtil.entities].
    + reflexivity.
    + intros Heq. apply (f_equal String.length) in Heq.
      rewrite length_append in Heq. unfold ServerUtil.entity in Heq.
      repeat destruct (Ascii.eqb _ _) in Heq; cbn in Heq; lia.
    + intros Heq. apply (f_equal String.length) in Heq.
      rewrite length_append in Heq. unfold ServerUtil.entity in Heq.
      repeat destruct (Ascii.eqb _ _) in Heq; cbn in Heq; lia.
    + intros [-> Hr]%entity_head. rewrite (IH u Hr). reflexivity.
Qed.

Example escapeHtml_sample :
  ServerUtil.escapeHtml "a<b & 'c'" = "a&lt;b &amp; &#039;c&#039;".
Proof. reflexivity. Qed.

Lemma firstField_no_comma value :
  ~ In ","%char (String.list_ascii_of_string (ServerUtil.firstField value)).
Proof.
  induction value as [|c r IH]; cbn; [tauto|].
  destruct (Ascii.eqb_spec c ","); cbn; [tauto|]. intros [Hc|Hin]; [congruence | tauto].
Qed.

Lemma trimStart_chars s c :
  In c (String.list_ascii_of_string (Js.trimStart s)) -> In c (String.list_ascii_of_string s).
Proof.
  induction s as [|a r IH]; cbn; [tauto|].
  destruct (Js.isSpace a); [right; apply IH; assumption | tauto].
Qed.

Lemma trimEnd_chars s c :
  In c (String.list_ascii_of_string (Js.trimEnd s)) -> In c (String.list_ascii_of_string s).
Proof.
  induction s as [|a r IH]; cbn; [tauto|].
  destruct (Js.trimEnd r) as [|b r'].
  - destruct (Js.isSpace a); cbn; tauto.
  - cbn. cbn in IH. tauto.
Qed.

(** X12.  [getClientIP] never returns the empty string.  It returns the
    first comma-separated field of [x-forwarded-for], trimmed and so
    without a comma, when that is not blank; otherwise [x-real-ip] when
    that is not empty; otherwise the word "unknown". *)
Theorem getClientIP_never_empty (headers : ServerUtil.Headers) :
  let ip := ServerUtil.getClientIP headers in
  let first :=
    (fun v => Js.trim (ServerUtil.firstField v)) <$> ServerUtil.forwardedFor headers in
  Js.truthy ip = true /\
  (Js.truthyOpt first = true ->
   Some ip = first /\ ~ In ","%char (String.list_ascii_of_string ip)) /\
  (Js.truthyOpt first = false ->
   ip = Tools.orElse (ServerUtil.realIp headers) "unknown").
Proof.
  intros ip first. subst ip. unfold ServerUtil.getClientIP. fold first.
  destruct (Js.truthyOpt first) eqn:Hf.
  - destruct first as [f|] eqn:Hfirst; [|discriminate]. cbn [default].
    split; [exact Hf|]. split; [|discriminate]. intros _. split; [reflexivity|].
    subst first. destruct (ServerUtil.forwardedFor headers) as [v|]; [|discriminate].
    cbn in Hfirst. injection Hfirst as <-. unfold Js.trim.
    intros Hin%trimEnd_chars%trimStart_chars. exact (firstField_no_comma v Hin).
  - unfold Tools.orElse, Js.truthyOpt.
    destruct (ServerUtil.realIp headers) as [v|]; [|repeat split; discriminate].
    destruct (Js.truthy v) eqn:Hv; cbn [default];
      (split; [assumption || reflexivity | split; [discriminate | reflexivity]]).
Qed.

Example getClientIP_samples :
  ServerUtil.getClientIP
    {| ServerUtil.forwardedFor := Some " 203.0.113.9 , 10.0.0.1";
       ServerUtil.realIp := Some "10.0.0.2" |} = "203.0.113.9" /\
  ServerUtil.getClientIP
    {| ServerUtil.forwardedFor := Some " ,10.0.0.1";
       ServerUtil.realIp := Some "10.0.0.2" |} = "10.0.0.2" /\
  ServerUtil.getClientIP
    {| ServerUtil.forwardedFor := None; ServerUtil.realIp := None |} = "unknown".
Proof. repeat split; reflexivity. Qed.

(** ** More on the searches *)

Lemma lowerChar_idem c : Js.lowerChar (Js.lowerChar c) = Js.lowerChar c.
Proof. destruct c as [[] [] [] [] [] [] [] []]; reflexivity. Qed.

Lemma toLowerCase_idem s : Js.toLowerCase (Js.toLowerCase s) = Js.toLowerCase s.
Proof.
  induction s as [|c r IH]; [reflexivity|]. cbn [Js.toLowerCase].
  rewrite lowerChar_idem, IH. reflexivity.
Qed.

Lemma trimStart_toLowerCase s :
  Js.trimStart (Js.toLowerCase s) = Js.toLowerCase (Js.trimStart s).
Proof.
  induction s as [|c r IH]; [reflexivity|]. cbn [Js.toLowerCase Js.trimStart].
  rewrite isSpace_lowerChar. destruct (Js.isSpace c); [exact IH | reflexivity].
Qed.

Lemma trimEnd_toLowerCase s :
  Js.trimEnd (Js.toLowerCase s) = Js.toLowerCase (Js.trimEnd s).
Proof.
  induction s as [|c r IH]; [reflexivity|]. cbn [Js.toLowerCase Js.trimEnd].
  rewrite IH, isSpace_lowerChar.
  destruct (Js.trimEnd r); cbn [Js.toLowerCase]; [|reflexivity].
  destruct (Js.isSpace c); reflexivity.
Qed.

Lemma truthy_toLowerCase s : Js.truthy (Js.toLowerCase s) = Js.truthy s.
Proof. destruct s; reflexivity. Qed.

Lemma blank_toLowerCase s :
  Js.truthy (Js.trim (Js.toLowerCase s)) = Js.truthy (Js.trim s).
Proof.
  unfold Js.trim. rewrite trimStart_toLowerCase, trimEnd_toLowerCase.
  apply truthy_toLowerCase.
Qed.

Lemma searchByKeyword_lower {T} `{Knowledge.Searchable T} (items : list T) query :
  Knowledge.searchByKeyword items (Js.toLowerCase query) =
  Knowledge.searchByKeyword items query.
Proof. unfold Knowledge.searchByKeyword. rewrite toLowerCase_idem. reflexivity. Qed.

Lemma searchProducts_lower products query :
  Knowledge.searchProducts products (Js.toLowerCase query) =
  Knowledge.searchProducts products query.
Proof.
  unfold Knowledge.searchProducts.
  rewrite blank_toLowerCase, searchByKeyword_lower. reflexivity.
Qed.

Lemma searchFAQs_lower faqs query :
  Knowledge.searchFAQs faqs (Js.toLowerCase query) = Knowledge.searchFAQs faqs query.
Proof.
  unfold Knowledge.searchFAQs.
  rewrite blank_toLowerCase, searchByKeyword_lower. reflexivity.
Qed.

Lemma lookupPolicy_lower policies topic :
  Knowledge.lookupPolicy policies (Js.toLowerCase topic) =
  Knowledge.lookupPolicy policies topic.
Proof.
  unfold Knowledge.lookupPolicy.
  rewrite blank_toLowerCase, searchByKeyword_lower, toLowerCase_idem. reflexivity.
Qed.

Lemma keywordBranches_lower kb query :
  Agent.keywordBranches kb (Js.toLowerCase query) = Agent.keywordBranches kb query.
Proof.
  unfold Agent.keywordBranches, Agent.productBranch, Agent.policyBranch,
    Agent.faqBranch.
  rewrite toLowerCase_idem, searchProducts_lower, searchFAQs_lower,
    lookupPolicy_lower. reflexivity.
Qed.

(** X13.  The searches and the router do not see the case of the query:
    two queries that differ in case only get the same products, the same
    FAQs, the same policy and the same knowledge context, in the router of
    [src/agent.ts] and in its copies. *)
Theorem query_case_is_ignored (kb : Knowledge.KnowledgeBase) (q q' : string) :
  Js.toLowerCase q = Js.toLowerCase q' ->
  Knowledge.searchProducts (Knowledge.products kb) q =
    Knowledge.searchProducts (Knowledge.products kb) q' /\
  Knowledge.searchFAQs (Knowledge.faqs kb) q =
    Knowledge.searchFAQs (Knowledge.faqs kb) q' /\
  Knowledge.lookupPolicy (Knowledge.policies kb) q =
    Knowledge.lookupPolicy (Knowledge.policies kb) q' /\
  Agent.autoSearchKnowledge kb q = Agent.autoSearchKnowledge kb q' /\
  Inline.autoSearchKnowledge kb q = Inline.autoSearchKnowledge kb q'.
Proof.
  intros Heq.
  assert (Hp : Knowledge.searchProducts (Knowledge.products kb) q =
               Knowledge.searchProducts (Knowledge.products kb) q')
    by (rewrite <- (searchProducts_lower _ q), Heq; apply searchProducts_lower).
  assert (Hf : Knowledge.searchFAQs (Knowledge.faqs kb) q =
               Knowledge.searchFAQs (Knowledge.faqs kb) q')
    by (rewrite <- (searchFAQs_lower _ q), Heq; apply searchFAQs_lower).
  assert (Hl : Knowledge.lookupPolicy (Knowledge.policies kb) q =
               Knowledge.lookupPolicy (Knowledge.policies kb) q')
    by (rewrite <- (lookupPolicy_lower _ q), Heq; apply lookupPolicy_lower).
  assert (Hb : Agent.keywordBranches kb q = Agent.keywordBranches kb q')
    by (rewrite <- (keywordBranches_lower _ q), Heq; apply keywordBranches_lower).
  repeat split; try assumption.
  - unfold Agent.autoSearchKnowledge, Agent.fallbackContext.
    rewrite Hb, Hp, Hf, Hl. reflexivity.
  - unfold Inline.autoSearchKnowledge. rewrite Hb. reflexivity.
Qed.

Lemma query_case_witness :
  Knowledge.searchProducts Inline.products "OAK Worktop" =
  Knowledge.searchProducts Inline.products "oak worktop".
Proof.
  refine (proj1 (query_case_is_ignored Inline.standaloneKB "OAK Worktop"
                   "oak worktop" _)).
  reflexivity.
Defined.

(** X14.  [searchFAQs] returns at most five entries: the first five of the
    matching FAQs in store order, never an entry that is not in the store. *)
Theorem searchFAQs_bounded_ordered (faqs : list Knowledge.FAQ) (query : string) :
  (length (Knowledge.searchFAQs faqs query) <= 5)%nat /\
  (exists rest,
      Knowledge.searchFAQs faqs query ++ rest =
      List.filter (Knowledge.itemMatches (Js.split (Js.toLowerCase query))) faqs) /\
  sublist (Knowledge.searchFAQs faqs query) faqs.
Proof.
  unfold Knowledge.searchFAQs, Knowledge.searchByKeyword.
  destruct (negb (Js.truthy (Js.trim query))).
  - split; [simpl; lia|]. split; [eexists; reflexivity | apply sublist_nil_l].
  - split; [rewrite length_take; lia|].
    split; [eexists; apply take_drop|].
    etransitivity; [apply sublist_take | apply filter_sublist_bool].
Qed.

Lemma includes_append_r s t w :
  Js.includes t w = true -> Js.includes (s +:+ t) w = true.
Proof.
  intros Ht. induction s as [|c r IH]; [exact Ht|].
  rewrite append_cons. cbn [Js.includes]. rewrite IH. apply orb_true_r.
Qed.

Lemma prefix_refl w : String.prefix w w = true.
Proof.
  induction w as [|c r IH]; [reflexivity|]. cbn.
  destruct (ascii_dec c c); [exact IH | congruence].
Qed.

Lemma includes_refl w : Js.includes w w = true.
Proof. destruct w; cbn [Js.includes]; rewrite prefix_refl; reflexivity. Qed.

Lemma join_includes (ks : list string) w :
  In w ks -> Js.includes (Js.join " " ks) w = true.
Proof.
  unfold Js.join. induction ks as [|k ks IH]; [intros []|].
  intros [->|Hin]; cbn [String.concat]; destruct ks as [|k' ks'].
  - apply includes_refl.
  - apply includes_append, includes_refl.
  - destruct Hin.
  - apply includes_append_r, includes_append_r, IH, Hin.
Qed.

Lemma prefix_toLowerCase w s :
  String.prefix w s = true ->
  String.prefix (Js.toLowerCase w) (Js.toLowerCase s) = true.
Proof.
  revert s; induction w as [|a w IH]; intros s;
    [intros _; destruct (Js.toLowerCase s); reflexivity|].
  destruct s as [|b s]; [discriminate|]. cbn.
  destruct (ascii_dec a b) as [->|]; [|discriminate].
  intros Hp. destruct (ascii_dec (Js.lowerChar b) (Js.lowerChar b)); [|congruence].
  apply IH, Hp.
Qed.

Lemma includes_toLowerCase s w :
  Js.includes s w = true ->
  Js.includes (Js.toLowerCase s) (Js.toLowerCase w) = true.
Proof.
  induction s as [|c r IH]; cbn [Js.includes Js.toLowerCase].
  - rewrite !orb_false_r. apply (prefix_toLowerCase w EmptyString).
  - intros [Hp|Hr]%orb_true_iff; apply orb_true_iff.
    + left. apply (prefix_toLowerCase w (String c r) Hp).
    + right. apply IH, Hr.
Qed.

Lemma splitWs_word w :
  Forall (fun c => Js.isSpace c = false) (String.list_ascii_of_string w) ->
  Js.splitWs false w = [w].
Proof.
  induction w as [|c r IH]; [reflexivity|]. cbn [String.list_ascii_of_string].
  intros [Hc Hr]%Forall_cons. cbn [Js.splitWs]. rewrite Hc, (IH Hr). reflexivity.
Qed.

Lemma trim_word w :
  Forall (fun c => Js.isSpace c = false) (String.list_ascii_of_string w) ->
  Js.trim w = w.
Proof.
  intros Hw. unfold Js.trim.
  assert (Hs : Js.trimStart w = w).
  { destruct w as [|c r]; [reflexivity|]. cbn in Hw. apply Forall_cons in Hw as [Hc _].
    cbn. rewrite Hc. reflexivity. }
  rewrite Hs. induction w as [|c r IH]; [reflexivity|].
  cbn in Hw. apply Forall_cons in Hw as [Hc Hr]. cbn [Js.trimEnd].
  rewrite IH; [|exact Hr|].
  - destruct r; [rewrite Hc|]; reflexivity.
  - destruct r as [|d r']; [reflexivity|]. cbn in Hr.
    apply Forall_cons in Hr as [Hd _]. cbn. rewrite Hd. reflexivity.
Qed.

Lemma faq_keyword_matches (f : Knowledge.FAQ) ks k w :
  Knowledge.faq_keywords f = Some ks -> In k ks ->
  Js.toLowerCase w = Js.toLowerCase k ->
  (2 <= String.length w)%nat ->
  Forall (fun c => Js.isSpace c = false) (String.list_ascii_of_string w) ->
  Knowledge.itemMatches (Js.split (Js.toLowerCase w)) f = true.
Proof.
  intros Hks Hin Hcase Hlen Hw. unfold Js.split.
  rewrite splitWs_toLowerCase, (splitWs_word w Hw).
  unfold Knowledge.itemMatches. cbn [map existsb]. rewrite orb_false_r.
  unfold Knowledge.wordMatches. rewrite length_toLowerCase.
  destruct (Nat.ltb_spec (String.length w) 2); [lia|].
  unfold Knowledge.searchableText. cbn [Knowledge.name Knowledge.question
    Knowledge.title Knowledge.description Knowledge.keywords
    Knowledge.FAQ_Searchable]. rewrite Hks. cbn [fmap option_fmap option_map].
  pose proof (join_includes ks k Hin) as Hj.
  assert (Hk : Js.truthy k = true).
  { destruct k; [|reflexivity]. destruct w; [cbn in Hlen; lia | discriminate]. }
  assert (Ht : Js.truthy (Js.join " " ks) = true).
  { destruct (Js.join " " ks); [|reflexivity]. cbn in Hj.
    rewrite orb_false_r in Hj. destruct k; discriminate. }
  rewrite Hcase. apply includes_toLowerCase.
  unfold Js.filterBoolean. cbn [omap list_omap]. rewrite Ht.
  destruct (Js.truthy (Knowledge.faq_question f)); unfold Js.join at 1;
    cbn [String.concat].
  - apply includes_append_r, includes_append_r, Hj.
  - exact Hj.
Qed.

(** X15.  The keyword tags of an FAQ widen what finds it: a query that is
    one of its tags up to case (two characters or more, no white space)
    returns the FAQ, whether or not its question contains the word, as long
    as fewer than five matching FAQs stand before it in the store. *)
Theorem faq_found_by_keyword (before after : list Knowledge.FAQ)
    (f : Knowledge.FAQ) (ks : list string) (k w : string) :
  Knowledge.faq_keywords f = Some ks -> In k ks ->
  Js.toLowerCase w = Js.toLowerCase k ->
  (2 <= String.length w)%nat ->
  Forall (fun c => Js.isSpace c = false) (String.list_ascii_of_string w) ->
  (length (Knowledge.searchByKeyword before w) < 5)%nat ->
  f ∈ Knowledge.searchFAQs (before ++ f :: after) w.
Proof.
  intros Hks Hin Hcase Hlen Hw Hfew. unfold Knowledge.searchFAQs.
  rewrite (trim_word w Hw).
  assert (Ht : Js.truthy w = true) by (destruct w; [cbn in Hlen; lia | reflexivity]).
  rewrite Ht. cbn [negb]. unfold Knowledge.searchByKeyword in *.
  rewrite filter_app_bool. cbn [List.filter].
  rewrite (faq_keyword_matches f ks k w Hks Hin Hcase Hlen Hw).
  apply list_elem_of_lookup.
  exists (length (List.filter
                    (Knowledge.itemMatches (Js.split (Js.toLowerCase w))) before)).
  rewrite lookup_take_lt by exact Hfew.
  rewrite lookup_app_r by lia. rewrite Nat.sub_diag. reflexivity.
Qed.

Lemma faq_found_by_keyword_witness :
  {| Knowledge.faq_id := "f3";
     Knowledge.faq_question := "Do you offer installation?";
     Knowledge.faq_answer := "Yes, we can recommend certified installers in your area. Contact us for a quote.";
     Knowledge.faq_keywords := Some ["install"; "fitting"; "service"] |}
  ∈ Knowledge.searchFAQs
      ([] ++ {| Knowledge.faq_id := "f3";
                Knowledge.faq_question := "Do you offer installation?";
                Knowledge.faq_answer := "Yes, we can recommend certified installers in your area. Contact us for a quote.";
                Knowledge.faq_keywords := Some ["install"; "fitting"; "service"] |}
          :: []) "Fitting".
Proof.
  refine (faq_found_by_keyword [] [] _ ["install"; "fitting"; "service"]
            "fitting" "Fitting" _ _ _ _ _ _).
  - reflexivity.
  - right. left. reflexivity.
  - reflexivity.
  - cbn. lia.
  - repeat constructor.
  - cbn. lia.
Defined.

Lemma find_app_first {A} (f : A -> bool) (before after : list A) (x : A) :
  (forall y, y ∈ before -> f y = false) -> f x = true ->
  List.find f (before ++ x :: after) = Some x.
Proof.
  intros Hb Hx. induction before as [|y before IH]; cbn.
  - rewrite Hx. reflexivity.
  - rewrite (Hb y) by left. apply IH. intros z Hz. apply Hb. right. exact Hz.
Qed.

(** X16.  A non-blank topic that is the topic tag of a stored policy, up
    to case, is never answered with nothing: [lookupPolicy] returns a
    stored policy that matches the topic directly, and it returns that
    very policy when no policy before it in the store matches directly.
    The topic is compared as it is, without trimming. *)
Theorem lookupPolicy_finds_topic_tag (before after : list Knowledge.Policy)
    (p : Knowledge.Policy) (topic : string) :
  Js.truthy (Js.trim topic) = true ->
  Js.toLowerCase (Knowledge.pol_topic p) = Js.toLowerCase topic ->
  (exists q,
      Knowledge.lookupPolicy (before ++ p :: after) topic = Some q /\
      q ∈ before ++ p :: after /\
      Knowledge.directMatch (Js.toLowerCase topic) q = true) /\
  ((forall q, q ∈ before ->
              Knowledge.directMatch (Js.toLowerCase topic) q = false) ->
   Knowledge.lookupPolicy (before ++ p :: after) topic = Some p).
Proof.
  intros Ht Htag.
  assert (Hp : Knowledge.directMatch (Js.toLowerCase topic) p = true).
  { unfold Knowledge.directMatch. rewrite Htag, String.eqb_refl. reflexivity. }
  unfold Knowledge.lookupPolicy. rewrite Ht. cbn [negb]. split.
  - pose proof (find_first (Knowledge.directMatch (Js.toLowerCase topic))
                  (before ++ p :: after)) as Hf.
    destruct (List.find _ (before ++ p :: after)) as [q|].
    + destruct Hf as (b & a & Heq & Hq & _).
      exists q. split; [reflexivity|]. split; [|exact Hq].
      rewrite Heq. apply elem_of_app. right. left.
    + assert (Hin : p ∈ before ++ p :: after) by (apply elem_of_app; right; left).
      rewrite (Hf p Hin) in Hp. discriminate.
  - intros Hnone. rewrite (find_app_first _ before after p Hnone Hp). reflexivity.
Qed.

Lemma lookupPolicy_tag_witness :
  Knowledge.lookupPolicy
    ([] ++ {| Knowledge.pol_id := "pol3"; Knowledge.pol_topic := "warranty";
              Knowledge.pol_title := "Guarantee";
              Knowledge.pol_content := "One year." |} :: Inline.policies)
    "WARRANTY" =
  Some {| Knowledge.pol_id := "pol3"; Knowledge.pol_topic := "warranty";
          Knowledge.pol_title := "Guarantee"; Knowledge.pol_content := "One year." |}.
Proof.
  refine (proj2 (lookupPolicy_finds_topic_tag [] Inline.policies _ "WARRANTY" _ _) _).
  - reflexivity.
  - reflexivity.
  - intros q Hq. inversion Hq.
Defined.

(** ** More on the topic guard *)

Lemma stripLit_toLowerCase l s :
  Regex.stripLit l (Js.toLowerCase s) = Js.toLowerCase <$> Regex.stripLit l s.
Proof.
  revert s; induction l as [|a l IH]; intros s; [reflexivity|].
  destruct s as [|b s]; [reflexivity|]. cbn [Regex.stripLit Js.toLowerCase].
  rewrite lowerChar_idem. destruct (Ascii.eqb _ _); [apply IH | reflexivity].
Qed.

Lemma matchStart_toLowerCase p s :
  Regex.matchStart p (Js.toLowerCase s) = map Js.toLowerCase (Regex.matchStart p s).
Proof.
  revert s; induction p as [l|ws|q IHq|q IHq r IHr]; intros s;
    cbn [Regex.matchStart].
  - rewrite stripLit_toLowerCase. destruct (Regex.stripLit l s); reflexivity.
  - induction ws as [|w ws IH]; [reflexivity|]. cbn [omap list_omap].
    rewrite stripLit_toLowerCase.
    destruct (Regex.stripLit w s); cbn [fmap option_fmap option_map map];
      cbn [omap] in IH; rewrite IH; reflexivity.
  - rewrite IHq, map_app. reflexivity.
  - rewrite IHq. induction (Regex.matchStart q s) as [|x xs IH]; [reflexivity|].
    cbn [map flat_map]. rewrite IHr, IH, map_app. reflexivity.
Qed.

Lemma test_toLowerCase p s : Regex.test p (Js.toLowerCase s) = Regex.test p s.
Proof.
  assert (Hh : forall u, Regex.matchesHere p (Js.toLowerCase u) = Regex.matchesHere p u).
  { intros u. unfold Regex.matchesHere. rewrite matchStart_toLowerCase.
    destruct (Regex.matchStart p u); reflexivity. }
  induction s as [|c r IH]; [reflexivity|].
  cbn [Regex.test Js.toLowerCase]. rewrite IH.
  change (String (Js.lowerChar c) (Js.toLowerCase r))
    with (Js.toLowerCase (String c r)).
  rewrite Hh. reflexivity.
Qed.

Lemma stripLit_append l s post rest :
  Regex.stripLit l s = Some rest ->
  Regex.stripLit l (s +:+ post) = Some (rest +:+ post).
Proof.
  revert s; induction l as [|a l IH]; intros s; cbn [Regex.stripLit].
  - intros [= ->]. destruct (rest +:+ post); reflexivity.
  - destruct s as [|b s]; [discriminate|]. rewrite append_cons.
    destruct (Ascii.eqb _ _); [apply IH | discriminate].
Qed.

Lemma matchStart_append p s post rest :
  In rest (Regex.matchStart p s) ->
  In (rest +:+ post) (Regex.matchStart p (s +:+ post)).
Proof.
  revert s rest; induction p as [l|ws|q IHq|q IHq r IHr]; intros s rest;
    cbn [Regex.matchStart].
  - destruct (Regex.stripLit l s) as [x|] eqn:Hx; [|intros []].
    intros [<-|[]]. rewrite (stripLit_append l s post x Hx). left. reflexivity.
  - induction ws as [|w ws IH]; [intros []|]. cbn [omap list_omap].
    destruct (Regex.stripLit w s) as [x|] eqn:Hx.
    + rewrite (stripLit_append w s post x Hx).
      intros [<-|Hin]; [left; reflexivity | right; apply IH, Hin].
    + intros Hin. destruct (Regex.stripLit w (s +:+ post));
        [right|]; apply IH, Hin.
  - intros [Hin|[<-|[]]]%in_app_or; apply in_or_app;
      [left; apply IHq, Hin | right; left; reflexivity].
  - intros (x & Hx & Hin)%in_flat_map. apply in_flat_map.
    exists (x +:+ post). split; [apply IHq, Hx | apply IHr, Hin].
Qed.

Lemma matchesHere_append p s post :
  Regex.matchesHere p s = true -> Regex.matchesHere p (s +:+ post) = true.
Proof.
  unfold Regex.matchesHere. destruct (Regex.matchStart p s) as [|x xs] eqn:Hm;
    [discriminate|]. intros _.
  assert (Hin : In (x +:+ post) (Regex.matchStart p (s +:+ post)))
    by (apply matchStart_append; rewrite Hm; left; reflexivity).
  destruct (Regex.matchStart p (s +:+ post)); [destruct Hin | reflexivity].
Qed.

Lemma test_here p s : Regex.matchesHere p s = true -> Regex.test p s = true.
Proof. intros H. destruct s; cbn [Regex.test]; rewrite H; reflexivity. Qed.

Lemma test_append p s post : Regex.test p s = true -> Regex.test p (s +:+ post) = true.
Proof.
  induction s as [|c r IH]; cbn [Regex.test].
  - rewrite orb_false_r. intros H. apply test_here.
    apply (matchesHere_append p EmptyString post H).
  - intros [H|H]%orb_true_iff.
    + apply test_here. apply (matchesHere_append p (String c r) post H).
    + rewrite append_cons. cbn [Regex.test]. rewrite (IH H). apply orb_true_r.
Qed.

Lemma test_prepend p pre s : Regex.test p s = true -> Regex.test p (pre +:+ s) = true.
Proof.
  intros H. induction pre as [|c r IH]; [exact H|].
  rewrite append_cons. cbn [Regex.test]. rewrite IH. apply orb_true_r.
Qed.

Lemma toLowerCase_chars s :
  String.list_ascii_of_string (Js.toLowerCase s) =
  map Js.lowerChar (String.list_ascii_of_string s).
Proof.
  induction s as [|c r IH]; [reflexivity|]. cbn. rewrite IH. reflexivity.
Qed.

(** X17.  The topic guard looks for its phrases anywhere, and without
    regard to the case of the letters A to Z: a flagged utterance stays
    flagged with any text put before and after it, and two utterances that
    are the same character for character, up to the case of those letters,
    are flagged alike. *)
Theorem topic_guard_anywhere_any_case :
  (forall before utterance after,
      Agent.isLikelyOffTopic utterance = true ->
      Agent.isLikelyOffTopic (before +:+ utterance +:+ after) = true) /\
  (forall utterance utterance',
      map Js.lowerChar (String.list_ascii_of_string utterance) =
      map Js.lowerChar (String.list_ascii_of_string utterance') ->
      Agent.isLikelyOffTopic utterance = Agent.isLikelyOffTopic utterance').
Proof.
  split.
  - intros before utterance after. unfold Agent.isLikelyOffTopic.
    rewrite !existsb_exists. intros (p & Hp & Ht). exists p. split; [exact Hp|].
    apply test_prepend, test_append, Ht.
  - intros u u' Hfold. unfold Agent.isLikelyOffTopic.
    assert (Heq : Js.toLowerCase u = Js.toLowerCase u').
    { rewrite <- (String.string_of_list_ascii_of_string (Js.toLowerCase u)),
        <- (String.string_of_list_ascii_of_string (Js.toLowerCase u')).
      rewrite !toLowerCase_chars, Hfold. reflexivity. }
    assert (Hl : forall v,
               existsb (fun p => Regex.test p (Js.toLowerCase v)) Agent.offTopicPatterns
               = existsb (fun p => Regex.test p v) Agent.offTopicPatterns).
    { intros v. induction Agent.offTopicPatterns as [|p ps IH]; [reflexivity|].
      cbn [existsb]. rewrite test_toLowerCase, IH. reflexivity. }
    rewrite <- (Hl u), <- (Hl u'), Heq. reflexivity.
Qed.

Lemma topic_guard_anywhere_witness :
  Agent.isLikelyOffTopic ("Hi! " +:+ "Tell me a JOKE" +:+ " please") = true.
Proof.
  refine (proj1 topic_guard_anywhere_any_case "Hi! " "Tell me a JOKE" " please" _).
  reflexivity.
Defined.

(** ** The copies of the router, and the tools *)

(** X18.  The router of [src/agent.ts] and its copies differ in the
    fallback only.  The copies return the empty string exactly when no
    keyword block returns; whenever they return something, the router of
    [src/agent.ts] returns the same text, and for an utterance the guard
    does not flag the two [runAgent] then build the same messages. *)
Theorem router_copies_agree (kb : Knowledge.KnowledgeBase) (query : string) :
  (Inline.autoSearchKnowledge kb query = EmptyString <->
   Agent.keywordBranches kb query = None) /\
  (Inline.autoSearchKnowledge kb query <> EmptyString ->
   Agent.autoSearchKnowledge kb query = Inline.autoSearchKnowledge kb query) /\
  (forall history,
      Agent.isLikelyOffTopic query = false ->
      Inline.autoSearchKnowledge kb query <> EmptyString ->
      Agent.apiMessages kb query history = Inline.apiMessages kb query history).
Proof.
  assert (Hagree : Inline.autoSearchKnowledge kb query <> EmptyString ->
                   Agent.autoSearchKnowledge kb query =
                   Inline.autoSearchKnowledge kb query).
  { unfold Inline.autoSearchKnowledge, Agent.autoSearchKnowledge.
    destruct (Agent.keywordBranches kb query); [reflexivity | congruence]. }
  split; [|split; [exact Hagree|]].
  - unfold Inline.autoSearchKnowledge.
    destruct (Agent.keywordBranches kb query) as [text|] eqn:Hb; [|tauto].
    pose proof (keywordBranches_truthy kb query text Hb) as Ht.
    split; [intros ->; discriminate Ht | discriminate].
  - intros history Hflag Hne. unfold Agent.apiMessages, Inline.apiMessages.
    rewrite Hflag, (Hagree Hne). reflexivity.
Qed.

Lemma router_copies_witness :
  Agent.autoSearchKnowledge Inline.standaloneKB "oak worktop" =
  Inline.autoSearchKnowledge Inline.standaloneKB "oak worktop".
Proof.
  refine (proj1 (proj2 (router_copies_agree Inline.standaloneKB "oak worktop")) _).
  vm_compute. discriminate.
Defined.

Lemma truthy_append s t : Js.truthy (s +:+ t) = Js.truthy s || Js.truthy t.
Proof. destruct s; [destruct t|]; reflexivity. Qed.

Lemma truthy_join_cons sep x xs : Js.truthy x = true -> Js.truthy (Js.join sep (x :: xs)) = true.
Proof.
  intros Hx. unfold Js.join. cbn [String.concat]. destruct xs; [exact Hx|].
  rewrite truthy_append, Hx. reflexivity.
Qed.

Lemma orElse_truthy value fallback :
  Js.truthy fallback = true -> Js.truthy (Tools.orElse value fallback) = true.
Proof.
  intros Hf. unfold Tools.orElse. destruct value as [v|]; [|exact Hf].
  destruct (Js.truthy v) eqn:Hv; assumption.
Qed.

Lemma getToolDefinition_known name :
  is_Some (Tools.getToolDefinition name) <->
  name = "product_search" \/ name = "faq_search" \/
  name = "policy_lookup" \/ name = "escalate_to_human".
Proof.
  unfold Tools.getToolDefinition, Tools.toolDefinitions. cbn [List.find Tools.td_name].
  destruct (String.eqb_spec "product_search" name) as [<-|H1];
    [split; [tauto | eauto]|].
  destruct (String.eqb_spec "faq_search" name) as [<-|H2];
    [split; [tauto | eauto]|].
  destruct (String.eqb_spec "policy_lookup" name) as [<-|H3];
    [split; [tauto | eauto]|].
  destruct (String.eqb_spec "escalate_to_human" name) as [<-|H4];
    [split; [tauto | eauto]|].
  split; [intros [x Hx]; discriminate Hx|].
  intros [-> | [-> | [-> | ->]]]; congruence.
Qed.

(** X19.  [executeTool] succeeds exactly for the four tools that
    [toolDefinitions] declares.  A success carries a text that is not empty
    and no error; any other name gives a failure with no text and the error
    "Unknown tool: " followed by the name.  Only [escalate_to_human] writes
    to the log. *)
Theorem executeTool_knows_the_declared_tools kb contact (name : string)
    (input : Tools.ToolInput) :
  let r := fst (Tools.executeTool kb contact name input) in
  let log := snd (Tools.executeTool kb contact name input) in
  (Tools.success r = true <-> is_Some (Tools.getToolDefinition name)) /\
  (Tools.success r = true ->
   Tools.error r = None /\
   exists text, Tools.result r = Some text /\ Js.truthy text = true) /\
  (Tools.success r = false ->
   Tools.result r = None /\
   Tools.error r = Some ("Unknown tool: " +:+ name) /\ log = []) /\
  (log <> [] -> name = "escalate_to_human").
Proof.
  intros r log. subst r log. rewrite getToolDefinition_known.
  unfold Tools.executeTool.
  destruct (String.eqb_spec name "product_search") as [->|H1].
  { destruct (length _ =? 0)%nat; cbn [fst snd Tools.ok Tools.success Tools.result
      Tools.error]; (split; [tauto|]);
      (split; [intros _; split; [reflexivity | eexists; split; reflexivity]|]);
      (split; [discriminate | congruence]). }
  destruct (String.eqb_spec name "faq_search") as [->|H2].
  { destruct (Knowledge.searchFAQs _ _) as [|f fs];
      cbn [length Nat.eqb fst snd Tools.ok Tools.success Tools.result Tools.error];
      (split; [tauto|]); (split; [|split; [discriminate | congruence]]);
      intros _; (split; [reflexivity|]); eexists; (split; [reflexivity|]);
      [reflexivity|]. cbn [map]. apply truthy_join_cons. reflexivity. }
  destruct (String.eqb_spec name "policy_lookup") as [->|H3].
  { destruct (Knowledge.lookupPolicy _ _) as [p|];
      cbn [fst snd Tools.ok Tools.success Tools.result Tools.error];
      (split; [tauto|]); (split; [|split; [discriminate | congruence]]);
      intros _; (split; [reflexivity|]); eexists; (split; [reflexivity|]);
      [|reflexivity].
    rewrite !truthy_append. cbn. apply orb_true_r. }
  destruct (String.eqb_spec name "escalate_to_human") as [->|H4].
  { cbn [fst snd Tools.ok Tools.success Tools.result Tools.error].
    split; [tauto|]. split; [|split; [discriminate | reflexivity]].
    intros _. split; [reflexivity|]. eexists. split; [reflexivity|].
    rewrite truthy_append, orElse_truthy; reflexivity. }
  cbn [fst snd Tools.success Tools.result Tools.error].
  split; [split; [discriminate | intros [|[|[|]]]; contradiction]|].
  split; [discriminate|]. split; [repeat split | congruence].
Qed.

(** X20.  The tools find and render what the router finds and renders.
    For the same query, [product_search] answers with the product blocks of
    the router's product branch under a count line, [faq_search] with the
    question and answer pairs of its FAQ branch, [policy_lookup] with the
    title and content of its policy branch; and each tool reports that
    nothing was found exactly when that branch falls through. *)
Theorem tools_render_like_router kb contact (q : string) :
  let input := {| Tools.query := Some q; Tools.topic := Some q;
                  Tools.reason := None |} in
  let answer name := Tools.result (fst (Tools.executeTool kb contact name input)) in
  match Agent.productBranch kb q with
  | Some text =>
      exists body,
        text = Agent.productHeader +:+ Js.nl +:+ Js.nl +:+ body /\
        answer "product_search" =
        Some ("Found " +:+
              Js.decimal (N.of_nat (length (Knowledge.searchProducts
                                              (Knowledge.products kb) q))) +:+
              " product(s):" +:+ Js.nl +:+ Js.nl +:+ body)
  | None =>
      answer "product_search" =
      Some "No products found matching that query. Try a different search term or browse our categories."
  end /\
  match Agent.faqBranch kb q with
  | Some text =>
      exists body,
        text = Agent.faqHeader +:+ Js.nl +:+ Js.nl +:+ body /\
        answer "faq_search" = Some body
  | None => answer "faq_search" = Some "No FAQs found matching that query."
  end /\
  match Agent.policyBranch kb q with
  | Some text =>
      exists body,
        text = Agent.policyHeader +:+ Js.nl +:+ Js.nl +:+ body /\
        answer "policy_lookup" = Some body
  | None =>
      answer "policy_lookup" =
      Some ("No policy found for " +:+ Tools.quote +:+ q +:+ Tools.quote +:+
            ". Try a different topic like 'returns', 'shipping', 'warranty', or 'terms'.")
  end.
Proof.
  intros input answer. subst answer input.
  assert (Hq : Tools.orElse (Some q) EmptyString = q).
  { unfold Tools.orElse. destruct q; reflexivity. }
  unfold Tools.executeTool, Agent.productBranch, Agent.faqBranch, Agent.policyBranch.
  cbn [String.eqb Ascii.eqb Bool.eqb Tools.query Tools.topic]. rewrite !Hq.
  split; [|split].
  - destruct (Knowledge.searchProducts (Knowledge.products kb) q) as [|p ps];
      [reflexivity|]. cbn [length Nat.ltb Nat.leb Nat.eqb fst Tools.ok Tools.result].
    eexists. split; reflexivity.
  - destruct (Knowledge.searchFAQs (Knowledge.faqs kb) q) as [|f fs];
      [reflexivity|]. cbn [length Nat.ltb Nat.leb Nat.eqb fst Tools.ok Tools.result].
    eexists. split; reflexivity.
  - destruct (Knowledge.lookupPolicy (Knowledge.policies kb) q) as [p|];
      cbn [fst Tools.ok Tools.result]; [|reflexivity].
    eexists. split; reflexivity.
Qed.

Example product_search_tool :
  Tools.result
    (fst (Tools.executeTool Inline.standaloneKB None "product_search"
            {| Tools.query := Some "quartz"; Tools.topic := None;
               Tools.reason := None |})) =
  Some ("Found 1 product(s):" +:+ Js.nl +:+ Js.nl +:+
        "• Quartz Worktop (Worktops)" +:+ Js.nl +:+
        "  Engineered quartz surface" +:+ Js.nl +:+
        "  Price: £299.99" +:+ Js.nl +:+ "  ✗ Out of Stock").
Proof. reflexivity. Qed.

(** ** What a product match means *)

Lemma splitWs_no_space b s w :
  In w (Js.splitWs b s) ->
  Forall (fun c => Js.isSpace c = false) (String.list_ascii_of_string w).
Proof.
  revert b w; induction s as [|c r IH]; intros b w; cbn [Js.splitWs].
  - intros [<-|[]]. constructor.
  - destruct (Js.isSpace c) eqn:Hc.
    + destruct b; [apply IH|]. intros [<-|Hin]; [constructor | exact (IH true w Hin)].
    + pose proof (IH false) as IHf.
      destruct (Js.splitWs false r) as [|w0 ws].
      * intros [<-|[]]. repeat constructor. exact Hc.
      * intros [<-|Hin].
        -- cbn. constructor; [exact Hc | apply IHf; left; reflexivity].
        -- apply IHf. right. exact Hin.
Qed.

Lemma prefix_before_space w a b :
  Forall (fun c => Js.isSpace c = false) (String.list_ascii_of_string w) ->
  String.prefix w (a +:+ String " "%char b) = true -> String.prefix w a = true.
Proof.
  revert a; induction w as [|x w IH]; intros a Hw;
    [intros _; destruct a; reflexivity|].
  cbn in Hw. apply Forall_cons in Hw as [Hx Hw].
  destruct a as [|c a].
  - rewrite append_nil_l. cbn. destruct (ascii_dec x " ") as [->|]; [|discriminate].
    discriminate Hx.
  - rewrite append_cons. cbn. destruct (ascii_dec x c); [apply IH, Hw | discriminate].
Qed.

Lemma includes_across_space w a b :
  Js.truthy w = true ->
  Forall (fun c => Js.isSpace c = false) (String.list_ascii_of_string w) ->
  Js.includes (a +:+ String " "%char b) w = true ->
  Js.includes a w = true \/ Js.includes b w = true.
Proof.
  intros Hne Hw. induction a as [|c a IH].
  - rewrite append_nil_l. cbn [Js.includes].
    intros [Hp|Hb]%orb_true_iff; [|right; exact Hb].
    pose proof (prefix_before_space w EmptyString b Hw Hp) as He.
    destruct w; [discriminate Hne | discriminate He].
  - rewrite append_cons. cbn [Js.includes].
    intros [Hp|Hr]%orb_true_iff.
    + left. apply orb_true_iff. left.
      apply (prefix_before_space w (String c a) b Hw). rewrite append_cons. exact Hp.
    + destruct (IH Hr) as [Ha|Hb]; [left|right; exact Hb].
      apply orb_true_iff. right. exact Ha.
Qed.

(** The text a product is searched in, by cases. *)
Lemma searchableText_product_cases (p : Knowledge.Product) :
  let n := Js.toLowerCase (Knowledge.prod_name p) in
  let d := Js.toLowerCase (Knowledge.prod_description p) in
  Knowledge.searchableText p =
  if Js.truthy n && Js.truthy d then n +:+ String " "%char d
  else if Js.truthy n then n else d.
Proof.
  intros n d. subst n d. rewrite !truthy_toLowerCase.
  unfold Knowledge.searchableText; cbn [Knowledge.name Knowledge.question
    Knowledge.title Knowledge.description Knowledge.keywords
    Knowledge.Product_Searchable fmap option_fmap option_map].
  unfold Js.filterBoolean. cbn [omap list_omap].
  destruct (Js.truthy (Knowledge.prod_name p)) eqn:Hn;
    destruct (Js.truthy (Knowledge.prod_description p)) eqn:Hd;
    unfold Js.join; cbn [String.concat andb].
  - rewrite toLowerCase_append. reflexivity.
  - reflexivity.
  - reflexivity.
  - destruct (Knowledge.prod_description p); [reflexivity | discriminate].
Qed.

Lemma product_word_match (p : Knowledge.Product) w :
  Forall (fun c => Js.isSpace c = false) (String.list_ascii_of_string w) ->
  Knowledge.wordMatches (Knowledge.searchableText p) w = true <->
  (2 <= String.length w)%nat /\
  (Js.includes (Js.toLowerCase (Knowledge.prod_name p)) w = true \/
   Js.includes (Js.toLowerCase (Knowledge.prod_description p)) w = true).
Proof.
  intros Hw. unfold Knowledge.wordMatches.
  destruct (Nat.ltb_spec (String.length w) 2) as [Hs|Hl];
    [split; [discriminate | lia]|].
  assert (Hne : Js.truthy w = true) by (destruct w; [cbn in Hl; lia | reflexivity]).
  rewrite searchableText_product_cases.
  set (n := Js.toLowerCase (Knowledge.prod_name p)).
  set (d := Js.toLowerCase (Knowledge.prod_description p)).
  assert (Hempty : forall s, Js.truthy s = false -> Js.includes s w = false).
  { intros [|c s]; [|discriminate]. intros _. cbn. destruct w; [discriminate|reflexivity]. }
  destruct (Js.truthy n) eqn:Hn; destruct (Js.truthy d) eqn:Hd; cbn [andb].
  - split.
    + intros Hi. split; [exact Hl|]. exact (includes_across_space w n d Hne Hw Hi).
    + intros [_ [Ha|Hb]]; [apply includes_append, Ha | apply includes_append_r].
      cbn [Js.includes]. rewrite Hb. apply orb_true_r.
  - rewrite (Hempty d Hd). split; [tauto|]. intros [_ [Ha|Hb]]; [exact Ha | discriminate].
  - rewrite (Hempty n Hn). split; [tauto|]. intros [_ [Ha|Hb]]; [discriminate | exact Hb].
  - rewrite (Hempty n Hn), (Hempty d Hd). split; [tauto|].
    intros [_ [Ha|Hb]]; discriminate.
Qed.

(** X21.  What it takes for a product to match: a product is among the
    matches of a query exactly when it is in the store and some word of
    the lower-cased query, of two characters or more, occurs in its
    lower-cased name or in its lower-cased description; its category and
    its other fields play no part.  [searchProducts] returns matches
    only. *)
Theorem product_match_is_word_in_name_or_description
    (products : list Knowledge.Product) (query : string) (p : Knowledge.Product) :
  (p ∈ Knowledge.searchByKeyword products query <->
   p ∈ products /\
   exists w,
     In w (Js.split (Js.toLowerCase query)) /\ (2 <= String.length w)%nat /\
     (Js.includes (Js.toLowerCase (Knowledge.prod_name p)) w = true \/
      Js.includes (Js.toLowerCase (Knowledge.prod_description p)) w = true)) /\
  (p ∈ Knowledge.searchProducts products query ->
   p ∈ Knowledge.searchByKeyword products query).
Proof.
  split.
  - unfold Knowledge.searchByKeyword. rewrite list_elem_of_In, filter_In,
      <- list_elem_of_In.
    unfold Knowledge.itemMatches. rewrite existsb_exists.
    split; intros [Hin (w & Hw & Hm)]; (split; [exact Hin|]); exists w.
    + apply product_word_match in Hm; [tauto|].
      exact (splitWs_no_space false _ w Hw).
    + split; [exact Hw|]. apply product_word_match; [|tauto].
      exact (splitWs_no_space false _ w Hw).
  - unfold Knowledge.searchProducts.
    destruct (negb (Js.truthy (Js.trim query))); [intros H; inversion H|].
    intros Hin. exact (elem_of_sublist _ _ _ Hin (sublist_take _ _)).
Qed.

Lemma product_match_witness :
  Samples.premiumOak ∈ Knowledge.searchByKeyword Inline.products "solid wood".
Proof.
  refine (proj2 (proj1 (product_match_is_word_in_name_or_description
                          Inline.products "solid wood" Samples.premiumOak)) _).
  split; [left|]. exists "solid". split; [left; reflexivity|].
  split; [cbn; lia | right; reflexivity].
Defined.

(** ** The limiter's counters and the shape of a request *)

Lemma bun_chat_rateLimit systemPrompt kb ip now request outcome (st : BunServer.State) :
  BunServer.rateLimit (store (BunServer.chat systemPrompt kb ip now request outcome st)) =
  snd (BunServer.checkRateLimit ip now (BunServer.rateLimit st)).
Proof.
  unfold BunServer.chat.
  destruct (BunServer.checkRateLimit ip now (BunServer.rateLimit st))
    as [[] rateLimit']; cbn [negb snd]; [|reflexivity].
  destruct request as [[[id|] [raw|]]|t]; cbn [sessionId message]; try reflexivity.
  destruct (negb (Js.truthy id) || negb (Js.truthy raw)); [reflexivity|].
  destruct (getOrCreate (BunServer.sessions st) id now) as [session sessions1].
  destruct (_ <=? _)%nat; [reflexivity|].
  destruct (Js.truthyOpt _); reflexivity.
Qed.

Lemma checkRateLimit_counts ip now (rateLimit : gmap string BunServer.RateEntry) :
  (forall i e, rateLimit !! i = Some e ->
               1 <= BunServer.count e <= CONFIG.MAX_MESSAGES_PER_MINUTE) ->
  forall i e, snd (BunServer.checkRateLimit ip now rateLimit) !! i = Some e ->
              1 <= BunServer.count e <= CONFIG.MAX_MESSAGES_PER_MINUTE.
Proof.
  intros Hinv i e. unfold BunServer.checkRateLimit.
  assert (Hfresh : forall m : gmap string BunServer.RateEntry,
             (forall i e, m !! i = Some e ->
                          1 <= BunServer.count e <= CONFIG.MAX_MESSAGES_PER_MINUTE) ->
             forall c r, 1 <= c <= CONFIG.MAX_MESSAGES_PER_MINUTE ->
             <[ip := {| BunServer.count := c; BunServer.resetTime := r |}]> m !! i
               = Some e ->
             1 <= BunServer.count e <= CONFIG.MAX_MESSAGES_PER_MINUTE).
  { intros m Hm c r Hc. rewrite lookup_insert.
    destruct (decide (ip = i)); [intros [= <-]; exact Hc | apply Hm]. }
  destruct (rateLimit !! ip) as [limit|] eqn:Hl; cbn [snd].
  - destruct (_ <? _); cbn [snd];
      [apply (Hfresh _ Hinv); unfold CONFIG.MAX_MESSAGES_PER_MINUTE; lia|].
    destruct (Z.leb_spec CONFIG.MAX_MESSAGES_PER_MINUTE (BunServer.count limit));
      cbn [snd]; [apply Hinv|].
    apply (Hfresh _ Hinv). specialize (Hinv ip limit Hl). lia.
  - apply (Hfresh _ Hinv). unfold CONFIG.MAX_MESSAGES_PER_MINUTE; lia.
Qed.

(** X22.  Every request to the chat route is counted by the limiter,
    whatever becomes of it afterwards (rejected as incomplete, turned away
    at the session limit, failed or answered); and no counter of the
    limiter is ever below one or above the allowance of twenty. *)
Theorem every_request_is_counted systemPrompt kb :
  (forall ip now request outcome (st : BunServer.State),
      BunServer.rateLimit
        (store (BunServer.chat systemPrompt kb ip now request outcome st)) =
      snd (BunServer.checkRateLimit ip now (BunServer.rateLimit st))) /\
  (forall events ip entry,
      BunServer.rateLimit (BunServer.run systemPrompt kb events) !! ip = Some entry ->
      1 <= BunServer.count entry <= CONFIG.MAX_MESSAGES_PER_MINUTE).
Proof.
  split; [apply bun_chat_rateLimit|]. intros events. unfold BunServer.run.
  assert (Hgen : forall st,
             (forall i e, BunServer.rateLimit st !! i = Some e ->
                          1 <= BunServer.count e <= CONFIG.MAX_MESSAGES_PER_MINUTE) ->
             forall i e,
               BunServer.rateLimit
                 (fold_left (BunServer.step systemPrompt kb) events st) !! i = Some e ->
               1 <= BunServer.count e <= CONFIG.MAX_MESSAGES_PER_MINUTE).
  { induction events as [|ev events IH]; intros st Hst; [exact Hst|].
    cbn [fold_left]. apply IH.
    destruct ev as [ip now request outcome|now]; cbn [BunServer.step].
    - rewrite bun_chat_rateLimit. apply checkRateLimit_counts, Hst.
    - intros i e [Hl _]%cleanup_rateLimit_lookup. exact (Hst i e Hl). }
  apply Hgen. intros i e. unfold BunServer.initial; cbn [BunServer.rateLimit].
  rewrite lookup_empty. discriminate.
Qed.

Lemma every_request_counted_witness :
  1 <= 1 <= CONFIG.MAX_MESSAGES_PER_MINUTE.
Proof.
  refine (proj2 (every_request_is_counted "persona" Inline.standaloneKB)
            [BunServer.Chat "10.0.0.7" 5 (Unreadable OtherValue) NoMessage]
            "10.0.0.7" {| BunServer.count := 1; BunServer.resetTime := 60005 |} _).
  vm_compute; reflexivity.
Defined.

(** X23.  Whatever the utterance and the history, [runAgent] of
    [src/agent.ts] sends one request: the system prompt, then the history
    message for message, then one user message.  That message is the
    annotation and a blank line if the guard flags the utterance, then the
    question with the utterance as it is, then the knowledge context, which
    is never empty, under its header and followed by the instruction. *)
Theorem runAgent_request_shape systemPrompt kb outcome (userMessage : string)
    (history : list Message) :
  let context := Agent.autoSearchKnowledge kb userMessage in
  let body :=
    "CUSTOMER QUESTION: " +:+ userMessage +:+ Js.nl +:+ Js.nl +:+
    "RELEVANT KNOWLEDGE:" +:+ Js.nl +:+ context +:+ Js.nl +:+ Js.nl +:+
    "Please answer based on this information." in
  context <> EmptyString /\
  Agent.requests (Agent.runAgent systemPrompt kb outcome userMessage history) =
  [ {| role := system; content := systemPrompt |} ::
    history ++
    [ {| role := user;
         content :=
           if Agent.isLikelyOffTopic userMessage
           then Agent.systemNoteText +:+ Js.nl +:+ Js.nl +:+ body
           else body |} ] ].
Proof.
  intros context body. pose proof (autoSearchKnowledge_truthy kb userMessage) as Ht.
  fold context in Ht. split; [intros He; rewrite He in Ht; discriminate Ht|].
  unfold Agent.runAgent, Agent.apiMessages; cbn [Agent.requests].
  rewrite copy_history. fold context.
  unfold Agent.userContent, Agent.knowledgeSection. rewrite Ht.
  destruct (Agent.isLikelyOffTopic userMessage); reflexivity.
Qed.

Lemma escapeHtml_witness :
  "&"%char <> ServerUtil.lt /\ "&"%char <> ServerUtil.gt /\
  "&"%char <> ServerUtil.dquote /\ "&"%char <> ServerUtil.squote.
Proof.
  refine (proj1 (proj2 (proj2 escapeHtml_is_one_pass)) "<b>" "&"%char _).
  left. reflexivity.
Defined.

Lemma getClientIP_witness :
  let headers := {| ServerUtil.forwardedFor := Some " 203.0.113.9 , 10.0.0.1";
                    ServerUtil.realIp := None |} in
  Some (ServerUtil.getClientIP headers) =
    ((fun v => Js.trim (ServerUtil.firstField v)) <$> ServerUtil.forwardedFor headers) /\
  ~ In ","%char (String.list_ascii_of_string (ServerUtil.getClientIP headers)).
Proof.
  refine (proj1 (proj2 (getClientIP_never_empty
                          {| ServerUtil.forwardedFor := Some " 203.0.113.9 , 10.0.0.1";
                             ServerUtil.realIp := None |})) _).
  reflexivity.
Defined.

Lemma executeTool_witness :
  let r := fst (Tools.executeTool Inline.standaloneKB None "policy_lookup"
                  {| Tools.query := None; Tools.topic := Some "returns";
                     Tools.reason := None |}) in
  Tools.error r = None /\
  exists text, Tools.result r = Some text /\ Js.truthy text = true.
Proof.
  refine (proj1 (proj2 (executeTool_knows_the_declared_tools Inline.standaloneKB None
                          "policy_lookup"
                          {| Tools.query := None; Tools.topic := Some "returns";
                             Tools.reason := None |})) _).
  reflexivity.
Defined.
